(** * Cache-control proxy: normalizer, validator, header policy and forwarders

    A shallow embedding of [anthropic_proxy.py] (class
    [AnthropicRequestHandler] and the route [messages_endpoint]) and of
    [openrouter_proxy.py] (class [OpenAIRequestHandler]).

    - JSON request bodies are Python values: [pyval].  A Python [dict] is an
      association list in insertion order, which is also the order in which
      [json.dumps] writes it.
    - A Python [str] and a Python [bytes] are both Rocq strings; a character
      is one code point below 256, respectively one byte.
    - Exceptions are values of type [exn]; code that can raise returns a
      [result].
    - The HTTP client (aiohttp) is the environment: what a POST does is
      given by an [upstream] function, and every POST that is issued is
      logged, so that statements of the form "no network call was made" can
      be written down.
    - A library call that raises on what the code gives it raises in the
      model: [e.text()] on a response error, [aiohttp.TCPConnector] with
      a keyword it does not take, [JSONResponse] on a float out of range.
    - The normalizer is given twice: as a function on values ([Normalizer])
      and as a program on a store of mutable objects ([Heap]), the second
      one to speak about mutation and aliasing. *)

From Stdlib Require Import ZArith String Ascii List Lia.
From stdpp Require Import base gmap strings list option pretty.

Set Warnings "-register-all".
Open Scope string_scope.

(** ** Python values *)

(** The values [json] reads.  A float is kept as the text that [repr]
    prints for it, which identifies it. *)
Inductive pyval : Type :=
| PNone
| PBool (b : bool)
| PInt (z : Z)
| PFloat (repr : string)
| PStr (s : string)
| PList (l : list pyval)
| PDict (d : list (string * pyval)).

Abbreviation pydict := (list (string * pyval)).

(** Operations of a [dict] with string keys, for any type of values. *)
Section Dict.
Context {V : Type}.

(** [d.get(k)] *)
Fixpoint dict_get (k : string) (d : list (string * V)) : option V :=
  match d with
  | [] => None
  | (k', v) :: d' => if String.eqb k k' then Some v else dict_get k d'
  end.

(** [k in d] *)
Definition dict_contains (k : string) (d : list (string * V)) : bool :=
  match dict_get k d with Some _ => true | None => false end.

(** [d.get(k, dflt)] *)
Definition dict_get_default (k : string) (dflt : V) (d : list (string * V)) : V :=
  match dict_get k d with Some v => v | None => dflt end.

(** [d[k] = v]: an existing key keeps its place, a new key goes last. *)
Fixpoint dict_set (k : string) (v : V) (d : list (string * V)) : list (string * V) :=
  match d with
  | [] => [(k, v)]
  | (k', v') :: d' =>
      if String.eqb k k' then (k, v) :: d' else (k', v') :: dict_set k v d'
  end.

(** [del d[k]] and [d.pop(k)] on a dict that has [k], and the
    comprehension [{k': v for k', v in d.items() if k' != k}]. *)
Fixpoint dict_del (k : string) (d : list (string * V)) : list (string * V) :=
  match d with
  | [] => []
  | (k', v') :: d' =>
      if String.eqb k k' then dict_del k d' else (k', v') :: dict_del k d'
  end.
End Dict.

(** Truth value of an object, as [if x:] and [x or y] test it. *)
Definition truthy (v : pyval) : bool :=
  match v with
  | PNone => false
  | PBool b => b
  | PInt z => negb (Z.eqb z 0)
  | PFloat repr => negb (String.eqb repr "0.0" || String.eqb repr "-0.0")
  | PStr s => negb (String.eqb s "")
  | PList l => match l with [] => false | _ => true end
  | PDict d => match d with [] => false | _ => true end
  end.

Definition type_name (v : pyval) : string :=
  match v with
  | PNone => "NoneType"
  | PBool _ => "bool"
  | PInt _ => "int"
  | PFloat _ => "float"
  | PStr _ => "str"
  | PList _ => "list"
  | PDict _ => "dict"
  end.

(** ** Exceptions *)

(** The exception classes the two files can meet.  [OtherException] stands
    for any further subclass of [Exception]. *)
Inductive exc_class : Type :=
| OtherException
| ValueError
| JSONDecodeError
| KeyError
| TypeError
| AttributeError
| HTTPException
| TimeoutError
| ClientError
| ClientResponseError
| ContentTypeError
| ClientConnectionError
| ServerTimeoutError
| ClientPayloadError.

(** [issubclass]: [asyncio.TimeoutError], [json.JSONDecodeError] under
    [ValueError], and aiohttp's [client_exceptions] hierarchy, where
    [ServerTimeoutError] is both a connection error and a timeout. *)
Definition issubclass (c base : exc_class) : bool :=
  match base, c with
  | OtherException, OtherException => true
  | ValueError, (ValueError | JSONDecodeError) => true
  | JSONDecodeError, JSONDecodeError => true
  | KeyError, KeyError => true
  | TypeError, TypeError => true
  | AttributeError, AttributeError => true
  | HTTPException, HTTPException => true
  | TimeoutError, (TimeoutError | ServerTimeoutError) => true
  | ClientError, (ClientError | ClientResponseError | ContentTypeError
                  | ClientConnectionError | ServerTimeoutError
                  | ClientPayloadError) => true
  | ClientResponseError, (ClientResponseError | ContentTypeError) => true
  | ContentTypeError, ContentTypeError => true
  | ClientConnectionError, (ClientConnectionError | ServerTimeoutError) => true
  | ServerTimeoutError, ServerTimeoutError => true
  | ClientPayloadError, ClientPayloadError => true
  | _, _ => false
  end.

(** An exception object: its class, [str(e)], and the attributes [status]
    and [message] that the response errors carry. *)
Record exn : Type := mk_exn {
  exc_cls : exc_class;
  exc_str : string;
  exc_status : Z;
  exc_message : string
}.

Definition isinstance (e : exn) (c : exc_class) : bool := issubclass (exc_cls e) c.

Definition py_exc (c : exc_class) (msg : string) : exn :=
  {| exc_cls := c; exc_str := msg; exc_status := 0; exc_message := "" |}.

Inductive result (A : Type) : Type :=
| Ok (a : A)
| Raise (e : exn).
Arguments Ok {A} a.
Arguments Raise {A} e.

(** Sequencing: the first exception raised ends the computation. *)
#[global] Instance result_bind : MBind result := fun A B f r =>
  match r with
  | Ok a => f a
  | Raise e => Raise e
  end.

#[global] Instance result_ret : MRet result := fun A a => Ok a.

Definition no_attribute (v : pyval) (attr : string) : exn :=
  py_exc AttributeError
    ("'" ++ type_name v ++ "' object has no attribute '" ++ attr ++ "'").

(** ** Request normalizer (functional model) *)

Module Normalizer.
Section WithRepr.

(** [str(x)] of the interpreter for objects that are not strings. *)
Variable py_repr : pyval -> string.

Definition py_str (v : pyval) : string :=
  match v with
  | PStr s => s
  | _ => py_repr v
  end.

(** The cache directive the normalizer attaches: [{"type": "ephemeral",
    "ttl": ttl}] in [anthropic_proxy.py], [{"type": "ephemeral"}] in
    [openrouter_proxy.py].  The two normalizers differ in nothing else. *)
Variable directive : pyval.

(** [{k: v for k, v in content_block.items() if k != 'cache_control'}]
    for a dict block, the block itself otherwise. *)
Definition clean_block (content_block : pyval) : pyval :=
  match content_block with
  | PDict d => PDict (dict_del "cache_control" d)
  | _ => content_block
  end.

(** The body of the first loop on a message that is a dict. *)
Definition clean_dict (message : pydict) : pydict :=
  let cleaned_message := dict_del "cache_control" message in
  match dict_get_default "content" (PList []) message with
  | PList content =>
      dict_set "content" (PList (map clean_block content)) cleaned_message
  | _ => cleaned_message
  end.

Definition is_cache_control_str (v : pyval) : bool :=
  match v with
  | PStr s => String.eqb s "cache_control"
  | _ => false
  end.

(** The body of the first loop on any message.  Only a dict has both
    [copy] and [get]; a list has [copy], and [del] on it is a type error. *)
Definition clean_message (message : pyval) : result pydict :=
  match message with
  | PDict d => Ok (clean_dict d)
  | PList l =>
      if existsb is_cache_control_str l
      then Raise (py_exc TypeError "list indices must be integers or slices, not str")
      else Raise (no_attribute message "get")
  | _ => Raise (no_attribute message "copy")
  end.

Fixpoint clean_messages (messages : list pyval) : result (list pydict) :=
  match messages with
  | [] => Ok []
  | message :: rest =>
      cleaned_message ← clean_message message;
      standardized ← clean_messages rest;
      Ok (cleaned_message :: standardized)
  end.

Definition text_block (text : string) : pyval :=
  PDict [("type", PStr "text"); ("text", PStr text); ("cache_control", directive)].

(** What the branch [if isinstance(content, list)] leaves in [content],
    the list object held by [last_message['content']]. *)
Definition tag_content (content : list pyval) : list pyval :=
  match last content with
  | Some (PDict block) =>
      <[pred (length content) := PDict (dict_set "cache_control" directive block)]> content
  | Some block =>
      content ++ [text_block (if truthy block then py_str block else "")]
  | None => content
  end.

(** The second phase, on [last_message = standardized_messages[-1]].
    A list found under ['content'] is changed in place, so the change
    shows in [last_message]; for an empty list the code binds the local
    name [content] to the new block and [last_message] is not touched.
    When the key is missing [get] returns a fresh empty list. *)
Definition tag_last_message (last_message : pydict) : pydict :=
  match dict_get "content" last_message with
  | Some (PList content) =>
      match content with
      | [] => last_message
      | _ => dict_set "content" (PList (tag_content content)) last_message
      end
  | Some (PStr content) => dict_set "content" (PList [text_block content]) last_message
  | Some _ => dict_set "content" (PList [text_block ""]) last_message
  | None => last_message
  end.

Definition tag_last (standardized_messages : list pydict) : list pydict :=
  match last standardized_messages with
  | Some last_message =>
      <[pred (length standardized_messages) := tag_last_message last_message]>
        standardized_messages
  | None => standardized_messages
  end.

Definition normalize (messages : list pyval) : result (list pyval) :=
  match messages with
  | [] => Ok messages
  | _ =>
      standardized_messages ← clean_messages messages;
      Ok (map PDict (tag_last standardized_messages))
  end.

(** [_has_cache_control], counting instead of stopping at the first. *)
Definition block_has_cache_control (content_block : pyval) : bool :=
  match content_block with
  | PDict d => dict_contains "cache_control" d
  | _ => false
  end.

Definition content_directives (content : pyval) : nat :=
  match content with
  | PList blocks => length (List.filter block_has_cache_control blocks)
  | _ => 0
  end.

Definition message_directives (message : pyval) : nat :=
  match message with
  | PDict d =>
      (if dict_contains "cache_control" d then 1 else 0)
      + content_directives (dict_get_default "content" (PList []) d)
  | _ => 0
  end.

Definition count_directives (messages : list pyval) : nat :=
  list_sum (map message_directives messages).

Definition is_dict (v : pyval) : bool :=
  match v with
  | PDict _ => true
  | _ => false
  end.

(** A message as the first loop leaves it. *)
Definition cleaned (c : pydict) : Prop :=
  dict_get "cache_control" c = None /\
  match dict_get "content" c with
  | Some (PList blocks) => map clean_block blocks = blocks
  | Some _ => True
  | None => False
  end.

(** [last_message] has no directive of its own, its content is a list of
    blocks, the last block is a dict that carries [directive], and no
    block before it carries one. *)
Definition tail_directive (last_message : pydict) : Prop :=
  dict_contains "cache_control" last_message = false /\
  exists blocks block,
    dict_get "content" last_message = Some (PList (blocks ++ [PDict block])%list) /\
    content_directives (PList blocks) = 0 /\
    dict_get "cache_control" block = Some directive.

(** The one directive of [messages] is on the last block of the last
    message. *)
Definition directive_at_tail (messages : list pyval) : Prop :=
  exists front last_message,
    messages = (front ++ [PDict last_message])%list /\
    count_directives front = 0 /\
    tail_directive last_message.

End WithRepr.
End Normalizer.

(** ** Validator *)

(** The test on one message in [_validate_anthropic_request] and
    [_validate_openai_request]: a dict that has ['role'] and ['content']. *)
Definition message_ok (message : pyval) : bool :=
  match message with
  | PDict d => dict_contains "role" d && dict_contains "content" d
  | _ => false
  end.

(** The two validators have the same body. *)
Definition validate_request (request_data : pydict) : bool :=
  if negb (dict_contains "model" request_data) then false
  else if negb (dict_contains "messages" request_data) then false
  else
    match dict_get_default "messages" (PList []) request_data with
    | PList messages =>
        match messages with
        | [] => false
        | _ => forallb message_ok messages
        end
    | _ => false
    end.

(** ** json.dumps and the error frames *)

Definition dquote : ascii := "034"%char.
Definition backslash : ascii := "092"%char.
Definition newline : ascii := "010"%char.

Definition hex_digit (n : N) : ascii :=
  ascii_of_N (if (n <? 10)%N then 48 + n else 87 + n).

(** [json.dumps] with its default [ensure_ascii=True]: the two-character
    escapes, and [\u00xx] for every other character outside [' '..'~']. *)
Definition escape_char (c : ascii) : string :=
  let n := N_of_ascii c in
  if (n =? 34)%N then String backslash (String dquote "")
  else if (n =? 92)%N then String backslash (String backslash "")
  else if (n =? 10)%N then String backslash "n"
  else if (n =? 13)%N then String backslash "r"
  else if (n =? 9)%N then String backslash "t"
  else if (n =? 8)%N then String backslash "b"
  else if (n =? 12)%N then String backslash "f"
  else if ((n <? 32) || (126 <? n))%N
       then String backslash
              (String "u" (String "0" (String "0"
                 (String (hex_digit (n / 16)) (String (hex_digit (n mod 16)) "")))))
  else String c "".

Fixpoint escape (s : string) : string :=
  match s with
  | EmptyString => ""
  | String c s' => escape_char c ++ escape s'
  end.

Definition json_str (s : string) : string :=
  String dquote (escape s ++ String dquote "").

Definition json_float (repr : string) : string :=
  if String.eqb repr "inf" then "Infinity"
  else if String.eqb repr "-inf" then "-Infinity"
  else if String.eqb repr "nan" then "NaN"
  else repr.

(** [json.dumps(v)] with the default separators [', '] and [': ']. *)
Fixpoint json_dumps (v : pyval) : string :=
  match v with
  | PNone => "null"
  | PBool true => "true"
  | PBool false => "false"
  | PInt z => pretty z
  | PFloat repr => json_float repr
  | PStr s => json_str s
  | PList l => "[" ++ String.concat ", " (map json_dumps l) ++ "]"
  | PDict d =>
      "{" ++ String.concat ", "
               (map (fun kv => json_str (fst kv) ++ ": " ++ json_dumps (snd kv)) d)
          ++ "}"
  end.

(** [s.encode('utf-8')] for code points below 256. *)
Definition encode_char (c : ascii) : string :=
  let n := N_of_ascii c in
  if (n <? 128)%N then String c ""
  else String (ascii_of_N (192 + n / 64)) (String (ascii_of_N (128 + n mod 64)) "").

Fixpoint encode_utf8 (s : string) : string :=
  match s with
  | EmptyString => ""
  | String c s' => encode_char c ++ encode_utf8 s'
  end.

(** [{"error": {"type": kind, "message": message}}] *)
Definition error_envelope (kind message : string) : pyval :=
  PDict [("error", PDict [("type", PStr kind); ("message", PStr message)])].

(** [f'event: error\ndata: {json.dumps(error_data)}\n\n'.encode('utf-8')] *)
Definition event_error_frame (error_data : pyval) : string :=
  encode_utf8 ("event: error" ++ String newline ("data: " ++ json_dumps error_data
                 ++ String newline (String newline ""))).

(** [f'data: {json.dumps(error_data)}\n\n'.encode('utf-8')] *)
Definition data_frame (error_data : pyval) : string :=
  encode_utf8 ("data: " ++ json_dumps error_data
                 ++ String newline (String newline "")).

(** ** Reading a frame back

    What a consumer of the event stream does with a frame: take the text of
    the [data:] line, and read it as JSON.  The reader covers objects,
    arrays, strings, integers and the three literals; it answers [None] on
    anything else, so [Some v] means the text is JSON for [v]. *)

Fixpoint strip_prefix (p s : string) : option string :=
  match p with
  | EmptyString => Some s
  | String a p' =>
      match s with
      | String b s' => if Ascii.eqb a b then strip_prefix p' s' else None
      | EmptyString => None
      end
  end.

(** The text before the first line feed, and the text after it. *)
Fixpoint split_line (s : string) : option (string * string) :=
  match s with
  | EmptyString => None
  | String c s' =>
      if Ascii.eqb c newline then Some ("", s')
      else match split_line s' with
           | Some (line, rest) => Some (String c line, rest)
           | None => None
           end
  end.

(** The payload of a frame [[event: error\n]data: <payload>\n\n]. *)
Definition sse_data (frame : string) : option string :=
  let body := match strip_prefix ("event: error" ++ String newline "") frame with
              | Some rest => rest
              | None => frame
              end in
  match strip_prefix "data: " body with
  | Some rest =>
      match split_line rest with
      | Some (payload, after) =>
          if String.eqb after (String newline "") then Some payload else None
      | None => None
      end
  | None => None
  end.

Definition hex_value (c : ascii) : option N :=
  let n := N_of_ascii c in
  if ((48 <=? n) && (n <=? 57))%N then Some (n - 48)%N
  else if ((97 <=? n) && (n <=? 102))%N then Some (n - 87)%N
  else if ((65 <=? n) && (n <=? 70))%N then Some (n - 55)%N
  else None.

(** The rest of a JSON string after its opening quote. *)
Fixpoint read_string (s : string) : option (string * string) :=
  match s with
  | EmptyString => None
  | String c s' =>
      if Ascii.eqb c dquote then Some ("", s')
      else if Ascii.eqb c backslash then
        match s' with
        | String e s'' =>
            let simple (ch : ascii) :=
              match read_string s'' with
              | Some (t, rest) => Some (String ch t, rest)
              | None => None
              end in
            if Ascii.eqb e dquote then simple dquote
            else if Ascii.eqb e backslash then simple backslash
            else if Ascii.eqb e "/" then simple "/"%char
            else if Ascii.eqb e "b" then simple "008"%char
            else if Ascii.eqb e "f" then simple "012"%char
            else if Ascii.eqb e "n" then simple newline
            else if Ascii.eqb e "r" then simple "013"%char
            else if Ascii.eqb e "t" then simple "009"%char
            else if Ascii.eqb e "u" then
              match s'' with
              | String h3 (String h2 (String h1 (String h0 s3))) =>
                  match hex_value h3, hex_value h2, hex_value h1, hex_value h0 with
                  | Some 0%N, Some 0%N, Some a, Some b =>
                      match read_string s3 with
                      | Some (t, rest) => Some (String (ascii_of_N (16 * a + b)) t, rest)
                      | None => None
                      end
                  | _, _, _, _ => None
                  end
              | _ => None
              end
            else None
        | EmptyString => None
        end
      else if (N_of_ascii c <? 32)%N then None
      else match read_string s' with
           | Some (t, rest) => Some (String c t, rest)
           | None => None
           end
  end.

Fixpoint skip_ws (s : string) : string :=
  match s with
  | String c s' =>
      if Ascii.eqb c " " || Ascii.eqb c newline || Ascii.eqb c "013" || Ascii.eqb c "009"
      then skip_ws s' else s
  | EmptyString => s
  end.

Definition is_digit (c : ascii) : bool :=
  ((48 <=? N_of_ascii c) && (N_of_ascii c <=? 57))%N.

Fixpoint read_digits (acc : Z) (s : string) : Z * string :=
  match s with
  | String c s' =>
      if is_digit c then read_digits (10 * acc + Z.of_N (N_of_ascii c - 48)) s'
      else (acc, s)
  | EmptyString => (acc, s)
  end.

(** An integer; a fraction or an exponent after it is not read. *)
Definition read_int (s : string) : option (pyval * string) :=
  let unsigned (sign : Z) (t : string) :=
    match t with
    | String c t' =>
        if is_digit c then
          let '(n, rest) := read_digits 0 t in
          match rest with
          | String d _ =>
              if Ascii.eqb d "." || Ascii.eqb d "e" || Ascii.eqb d "E" then None
              else if Ascii.eqb c "0" && negb (String.eqb t' rest) then None
              else Some (PInt (sign * n), rest)
          | EmptyString =>
              if Ascii.eqb c "0" && negb (String.eqb t' rest) then None
              else Some (PInt (sign * n), rest)
          end
        else None
    | EmptyString => None
    end in
  match s with
  | String "-" t => unsigned (-1)%Z t
  | _ => unsigned 1%Z s
  end.

(** The members of an object after its opening brace, with [read_value]
    for the values; [n] bounds their number. *)
Fixpoint read_members (read_value : string -> option (pyval * string))
    (n : nat) (acc : pydict) (t : string) : option (pyval * string) :=
  match n with
  | O => None
  | S n' =>
      match skip_ws t with
      | String q t1 =>
          if Ascii.eqb q dquote then
            match read_string t1 with
            | Some (k, t2) =>
                match skip_ws t2 with
                | String ":" t3 =>
                    match read_value t3 with
                    | Some (v, t4) =>
                        match skip_ws t4 with
                        | String "," t5 =>
                            read_members read_value n' (dict_set k v acc) t5
                        | String "}" t5 => Some (PDict (dict_set k v acc), t5)
                        | _ => None
                        end
                    | None => None
                    end
                | _ => None
                end
            | None => None
            end
          else None
      | EmptyString => None
      end
  end.

(** The elements of an array after its opening bracket. *)
Fixpoint read_elements (read_value : string -> option (pyval * string))
    (n : nat) (acc : list pyval) (t : string) : option (pyval * string) :=
  match n with
  | O => None
  | S n' =>
      match read_value t with
      | Some (v, t1) =>
          match skip_ws t1 with
          | String "," t2 => read_elements read_value n' (acc ++ [v])%list t2
          | String "]" t2 => Some (PList (acc ++ [v])%list, t2)
          | _ => None
          end
      | None => None
      end
  end.

(** One JSON value at the head of [s]; [fuel] bounds the depth and the
    number of members and elements. *)
Fixpoint read_value (fuel : nat) (s : string) : option (pyval * string) :=
  match fuel with
  | O => None
  | S fuel' =>
      match skip_ws s with
      | String c s' =>
          if Ascii.eqb c dquote then
            match read_string s' with
            | Some (str, rest) => Some (PStr str, rest)
            | None => None
            end
          else if Ascii.eqb c "{" then
            match skip_ws s' with
            | String "}" rest => Some (PDict [], rest)
            | _ => read_members (read_value fuel') fuel' [] s'
            end
          else if Ascii.eqb c "[" then
            match skip_ws s' with
            | String "]" rest => Some (PList [], rest)
            | _ => read_elements (read_value fuel') fuel' [] s'
            end
          else
            match strip_prefix "null" (String c s') with
            | Some rest => Some (PNone, rest)
            | None =>
                match strip_prefix "true" (String c s') with
                | Some rest => Some (PBool true, rest)
                | None =>
                    match strip_prefix "false" (String c s') with
                    | Some rest => Some (PBool false, rest)
                    | None => read_int (String c s')
                    end
                end
            end
      | EmptyString => None
      end
  end.

(** [json.loads]: one value, then nothing but white space. *)
Definition json_loads (s : string) : option pyval :=
  match read_value (String.length s) s with
  | Some (v, rest) =>
      match skip_ws rest with
      | EmptyString => Some v
      | _ => None
      end
  | None => None
  end.

(** The frame is an SSE frame whose [data:] line is JSON for [v]. *)
Definition frame_carries (frame : string) (v : pyval) : Prop :=
  exists payload, sse_data frame = Some payload /\ json_loads payload = Some v.

(** A character that is one byte in UTF-8 and does not end a line. *)
Definition plain_char (c : ascii) : bool :=
  (N_of_ascii c <? 128)%N && negb (Ascii.eqb c newline).

Fixpoint line_safe (s : string) : bool :=
  match s with
  | EmptyString => true
  | String c s' => plain_char c && line_safe s'
  end.

Fixpoint is_ascii (s : string) : bool :=
  match s with
  | EmptyString => true
  | String c s' => (N_of_ascii c <? 128)%N && is_ascii s'
  end.

(** The text [json.dumps] writes for an error envelope, spelled out. *)
Definition quoted (s rest : string) : string :=
  String dquote (escape s ++ String dquote rest).

Definition envelope_text (kind msg : string) : string :=
  String "{" (quoted "error" (String ":" (String " " (String "{"
    (quoted "type" (String ":" (String " " (quoted kind (String "," (String " "
    (quoted "message" (String ":" (String " " (quoted msg "}}")))))))))))))).

(** ** The HTTP client as environment *)

(** One [session.post(url, json=..., headers=...)].  [post_raw] is set when
    the call asks for the raw body ([read_bufsize=8192],
    [auto_decompress=False]). *)
Record post_request : Type := mk_post {
  post_url : string;
  post_json : pydict;
  post_headers : gmap string string;
  post_raw : bool
}.

(** What one [await response.content.read(8192)] gives. *)
Inductive read_result : Type :=
| ReadBytes (chunk : string)
| ReadRaises (e : exn).

(** A response whose headers have arrived.  [resp_error_str] is [str(e)] of
    the error [raise_for_status] builds for it, [resp_json] is what
    [await response.json()] does, and [resp_reads] lists the results of the
    successive reads of the body; after the last one the body is at its end
    and [read] returns [b'']. *)
Record response : Type := mk_response {
  resp_status : Z;
  resp_reason : string;
  resp_error_str : string;
  resp_json : result pyval;
  resp_reads : list read_result
}.

Inductive post_result : Type :=
| PostRaises (e : exn)
| PostResponds (r : response).

Definition upstream : Type := post_request -> post_result.

(** [response.raise_for_status()]: aiohttp raises for a status of 400 and
    above. *)
Definition raise_for_status (r : response) : result unit :=
  if (400 <=? resp_status r)%Z
  then Raise {| exc_cls := ClientResponseError;
                exc_str := resp_error_str r;
                exc_status := resp_status r;
                exc_message := resp_reason r |}
  else Ok tt.

(** What a generator has done when its consumer has taken everything: the
    chunks it yielded, and the exception that ended it, if one did. *)
Record stream_result : Type := mk_stream {
  chunks : list string;
  raised : option exn
}.

(** The loop [while True: chunk = await response.content.read(8192);
    if not chunk: break; yield chunk]. *)
Fixpoint relay (reads : list read_result) : stream_result :=
  match reads with
  | [] => mk_stream [] None
  | ReadBytes chunk :: rest =>
      if String.eqb chunk "" then mk_stream [] None
      else let s := relay rest in mk_stream (chunk :: chunks s) (raised s)
  | ReadRaises e :: _ => mk_stream [] (Some e)
  end.

(** [headers or {}] *)
Definition or_empty (headers : option (gmap string string)) : gmap string string :=
  match headers with
  | Some h => h
  | None => ∅
  end.

Definition class_name (c : exc_class) : string :=
  match c with
  | OtherException => "Exception"
  | ValueError => "ValueError"
  | JSONDecodeError => "JSONDecodeError"
  | KeyError => "KeyError"
  | TypeError => "TypeError"
  | AttributeError => "AttributeError"
  | HTTPException => "HTTPException"
  | TimeoutError => "TimeoutError"
  | ClientError => "ClientError"
  | ClientResponseError => "ClientResponseError"
  | ContentTypeError => "ContentTypeError"
  | ClientConnectionError => "ClientConnectionError"
  | ServerTimeoutError => "ServerTimeoutError"
  | ClientPayloadError => "ClientPayloadError"
  end.

(** [v[k]] for a string [k]. *)
Definition subscript (v : pyval) (k : string) : result pyval :=
  match v with
  | PDict d =>
      match dict_get k d with
      | Some x => Ok x
      | None => Raise (py_exc KeyError ("'" ++ k ++ "'"))
      end
  | PList _ => Raise (py_exc TypeError "list indices must be integers or slices, not str")
  | PStr _ => Raise (py_exc TypeError "string indices must be integers, not 'str'")
  | _ => Raise (py_exc TypeError ("'" ++ type_name v ++ "' object is not subscriptable"))
  end.

(** [v == s] for a string [s]. *)
Definition eq_str (v : pyval) (s : string) : bool :=
  match v with
  | PStr t => String.eqb t s
  | _ => false
  end.

Fixpoint is_infix (p s : string) : bool :=
  String.prefix p s ||
  match s with
  | String _ s' => is_infix p s'
  | EmptyString => false
  end.

(** [k in v] for a string [k]. *)
Definition str_in (k : string) (v : pyval) : result bool :=
  match v with
  | PDict d => Ok (dict_contains k d)
  | PList l => Ok (existsb (fun x => eq_str x k) l)
  | PStr s => Ok (is_infix k s)
  | _ => Raise (py_exc TypeError ("argument of type '" ++ type_name v ++ "' is not iterable"))
  end.

(** What a route gives back: a JSON response, a streaming response whose
    body is the run of a generator, or a raised [HTTPException]. *)
Inductive http_response : Type :=
| JSONResponse (status_code : Z) (content : pyval)
| StreamingResponse (body : stream_result)
| HTTPError (status_code : Z) (detail : string).

(** The floats [json.dumps(..., allow_nan=False)] refuses: [json.loads]
    reads [NaN], [Infinity] and [-Infinity] as floats. *)
Definition out_of_range (repr : string) : bool :=
  String.eqb repr "inf" || String.eqb repr "-inf" || String.eqb repr "nan".

(** The first float of [v], in the order [json.dumps] writes [v], that is
    out of range. *)
Fixpoint first_out_of_range (v : pyval) : option string :=
  match v with
  | PFloat repr => if out_of_range repr then Some repr else None
  | PList l =>
      fold_right (fun x found =>
                    match first_out_of_range x with
                    | Some repr => Some repr
                    | None => found
                    end) None l
  | PDict d =>
      fold_right (fun kv found =>
                    match first_out_of_range (snd kv) with
                    | Some repr => Some repr
                    | None => found
                    end) None d
  | _ => None
  end.

(** [JSONResponse(status_code=..., content=...)].  Starlette renders the
    content when the response is built, with [json.dumps(content,
    allow_nan=False, ...)], which raises [ValueError] on a float that is
    out of range; the text is the one of CPython 3.12. *)
Definition json_response (status_code : Z) (content : pyval) : result http_response :=
  match first_out_of_range content with
  | Some repr =>
      Raise (py_exc ValueError
               ("Out of range float values are not JSON compliant: " ++ repr))
  | None => Ok (JSONResponse status_code content)
  end.

(** The keyword parameters of [aiohttp.TCPConnector] (aiohttp 3). *)
Definition tcp_connector_keywords : list string :=
  ["verify_ssl"; "fingerprint"; "use_dns_cache"; "ttl_dns_cache"; "family";
   "ssl_context"; "ssl"; "local_addr"; "resolver"; "keepalive_timeout";
   "force_close"; "limit"; "limit_per_host"; "enable_cleanup_closed"; "loop";
   "timeout_ceil_threshold"; "happy_eyeballs_delay"; "interleave";
   "socket_factory"; "ssl_shutdown_timeout"].

(** A call [callee(k1=..., k2=...)]: the first keyword the callee does
    not take is a [TypeError]. *)
Definition check_keywords (callee : string) (parameters given : list string)
    : result unit :=
  match List.find (fun k => negb (existsb (String.eqb k) parameters)) given with
  | Some k =>
      Raise (py_exc TypeError
               (callee ++ " got an unexpected keyword argument '" ++ k ++ "'"))
  | None => Ok tt
  end.

(** An inbound request: its headers with lower-case names, as
    [dict(request.headers)] gives them, and what [await request.json()]
    does. *)
Record http_request : Type := mk_request {
  req_headers : gmap string string;
  req_json : result pyval
}.

(** ** anthropic_proxy.py *)

Module Anthropic.
Section WithRepr.

Variable py_repr : pyval -> string.

(** The attributes of an [AnthropicRequestHandler] that the request path
    reads. *)
Record handler : Type := mk_handler {
  api_key : string;
  cache_control_ttl : string;
  messages_url : string  (* self.messages_endpoint *)
}.

Definition _prepare_headers (self : handler) (original_headers : gmap string string)
    : gmap string string :=
  let headers : gmap string string := ∅ in
  let headers := <["x-api-key" := api_key self]> headers in
  let headers :=
    <["anthropic-version" :=
        default "2023-06-01" (original_headers !! "anthropic-version")]> headers in
  let headers := <["content-type" := "application/json"]> headers in
  let optional_headers := ["anthropic-beta"; "user-agent"] in
  foldl (fun (headers : gmap string string) (header : string) =>
           match original_headers !! header with
           | Some v => <[header := v]> headers
           | None => headers
           end) headers optional_headers.

(** [{"type": "ephemeral", "ttl": self.cache_control_ttl}] *)
Definition directive (self : handler) : pyval :=
  PDict [("type", PStr "ephemeral"); ("ttl", PStr (cache_control_ttl self))].

Definition _standardize_cache_control (self : handler) (messages : list pyval)
    : result (list pyval) :=
  Normalizer.normalize py_repr (directive self) messages.

Definition _validate_anthropic_request (request_data : pydict) : bool :=
  validate_request request_data.

(** The [try] block of [_forward_to_anthropic]. *)
Definition post_for_json (up : upstream) (rq : post_request) : result pyval :=
  match up rq with
  | PostRaises e => Raise e
  | PostResponds r => _ ← raise_for_status r; resp_json r
  end.

(** The handler for [aiohttp.ClientResponseError] first formats its log
    line, which calls [e.text()].  The exception class has the attributes
    [request_info], [history], [status], [message] and [headers], and no
    [text]: the call raises, inside the handler, and the later [except]
    clauses of the same [try] do not apply. *)
Definition _forward_to_anthropic (self : handler) (up : upstream)
    (request_data : pydict) (headers : option (gmap string string))
    : result pyval * list post_request :=
  let prepared_headers := _prepare_headers self (or_empty headers) in
  let rq := mk_post (messages_url self) request_data prepared_headers false in
  (match post_for_json up rq with
   | Ok response_data => Ok response_data
   | Raise e =>
       if isinstance e TimeoutError then
         Ok (error_envelope "timeout_error"
               "Request to Anthropic API timed out after 120 seconds")
       else if isinstance e ClientResponseError then
         Raise (py_exc AttributeError
                  ("'" ++ class_name (exc_cls e) ++ "' object has no attribute 'text'"))
       else if isinstance e ClientError then
         Ok (error_envelope "network_error" ("Network error: " ++ exc_str e))
       else
         Ok (error_envelope "internal_error" ("Internal server error: " ++ exc_str e))
   end, [rq]).

(** The four outer [except] clauses of [_forward_stream_to_anthropic];
    each yields one frame. *)
Definition stream_error_frame (e : exn) : string :=
  if isinstance e TimeoutError then
    event_error_frame (error_envelope "timeout_error" "Request to Anthropic API timed out")
  else if isinstance e ClientResponseError then
    event_error_frame
      (error_envelope "api_error"
         ("Anthropic API returned status " ++ pretty (exc_status e) ++ ": " ++ exc_str e))
  else if isinstance e ClientError then
    event_error_frame (error_envelope "network_error" ("Network error: " ++ exc_str e))
  else
    event_error_frame (error_envelope "unknown_error" ("Unexpected error: " ++ exc_str e)).

Definition interrupted_frame (e : exn) : string :=
  event_error_frame
    (error_envelope "stream_interrupted" ("Streaming interrupted due to: " ++ exc_str e)).

Definition _forward_stream_to_anthropic (self : handler) (up : upstream)
    (request_data : pydict) (headers : option (gmap string string))
    : stream_result * list post_request :=
  let prepared_headers := _prepare_headers self (or_empty headers) in
  let rq := mk_post (messages_url self) request_data prepared_headers true in
  (match up rq with
   | PostRaises e => mk_stream [stream_error_frame e] None
   | PostResponds r =>
       match raise_for_status r with
       | Raise e => mk_stream [stream_error_frame e] None
       | Ok _ =>
           let relayed := relay (resp_reads r) in
           match raised relayed with
           | None => relayed
           | Some e =>
               if isinstance e ClientPayloadError || isinstance e TimeoutError
               then mk_stream (chunks relayed ++ [interrupted_frame e]) None
               else mk_stream (chunks relayed ++ [stream_error_frame e]) None
           end
       end
   end, [rq]).

Definition handle_request (self : handler) (up : upstream)
    (request_data : pydict) (headers : option (gmap string string))
    : result pyval * list post_request :=
  let headers := or_empty headers in
  if negb (_validate_anthropic_request request_data) then
    (Raise (py_exc ValueError "Invalid Anthropic request format"), [])
  else
    match dict_get_default "messages" (PList []) request_data with
    | PList messages =>
        match _standardize_cache_control self messages with
        | Ok standardized_messages =>
            let standardized_request :=
              dict_set "messages" (PList standardized_messages) request_data in
            _forward_to_anthropic self up standardized_request (Some headers)
        | Raise e => (Raise e, [])
        end
    | _ =>
        (* the validator has required a list *)
        (Raise (py_exc TypeError "messages is not a list"), [])
    end.

Definition handle_stream_request (self : handler) (up : upstream)
    (request_data : pydict) (headers : option (gmap string string))
    : stream_result * list post_request :=
  let headers := or_empty headers in
  if negb (_validate_anthropic_request request_data) then
    (mk_stream [] (Some (py_exc ValueError "Invalid Anthropic request format")), [])
  else
    match dict_get_default "messages" (PList []) request_data with
    | PList messages =>
        match _standardize_cache_control self messages with
        | Ok standardized_messages =>
            let standardized_request :=
              dict_set "messages" (PList standardized_messages) request_data in
            _forward_stream_to_anthropic self up standardized_request (Some headers)
        | Raise e => (mk_stream [] (Some e), [])
        end
    | _ =>
        (* the validator has required a list *)
        (mk_stream [] (Some (py_exc TypeError "messages is not a list")), [])
    end.

(** The status code the route picks for an error type. *)
Definition status_for (error_type : pyval) : Z :=
  if eq_str error_type "api_error" then 400
  else if eq_str error_type "network_error" then 503
  else if eq_str error_type "timeout_error" then 408
  else if eq_str error_type "json_decode_error" then 502
  else 500.

(** [response_data['error'].get('type', 'unknown_error')] *)
Definition error_type_of (response_data : pyval) : result pyval :=
  err ← subscript response_data "error";
  match err with
  | PDict d => Ok (dict_get_default "type" (PStr "unknown_error") d)
  | _ => Raise (no_attribute err "get")
  end.

(** The [try] block of [messages_endpoint]. *)
Definition messages_try (self : handler) (up : upstream) (request : http_request)
    : result http_response * list post_request :=
  let content_type := default "" (req_headers request !! "content-type") in
  if negb (String.prefix "application/json" content_type) then
    (Raise {| exc_cls := HTTPException;
              exc_str := "Content-Type must be application/json";
              exc_status := 400;
              exc_message := "Content-Type must be application/json" |}, [])
  else
    match req_json request with
    | Raise e => (Raise e, [])
    | Ok (PDict request_data) =>
        let is_stream := dict_get_default "stream" (PBool false) request_data in
        if negb (dict_contains "top_p" request_data) then
          (Raise (py_exc KeyError "'top_p'"), [])
        else
          let request_data := dict_del "top_p" request_data in
          let headers := req_headers request in
          if truthy is_stream then
            let '(body, log) :=
              handle_stream_request self up request_data (Some headers) in
            (Ok (StreamingResponse body), log)
          else
            let '(outcome, log) := handle_request self up request_data (Some headers) in
            (response_data ← outcome;
             has_error ← str_in "error" response_data;
             if (has_error : bool) then
               error_type ← error_type_of response_data;
               json_response (status_for error_type) response_data
             else json_response 200 response_data,
             log)
    | Ok other => (Raise (no_attribute other "get"), [])
    end.

(** The route, with the global [request_handler] as argument. *)
Definition messages_endpoint (request_handler : option handler) (up : upstream)
    (request : http_request) : http_response * list post_request :=
  match request_handler with
  | None => (HTTPError 503 "Service not initialized", [])
  | Some self =>
      let '(outcome, log) := messages_try self up request in
      (match outcome with
       | Ok resp => resp
       | Raise e =>
           if isinstance e JSONDecodeError then
             HTTPError 400 "Invalid JSON in request body"
           else if isinstance e ValueError then HTTPError 400 (exc_str e)
           else HTTPError 500 "Internal server error"
       end, log)
  end.

End WithRepr.
End Anthropic.

(** ** openrouter_proxy.py *)

Module OpenRouter.
Section WithRepr.

Variable py_repr : pyval -> string.

(** The attributes of an [OpenAIRequestHandler] that the request path
    reads. *)
Record handler : Type := mk_handler {
  api_key : string;
  chat_endpoint : string
}.

(** The value of [X-Title] is written as its UTF-8 bytes. *)
Definition _prepare_headers (self : handler) (original_headers : gmap string string)
    : gmap string string :=
  let headers : gmap string string := ∅ in
  let headers := <["Authorization" := "Bearer " ++ api_key self]> headers in
  let headers := <["Content-Type" := "application/json"]> headers in
  let headers := <["HTTP-Referer" := "https://api.pezayo.com"]> headers in
  let headers := <["X-Title" := "One hub 站点"]> headers in
  headers.

(** [{"type": "ephemeral"}] *)
Definition directive : pyval := PDict [("type", PStr "ephemeral")].

Definition _add_cache_control_to_messages (self : handler) (messages : list pyval)
    : result (list pyval) :=
  Normalizer.normalize py_repr directive messages.

Definition _validate_openai_request (request_data : pydict) : bool :=
  validate_request request_data.

(** [_get_session].  [__init__] sets [self.session] to [None], and the
    only assignment to it is the one of this function, which comes after
    the connector is made: [aiohttp.TCPConnector] is called with the
    keyword [proxy], which it does not take, so the call raises, no
    handler ever holds a session, and every call of [_get_session] takes
    this branch. *)
Definition _get_session (self : handler) : result unit :=
  check_keywords "TCPConnector.__init__()" tcp_connector_keywords
    ["limit"; "limit_per_host"; "ttl_dns_cache"; "use_dns_cache";
     "keepalive_timeout"; "enable_cleanup_closed"; "proxy"].

(** The [try] block of [_forward_to_api]. *)
Definition post_for_json (up : upstream) (rq : post_request) : result pyval :=
  match up rq with
  | PostRaises e => Raise e
  | PostResponds r => _ ← raise_for_status r; resp_json r
  end.

(** The session is asked for before the [try]. *)
Definition _forward_to_api (self : handler) (up : upstream)
    (request_data : pydict) (headers : option (gmap string string))
    : result pyval * list post_request :=
  let prepared_headers := _prepare_headers self (or_empty headers) in
  match _get_session self with
  | Raise e => (Raise e, [])
  | Ok _ =>
      let rq := mk_post (chat_endpoint self) request_data prepared_headers false in
      (match post_for_json up rq with
       | Ok response_data => Ok response_data
       | Raise e => Ok (error_envelope "api_error" ("API request failed: " ++ exc_str e))
       end, [rq])
  end.

(** The three outer [except] clauses of [_forward_stream_to_api]. *)
Definition stream_error_frame (e : exn) : string :=
  if isinstance e ClientResponseError then
    data_frame
      (error_envelope "http_error"
         ("HTTP " ++ pretty (exc_status e) ++ ": " ++ exc_message e))
  else if isinstance e TimeoutError || isinstance e ServerTimeoutError then
    data_frame (error_envelope "timeout_error" ("Request timeout: " ++ exc_str e))
  else
    data_frame (error_envelope "api_error" ("Streaming request failed: " ++ exc_str e)).

Definition interrupted_frame (e : exn) : string :=
  data_frame
    (error_envelope "stream_interrupted" ("Streaming interrupted due to: " ++ exc_str e)).

(** The session is asked for before the [try]: an exception of
    [_get_session] ends the generator. *)
Definition _forward_stream_to_api (self : handler) (up : upstream)
    (request_data : pydict) (headers : option (gmap string string))
    : stream_result * list post_request :=
  let prepared_headers := _prepare_headers self (or_empty headers) in
  match _get_session self with
  | Raise e => (mk_stream [] (Some e), [])
  | Ok _ =>
      let rq := mk_post (chat_endpoint self) request_data prepared_headers true in
      (match up rq with
       | PostRaises e => mk_stream [stream_error_frame e] None
       | PostResponds r =>
           match raise_for_status r with
           | Raise e => mk_stream [stream_error_frame e] None
           | Ok _ =>
               let relayed := relay (resp_reads r) in
               match raised relayed with
               | None => relayed
               | Some e =>
                   if isinstance e ClientPayloadError || isinstance e TimeoutError
                   then mk_stream (chunks relayed ++ [interrupted_frame e]) None
                   else mk_stream (chunks relayed ++ [stream_error_frame e]) None
               end
           end
       end, [rq])
  end.

Definition handle_request (self : handler) (up : upstream)
    (request_data : pydict) (headers : option (gmap string string))
    : result pyval * list post_request :=
  let headers := or_empty headers in
  if negb (_validate_openai_request request_data) then
    (Raise (py_exc ValueError "Invalid OpenAI request format"), [])
  else
    match dict_get_default "messages" (PList []) request_data with
    | PList messages =>
        match _add_cache_control_to_messages self messages with
        | Ok cached_messages =>
            let cached_request :=
              dict_set "messages" (PList cached_messages) request_data in
            _forward_to_api self up cached_request (Some headers)
        | Raise e => (Raise e, [])
        end
    | _ =>
        (* the validator has required a list *)
        (Raise (py_exc TypeError "messages is not a list"), [])
    end.

(** The change of [thinking] into [reasoning]; the dict display evaluates
    ['type'] before ['budget_tokens']. *)
Definition add_reasoning (cached_request : pydict) : result pydict :=
  let claude_reasoning :=
    dict_get_default "thinking"
      (PDict [("type", PStr "disabled"); ("budget_tokens", PInt 3276)])
      cached_request in
  type ← subscript claude_reasoning "type";
  budget_tokens ← subscript claude_reasoning "budget_tokens";
  Ok (dict_set "reasoning"
        (PDict [("enabled", PBool (eq_str type "enabled"));
                ("max_tokens", budget_tokens)])
        cached_request).

Definition handle_stream_request (self : handler) (up : upstream)
    (request_data : pydict) (headers : option (gmap string string))
    : stream_result * list post_request :=
  let headers := or_empty headers in
  if negb (_validate_openai_request request_data) then
    (mk_stream [] (Some (py_exc ValueError "Invalid OpenAI request format")), [])
  else
    match dict_get_default "messages" (PList []) request_data with
    | PList messages =>
        match _add_cache_control_to_messages self messages with
        | Ok cached_messages =>
            let cached_request :=
              dict_set "messages" (PList cached_messages) request_data in
            match add_reasoning cached_request with
            | Ok cached_request =>
                _forward_stream_to_api self up cached_request (Some headers)
            | Raise e => (mk_stream [] (Some e), [])
            end
        | Raise e => (mk_stream [] (Some e), [])
        end
    | _ =>
        (* the validator has required a list *)
        (mk_stream [] (Some (py_exc TypeError "messages is not a list")), [])
    end.

End WithRepr.
End OpenRouter.

(** ** Request normalizer (on a store of objects)

    The same two functions, with the lists and dicts as objects in a store:
    a name holds a reference, [copy] and the list and dict displays
    allocate, [append], [del] and item assignment change the object a
    reference points to.  A [for] loop runs over the items its list has
    when the loop starts. *)

Module Heap.

Abbreviation loc := positive.

(** Numbers, strings and [None] are values; a list or a dict is reached
    through a reference. *)
Inductive hval : Type :=
| HNone
| HBool (b : bool)
| HInt (z : Z)
| HFloat (repr : string)
| HStr (s : string)
| HRef (l : loc).

Inductive hobj : Type :=
| HList (items : list hval)
| HDict (items : list (string * hval)).

Abbreviation heap := (gmap loc hobj).

(** A computation changes the store and returns or raises. *)
Definition M (A : Type) : Type := heap -> result A * heap.

#[global] Instance M_ret : MRet M := fun A a h => (Ok a, h).

#[global] Instance M_bind : MBind M := fun A B f c h =>
  match c h with
  | (Ok a, h') => f a h'
  | (Raise e, h') => (Raise e, h')
  end.

Definition raise {A : Type} (e : exn) : M A := fun h => (Raise e, h).

Definition alloc (o : hobj) : M loc := fun h =>
  let l := fresh (dom h) in (Ok l, <[l := o]> h).

(** Following a reference that points nowhere does not happen in Python;
    here it raises. *)
Definition load (l : loc) : M hobj := fun h =>
  match h !! l with
  | Some o => (Ok o, h)
  | None => (Raise (py_exc OtherException "dangling reference"), h)
  end.

Definition store (l : loc) (o : hobj) : M unit := fun h => (Ok tt, <[l := o]> h).

Definition type_name (o : hobj) : string :=
  match o with
  | HList _ => "list"
  | HDict _ => "dict"
  end.

Definition scalar_type_name (v : hval) : string :=
  match v with
  | HNone => "NoneType"
  | HBool _ => "bool"
  | HInt _ => "int"
  | HFloat _ => "float"
  | _ => "str"
  end.

Definition no_attribute (type attr : string) : exn :=
  py_exc AttributeError ("'" ++ type ++ "' object has no attribute '" ++ attr ++ "'").

(** [l.append(v)] *)
Definition list_append (l : loc) (v : hval) : M unit :=
  o ← load l;
  match o with
  | HList items => store l (HList (items ++ [v]))
  | HDict _ => raise (no_attribute "dict" "append")
  end.

(** [d[k] = v] *)
Definition dict_store (l : loc) (k : string) (v : hval) : M unit :=
  o ← load l;
  match o with
  | HDict items => store l (HDict (dict_set k v items))
  | HList _ => raise (py_exc TypeError "list indices must be integers or slices, not str")
  end.

Definition is_cache_control_str (v : hval) : bool :=
  match v with
  | HStr s => String.eqb s "cache_control"
  | _ => false
  end.

(** [if k in d: del d[k]] *)
Definition dict_discard (l : loc) (k : string) : M unit :=
  o ← load l;
  match o with
  | HDict items =>
      if dict_contains k items then store l (HDict (dict_del k items)) else mret tt
  | HList items =>
      if existsb is_cache_control_str items
      then raise (py_exc TypeError "list indices must be integers or slices, not str")
      else mret tt
  end.

(** Truth value of an object. *)
Definition truthy (v : hval) : M bool :=
  match v with
  | HNone => mret false
  | HBool b => mret b
  | HInt z => mret (negb (Z.eqb z 0))
  | HFloat repr => mret (negb (String.eqb repr "0.0" || String.eqb repr "-0.0"))
  | HStr s => mret (negb (String.eqb s ""))
  | HRef l =>
      o ← load l;
      match o with
      | HList items => mret (match items with [] => false | _ => true end)
      | HDict items => mret (match items with [] => false | _ => true end)
      end
  end.

Section WithRepr.

(** [str(x)] of the interpreter for objects that are not strings; it
    reads the store. *)
Variable py_repr : heap -> hval -> string.

Definition py_str (v : hval) : M string :=
  match v with
  | HStr s => mret s
  | _ => fun h => (Ok (py_repr h v), h)
  end.

(** The items of the cache directive, [("type", "ephemeral")] and, in
    [anthropic_proxy.py], [("ttl", ttl)]. *)
Variable directive : list (string * hval).

Definition clean_block (content_block : hval) : M hval :=
  match content_block with
  | HRef l =>
      o ← load l;
      match o with
      | HDict items =>
          cleaned_block ← alloc (HDict (dict_del "cache_control" items));
          mret (HRef cleaned_block)
      | HList _ => mret content_block
      end
  | _ => mret content_block
  end.

Fixpoint clean_blocks (cleaned_content : loc) (content : list hval) : M unit :=
  match content with
  | [] => mret tt
  | content_block :: rest =>
      cleaned ← clean_block content_block;
      _ ← list_append cleaned_content cleaned;
      clean_blocks cleaned_content rest
  end.

(** The part of the first loop that looks at [message.get('content', [])]. *)
Definition clean_content (message cleaned_message : loc) : M unit :=
  o ← load message;
  match o with
  | HDict items =>
      dflt ← alloc (HList []);
      match dict_get_default "content" (HRef dflt) items with
      | HRef lc =>
          oc ← load lc;
          match oc with
          | HList blocks =>
              cleaned_content ← alloc (HList []);
              _ ← clean_blocks cleaned_content blocks;
              dict_store cleaned_message "content" (HRef cleaned_content)
          | HDict _ => mret tt
          end
      | _ => mret tt
      end
  | HList _ => raise (no_attribute "list" "get")
  end.

(** The body of the first loop; it returns [cleaned_message]. *)
Definition clean_message (message : hval) : M loc :=
  match message with
  | HRef l =>
      o ← load l;
      cleaned_message ← alloc o;
      _ ← dict_discard cleaned_message "cache_control";
      _ ← clean_content l cleaned_message;
      mret cleaned_message
  | _ => raise (no_attribute (scalar_type_name message) "copy")
  end.

Fixpoint clean_messages (standardized_messages : loc) (messages : list hval) : M unit :=
  match messages with
  | [] => mret tt
  | message :: rest =>
      cleaned_message ← clean_message message;
      _ ← list_append standardized_messages (HRef cleaned_message);
      clean_messages standardized_messages rest
  end.

(** [[{"type": "text", "text": text, "cache_control": {...}}]] *)
Definition new_text_block (text : string) : M hval :=
  cache_control ← alloc (HDict directive);
  block ← alloc (HDict [("type", HStr "text"); ("text", HStr text);
                        ("cache_control", HRef cache_control)]);
  mret (HRef block).

Definition new_block_list (text : string) : M hval :=
  block ← new_text_block text;
  l ← alloc (HList [block]);
  mret (HRef l).

(** [content.append({... "text": str(content[-1]) if content[-1] else "" ...})] *)
Definition append_text_block (content : loc) (block : hval) : M unit :=
  t ← truthy block;
  text ← (if (t : bool) then py_str block else mret "");
  new_block ← new_text_block text;
  list_append content new_block.

(** The branch [if isinstance(content, list)] of the second phase. *)
Definition tag_content (content : loc) (blocks : list hval) : M unit :=
  match last blocks with
  | Some block =>
      match block with
      | HRef lb =>
          ob ← load lb;
          match ob with
          | HDict _ =>
              cache_control ← alloc (HDict directive);
              dict_store lb "cache_control" (HRef cache_control)
          | HList _ => append_text_block content block
          end
      | _ => append_text_block content block
      end
  | None =>
      (* [content = [...]] binds the local name only *)
      _ ← new_block_list "";
      mret tt
  end.

(** The second phase, on [last_message = standardized_messages[-1]]. *)
Definition tag_last_message (last_message : hval) : M unit :=
  match last_message with
  | HRef lm =>
      om ← load lm;
      match om with
      | HDict items =>
          dflt ← alloc (HList []);
          match dict_get_default "content" (HRef dflt) items with
          | HRef lc =>
              oc ← load lc;
              match oc with
              | HList blocks => tag_content lc blocks
              | HDict _ =>
                  new_content ← new_block_list "";
                  dict_store lm "content" new_content
              end
          | HStr content =>
              new_content ← new_block_list content;
              dict_store lm "content" new_content
          | _ =>
              new_content ← new_block_list "";
              dict_store lm "content" new_content
          end
      | HList _ => raise (no_attribute "list" "get")
      end
  | _ => raise (no_attribute (scalar_type_name last_message) "get")
  end.

Definition tag_last (standardized_messages : loc) : M unit :=
  o ← load standardized_messages;
  match o with
  | HList items =>
      match last items with
      | Some last_message => tag_last_message last_message
      | None => mret tt
      end
  | HDict _ => mret tt
  end.

(** The normalizer, called with a reference to the list [messages]; it
    returns a reference to the list it built, or [messages] itself when
    that is empty. *)
Definition normalize (messages : loc) : M loc :=
  o ← load messages;
  match o with
  | HList [] => mret messages
  | HList items =>
      standardized_messages ← alloc (HList []);
      _ ← clean_messages standardized_messages items;
      _ ← tag_last standardized_messages;
      mret standardized_messages
  | HDict [] => mret messages
  | HDict _ => raise (no_attribute "str" "copy")
  end.

End WithRepr.

(** [AnthropicRequestHandler._standardize_cache_control] *)
Definition _standardize_cache_control (py_repr : heap -> hval -> string)
    (cache_control_ttl : string) (messages : loc) : M loc :=
  normalize py_repr [("type", HStr "ephemeral"); ("ttl", HStr cache_control_ttl)] messages.

(** [OpenAIRequestHandler._add_cache_control_to_messages] *)
Definition _add_cache_control_to_messages (py_repr : heap -> hval -> string)
    (messages : loc) : M loc :=
  normalize py_repr [("type", HStr "ephemeral")] messages.

(** The value a reference stands for, down to [depth] levels of lists and
    dicts. *)
Fixpoint value_of (depth : nat) (h : heap) (v : hval) : option pyval :=
  match v with
  | HNone => Some PNone
  | HBool b => Some (PBool b)
  | HInt z => Some (PInt z)
  | HFloat repr => Some (PFloat repr)
  | HStr s => Some (PStr s)
  | HRef l =>
      match depth with
      | O => None
      | S depth' =>
          match h !! l with
          | Some (HList items) =>
              PList <$> mapM (value_of depth' h) items
          | Some (HDict items) =>
              PDict <$> mapM (fun kv => pair (fst kv) <$> value_of depth' h (snd kv)) items
          | None => None
          end
      end
  end.

(** *** Running the normalizer on the objects of a value *)

(** The objects [json] builds for a value: a new list or dict for each
    list or dict of the value. *)
Fixpoint store_value (x : pyval) : M hval :=
  match x with
  | PNone => mret HNone
  | PBool b => mret (HBool b)
  | PInt z => mret (HInt z)
  | PFloat repr => mret (HFloat repr)
  | PStr s => mret (HStr s)
  | PList xs =>
      items ← (fix store_items (xs : list pyval) : M (list hval) :=
                 match xs with
                 | [] => mret []
                 | x :: rest =>
                     v ← store_value x;
                     vs ← store_items rest;
                     mret (v :: vs)
                 end) xs;
      l ← alloc (HList items);
      mret (HRef l)
  | PDict d =>
      items ← (fix store_items (d : list (string * pyval)) : M (list (string * hval)) :=
                 match d with
                 | [] => mret []
                 | kx :: rest =>
                     v ← store_value (snd kx);
                     vs ← store_items rest;
                     mret ((fst kx, v) :: vs)
                 end) d;
      l ← alloc (HDict items);
      mret (HRef l)
  end.

(** The normalizer run on the objects built for [messages]: the value of
    what it returns, and the value of its argument after the call. *)
Definition run_on_value (py_repr : pyval -> string) (directive : list (string * hval))
    (depth : nat) (messages : list pyval) : option (pyval * pyval) :=
  let heap_repr (h : heap) (v : hval) : string :=
    match value_of depth h v with
    | Some x => py_repr x
    | None => ""
    end in
  match store_value (PList messages) ∅ with
  | (Ok (HRef l), h) =>
      match normalize heap_repr directive l h with
      | (Ok l', h') =>
          out ← value_of depth h' (HRef l');
          arg ← value_of depth h' (HRef l);
          Some (out, arg)
      | _ => None
      end
  | _ => None
  end.

(** A [str] for the examples. *)
Definition sample_repr (x : pyval) : string :=
  match x with
  | PInt z => pretty z
  | PBool true => "True"
  | PBool false => "False"
  | PNone => "None"
  | _ => "<object>"
  end.

(** On [messages], the run on the store returns the value the function
    on values returns, and leaves the value of its argument as it was. *)
Definition agree (messages : list pyval) : Prop :=
  ∃ out, Normalizer.normalize sample_repr OpenRouter.directive messages = Ok out ∧
         run_on_value sample_repr [("type", HStr "ephemeral")] 8 messages
         = Some (PList out, PList messages).

(** *** Notions used in the proofs about the store *)

(** [c], run from [h], ends in a result and a store that satisfy [Q]. *)
Definition wp {A : Type} (c : M A) (Q : result A -> heap -> Prop) (h : heap) : Prop :=
  Q (fst (c h)) (snd (c h)).

(** [v] does not refer to a dict of the store [h0]. *)
Definition old_not_dict (h0 : heap) (v : hval) : Prop :=
  match v with
  | HRef l => forall items, h0 !! l <> Some (HDict items)
  | _ => True
  end.

(** The content of a cleaned message: when it is a list, the list was made
    during the call and none of its blocks is a dict of the store [h0]. *)
Definition content_ok (h0 h : heap) (std : loc) (content : option hval) : Prop :=
  match content with
  | Some (HRef lc) =>
      lc <> std /\
      exists oc, h !! lc = Some oc /\
        match oc with
        | HList blocks => h0 !! lc = None /\ Forall (old_not_dict h0) blocks
        | HDict _ => True
        end
  | _ => True
  end.

(** [v] refers to a cleaned message: a dict made during the call. *)
Definition msg_ok (h0 h : heap) (std : loc) (v : hval) : Prop :=
  exists lm d, v = HRef lm /\ h0 !! lm = None /\ lm <> std /\
    h !! lm = Some (HDict d) /\ content_ok h0 h std (dict_get "content" d).

(** The state of the first loop: the store of the call is still there,
    and [std] is a new list of cleaned messages. *)
Definition loop_inv (h0 : heap) (std : loc) (h : heap) : Prop :=
  h0 ⊆ h /\ h0 !! std = None /\
  exists items, h !! std = Some (HList items) /\ Forall (msg_ok h0 h std) items.

(** [h'] has every object of [h], unchanged, except perhaps the one at [x]. *)
Definition keeps_but (x : loc) (h h' : heap) : Prop :=
  forall l o, l <> x -> h !! l = Some o -> h' !! l = Some o.

(** What the first loop establishes about the message it has cleaned. *)
Definition cleaned_at (h0 : heap) (std cm : loc) (h : heap) : Prop :=
  exists d, h !! cm = Some (HDict d) /\ content_ok h0 h std (dict_get "content" d).

End Heap.

(** ** Construction, start-up, the pooled session and the GET routes *)

(** [s.rstrip('/')] *)
Fixpoint rstrip_slash (s : string) : string :=
  match s with
  | EmptyString => ""
  | String c s' =>
      let rest := rstrip_slash s' in
      if String.eqb rest "" && Ascii.eqb c "/" then "" else String c rest
  end.

(** [s.endswith(suffix)] *)
Fixpoint endswith (s suffix : string) : bool :=
  String.eqb s suffix ||
  match s with
  | String _ s' => endswith s' suffix
  | EmptyString => false
  end.

(** [os.getenv(name)] and [os.environ.get(name)] read a map from names to
    values. *)
Definition getenv (env : gmap string string) (name : string) : option string :=
  env !! name.

(** Truth value of what [os.getenv] returns: a value that is not empty. *)
Definition env_truthy (v : option string) : bool :=
  match v with
  | Some s => negb (String.eqb s "")
  | None => false
  end.

Module Session.

(** An [aiohttp.ClientSession] as [_get_session] configures it: its
    identity, whether it is closed, and the settings of its
    [ClientTimeout] and [TCPConnector]. *)
Record client_session : Type := mk_session {
  session_id : nat;
  closed : bool;
  timeout_total : Z;
  timeout_connect : Z;
  timeout_sock_read : Z;
  limit : Z;
  limit_per_host : Z;
  ttl_dns_cache : Z;
  use_dns_cache : bool;
  keepalive_timeout : Z;
  enable_cleanup_closed : bool
}.

(** [self.session], and the number of sessions made so far, which names
    the next one. *)
Record connection : Type := mk_connection {
  session : option client_session;
  sessions_made : nat
}.

(** [self.session = None] in [__init__]. *)
Definition no_session : connection := mk_connection None 0.

Definition new_session (id : nat) : client_session :=
  {| session_id := id; closed := false;
     timeout_total := 300; timeout_connect := 60; timeout_sock_read := 240;
     limit := 50; limit_per_host := 10; ttl_dns_cache := 300;
     use_dns_cache := true; keepalive_timeout := 30;
     enable_cleanup_closed := true |}.

(** [AnthropicRequestHandler._get_session] *)
Definition _get_session (self : connection) : client_session * connection :=
  match session self with
  | Some s =>
      if closed s then
        let s' := new_session (sessions_made self) in
        (s', mk_connection (Some s') (S (sessions_made self)))
      else (s, self)
  | None =>
      let s' := new_session (sessions_made self) in
      (s', mk_connection (Some s') (S (sessions_made self)))
  end.

Definition close_session (s : client_session) : client_session :=
  {| session_id := session_id s; closed := true;
     timeout_total := timeout_total s; timeout_connect := timeout_connect s;
     timeout_sock_read := timeout_sock_read s;
     limit := limit s; limit_per_host := limit_per_host s;
     ttl_dns_cache := ttl_dns_cache s; use_dns_cache := use_dns_cache s;
     keepalive_timeout := keepalive_timeout s;
     enable_cleanup_closed := enable_cleanup_closed s |}.

(** [close]: [if self.session and not self.session.closed:
    await self.session.close()] *)
Definition close (self : connection) : connection :=
  match session self with
  | Some s =>
      if closed s then self
      else mk_connection (Some (close_session s)) (sessions_made self)
  | None => self
  end.

(** The sessions of a handler are numbered below [sessions_made]. *)
Definition connection_ok (self : connection) : Prop :=
  match session self with
  | Some s => session_id s < sessions_made self
  | None => True
  end.

End Session.

(** One [session.get(url, headers=...)]. *)
Record get_request : Type := mk_get {
  get_url : string;
  get_headers : gmap string string
}.

(** The response to a GET: [response.headers.get('content-type')], and
    what [await response.json()] and [await response.text()] do. *)
Record get_response : Type := mk_get_response {
  get_content_type : option string;
  get_json : result pyval;
  get_text : result string
}.

Inductive get_result : Type :=
| GetRaises (e : exn)
| GetResponds (r : get_response).

Definition get_upstream : Type := get_request -> get_result.

(** The [try] block of [handle_get_request] and [handle_models_request]. *)
Definition get_for_json (up : get_upstream) (rq : get_request) : result pyval :=
  match up rq with
  | GetRaises e => Raise e
  | GetResponds r =>
      if String.prefix "application/json" (default "" (get_content_type r))
      then get_json r
      else text ← get_text r; Ok (PDict [("data", PStr text)])
  end.

Module AnthropicApp.
Section WithRepr.

Variable py_repr : pyval -> string.

(** An [AnthropicRequestHandler]: [self.api_url] and the attributes of
    [Anthropic.handler]. *)
Record instance : Type := mk_instance {
  api_url : string;
  core : Anthropic.handler
}.

Definition __init__ (api_url api_key cache_control_ttl : string) : instance :=
  let api_url := rstrip_slash api_url in
  let messages_endpoint :=
    if endswith api_url "/v1/messages" then api_url
    else api_url ++ "/v1/messages" in
  mk_instance api_url (Anthropic.mk_handler api_key cache_control_ttl messages_endpoint).

(** [startup_event]: the handler it installs, or the error it raises. *)
Definition startup_event (env : gmap string string) : result instance :=
  let api_url := default "https://api.anthropic.com" (getenv env "ANTHROPIC_API_URL") in
  let api_key := getenv env "ANTHROPIC_API_KEY" in
  if negb (env_truthy api_key) then
    Raise (py_exc ValueError "ANTHROPIC_API_KEY environment variable is required")
  else
    let cache_control_ttl := default "1h" (getenv env "CACHE_CONTROL_TTL") in
    let cache_control_ttl :=
      if negb (String.eqb cache_control_ttl "5m" || String.eqb cache_control_ttl "1h")
      then "1h" else cache_control_ttl in
    Ok (__init__ api_url (default "" api_key) cache_control_ttl).

(** [_has_cache_control]; [k in message] and [message.get] raise on a
    message that has no such operation. *)
Fixpoint _has_cache_control (messages : list pyval) : result bool :=
  match messages with
  | [] => Ok false
  | message :: rest =>
      at_message ← str_in "cache_control" message;
      if (at_message : bool) then Ok true
      else
        match message with
        | PDict d =>
            match dict_get_default "content" (PList []) d with
            | PList content =>
                if existsb Normalizer.block_has_cache_control content then Ok true
                else _has_cache_control rest
            | _ => _has_cache_control rest
            end
        | _ => Raise (no_attribute message "get")
        end
  end.

(** The URL [handle_get_request] builds for [endpoint]. *)
Definition get_url_for (self : instance) (endpoint : string) : string :=
  if String.prefix "/" endpoint then rstrip_slash (api_url self) ++ endpoint
  else api_url self ++ "/" ++ endpoint.

(** [handle_get_request]; the handler for response errors calls
    [e.text()], as in [_forward_to_anthropic]. *)
Definition handle_get_request (self : instance) (up : get_upstream)
    (endpoint : string) (headers : option (gmap string string))
    : result pyval * list get_request :=
  let prepared_headers := Anthropic._prepare_headers (core self) (or_empty headers) in
  let url := get_url_for self endpoint in
  let rq := mk_get url prepared_headers in
  (match get_for_json up rq with
   | Ok response_data => Ok response_data
   | Raise e =>
       if isinstance e TimeoutError then
         Ok (error_envelope "timeout_error"
               "Request to Anthropic API timed out after 120 seconds")
       else if isinstance e ClientResponseError then
         Raise (py_exc AttributeError
                  ("'" ++ class_name (exc_cls e) ++ "' object has no attribute 'text'"))
       else if isinstance e ClientError then
         Ok (error_envelope "network_error" ("Network error: " ++ exc_str e))
       else
         Ok (error_envelope "internal_error" ("Internal server error: " ++ exc_str e))
   end, [rq]).

(** The status code [models_endpoint] picks for an error type. *)
Definition models_status_for (error_type : pyval) : Z :=
  if eq_str error_type "api_error" then 400
  else if eq_str error_type "network_error" then 503
  else 500.

(** The route [GET /v1/models]. *)
Definition models_endpoint (request_handler : option instance) (up : get_upstream)
    (request : http_request) : http_response * list get_request :=
  match request_handler with
  | None => (HTTPError 503 "Service not initialized", [])
  | Some self =>
      let headers := req_headers request in
      let '(outcome, log) := handle_get_request self up "/v1/models" (Some headers) in
      (match (response_data ← outcome;
              has_error ← str_in "error" response_data;
              if (has_error : bool) then
                error_type ← Anthropic.error_type_of response_data;
                json_response (models_status_for error_type) response_data
              else json_response 200 response_data) with
       | Ok resp => resp
       | Raise _ => HTTPError 500 "Internal server error"
       end, log)
  end.

End WithRepr.
End AnthropicApp.

Module OpenRouterApp.
Section WithRepr.

Variable py_repr : pyval -> string.

(** An [OpenAIRequestHandler]: [self.api_url] and the attributes of
    [OpenRouter.handler]. *)
Record instance : Type := mk_instance {
  api_url : string;
  core : OpenRouter.handler
}.

Definition __init__ (api_url api_key : string) : instance :=
  let api_url := rstrip_slash api_url in
  let api_url := if negb (endswith api_url "/v1") then api_url ++ "/v1" else api_url in
  mk_instance api_url (OpenRouter.mk_handler api_key (api_url ++ "/chat/completions")).

(** [startup_event]: the handler it installs, or the error it raises. *)
Definition startup_event (env : gmap string string) : result instance :=
  let api_url := default "https://openrouter.ai/api/v1" (getenv env "OPENROUTER_API_URL") in
  let api_key := getenv env "OPENROUTER_API_KEY" in
  if negb (env_truthy api_key) then
    Raise (py_exc ValueError "OPENROUTER_API_KEY environment variable is required")
  else Ok (__init__ api_url (default "" api_key)).

(** The URL [handle_models_request] builds. *)
Definition models_url (self : instance) : string :=
  if endswith (api_url self) "/v1" then api_url self ++ "/models"
  else api_url self ++ "/v1/models".

(** The session is asked for before the URL is built and before the
    [try]. *)
Definition handle_models_request (self : instance) (up : get_upstream)
    (headers : option (gmap string string)) : result pyval * list get_request :=
  let prepared_headers := OpenRouter._prepare_headers (core self) (or_empty headers) in
  match OpenRouter._get_session (core self) with
  | Raise e => (Raise e, [])
  | Ok _ =>
      let rq := mk_get (models_url self) prepared_headers in
      (match get_for_json up rq with
       | Ok response_data => Ok response_data
       | Raise e =>
           Ok (error_envelope "api_error" ("Models request failed: " ++ exc_str e))
       end, [rq])
  end.

(** The route [GET /v1/models]. *)
Definition models_endpoint (request_handler : option instance) (up : get_upstream)
    (request : http_request) : http_response * list get_request :=
  match request_handler with
  | None => (HTTPError 503 "Service not initialized", [])
  | Some self =>
      let headers := req_headers request in
      let '(outcome, log) := handle_models_request self up (Some headers) in
      (match (response_data ← outcome;
              has_error ← str_in "error" response_data;
              if (has_error : bool) then json_response 500 response_data
              else json_response 200 response_data) with
       | Ok resp => resp
       | Raise _ => HTTPError 500 "Internal server error"
       end, log)
  end.

(** The [try] block of [chat_completions_endpoint]. *)
Definition chat_completions_try (self : OpenRouter.handler) (up : upstream)
    (request : http_request) : result http_response * list post_request :=
  let content_type := default "" (req_headers request !! "content-type") in
  if negb (String.prefix "application/json" content_type) then
    (Raise {| exc_cls := HTTPException;
              exc_str := "Content-Type must be application/json";
              exc_status := 400;
              exc_message := "Content-Type must be application/json" |}, [])
  else
    match req_json request with
    | Raise e => (Raise e, [])
    | Ok (PDict request_data) =>
        let is_stream := dict_get_default "stream" (PBool false) request_data in
        let headers := req_headers request in
        if truthy is_stream then
          let '(body, log) :=
            OpenRouter.handle_stream_request py_repr self up request_data (Some headers) in
          (Ok (StreamingResponse body), log)
        else
          let '(outcome, log) :=
            OpenRouter.handle_request py_repr self up request_data (Some headers) in
          (response_data ← outcome;
           has_error ← str_in "error" response_data;
           if (has_error : bool) then json_response 500 response_data
           else json_response 200 response_data,
           log)
    | Ok other => (Raise (no_attribute other "get"), [])
    end.

(** The route [POST /v1/chat/completions], with the global
    [request_handler] as argument. *)
Definition chat_completions_endpoint (request_handler : option OpenRouter.handler)
    (up : upstream) (request : http_request) : http_response * list post_request :=
  match request_handler with
  | None => (HTTPError 503 "Service not initialized", [])
  | Some self =>
      let '(outcome, log) := chat_completions_try self up request in
      (match outcome with
       | Ok resp => resp
       | Raise e =>
           if isinstance e JSONDecodeError then
             HTTPError 400 "Invalid JSON in request body"
           else if isinstance e ValueError then HTTPError 400 (exc_str e)
           else HTTPError 500 "Internal server error"
       end, log)
  end.

End WithRepr.
End OpenRouterApp.

(** ** Notions used in the statements *)

Definition lower_char (c : ascii) : ascii :=
  let n := N_of_ascii c in
  if ((65 <=? n) && (n <=? 90))%N then ascii_of_N (n + 32) else c.

Fixpoint lower (s : string) : string :=
  match s with
  | EmptyString => ""
  | String c s' => String (lower_char c) (lower s')
  end.

(** The caller's credential headers, [x-api-key] and [Authorization], in
    any capitalisation. *)
Definition is_credential_header (name : string) : bool :=
  String.eqb (lower name) "x-api-key" || String.eqb (lower name) "authorization".

(** The requests the validator is to refuse: no model, no messages or an
    empty list of them, a message that is not a dict, a message without
    role or without content. *)
Definition malformed (request_data : pydict) : Prop :=
  dict_contains "model" request_data = false \/
  dict_get "messages" request_data = None \/
  dict_get "messages" request_data = Some (PList []) \/
  exists messages message,
    dict_get "messages" request_data = Some (PList messages) /\
    In message messages /\
    match message with
    | PDict d => dict_contains "role" d = false \/ dict_contains "content" d = false
    | _ => True
    end.

(** The error type of an envelope [{"error": {"type": kind, ...}}]. *)
Definition envelope_kind (v : pyval) : option string :=
  match v with
  | PDict d =>
      match dict_get "error" d with
      | Some (PDict err) =>
          match dict_get "type" err with
          | Some (PStr kind) => Some kind
          | _ => None
          end
      | _ => None
      end
  | _ => None
  end.

(** The error types of the frames the streaming forwarders make for a
    call that fails before the body is read. *)
Definition anthropic_kinds : list string :=
  ["timeout_error"; "api_error"; "network_error"; "unknown_error"].

Definition openrouter_kinds : list string :=
  ["http_error"; "timeout_error"; "api_error"].

(** The error type a consumer reads from a frame. *)
Definition frame_kind (frame : string) : option string :=
  match sse_data frame with
  | Some payload =>
      match json_loads payload with
      | Some v => envelope_kind v
      | None => None
      end
  | None => None
  end.

(** * Proofs *)

Open Scope list_scope.

Section DictFacts.
Context {V : Type}.
Implicit Types (k : string) (v : V) (d : list (string * V)).

Lemma dict_get_del_eq k d : dict_get k (dict_del k d) = None.
Proof.
  induction d as [|[k' v'] d IH]; simpl; [done|].
  destruct (String.eqb k k') eqn:E; [done|]. simpl. by rewrite E.
Qed.

Lemma dict_get_del_ne k k' d : k ≠ k' → dict_get k' (dict_del k d) = dict_get k' d.
Proof.
  intros Hne. induction d as [|[k1 v1] d IH]; simpl; [done|].
  destruct (String.eqb k k1) eqn:E; simpl.
  - apply String.eqb_eq in E. subst k1.
    destruct (String.eqb k' k) eqn:E'; [|done].
    apply String.eqb_eq in E'. congruence.
  - by rewrite IH.
Qed.

Lemma dict_get_set_eq k v d : dict_get k (dict_set k v d) = Some v.
Proof.
  induction d as [|[k1 v1] d IH]; simpl.
  - by rewrite String.eqb_refl.
  - destruct (String.eqb k k1) eqn:E; simpl.
    + by rewrite String.eqb_refl.
    + by rewrite E.
Qed.

Lemma dict_get_set_ne k k' v d : k ≠ k' → dict_get k' (dict_set k v d) = dict_get k' d.
Proof.
  intros Hne. induction d as [|[k1 v1] d IH]; simpl.
  - destruct (String.eqb k' k) eqn:E; [|done].
    apply String.eqb_eq in E. congruence.
  - destruct (String.eqb k k1) eqn:E; simpl.
    + apply String.eqb_eq in E. subst k1.
      destruct (String.eqb k' k) eqn:E'; [|done].
      apply String.eqb_eq in E'. congruence.
    + by rewrite IH.
Qed.

Lemma dict_set_set k v w d : dict_set k v (dict_set k w d) = dict_set k v d.
Proof.
  induction d as [|[k1 v1] d IH]; simpl.
  - by rewrite String.eqb_refl.
  - destruct (String.eqb k k1) eqn:E; simpl.
    + by rewrite String.eqb_refl.
    + by rewrite E, IH.
Qed.

Lemma dict_set_id k v d : dict_get k d = Some v → dict_set k v d = d.
Proof.
  induction d as [|[k1 v1] d IH]; simpl; [done|].
  destruct (String.eqb k k1) eqn:E.
  - apply String.eqb_eq in E. by intros [= ->]; subst.
  - intros H. by rewrite IH.
Qed.

Lemma dict_del_id k d : dict_get k d = None → dict_del k d = d.
Proof.
  induction d as [|[k1 v1] d IH]; simpl; [done|].
  destruct (String.eqb k k1) eqn:E; [done|].
  intros H. by rewrite IH.
Qed.

Lemma dict_del_del k d : dict_del k (dict_del k d) = dict_del k d.
Proof. apply dict_del_id, dict_get_del_eq. Qed.

Lemma dict_del_set_eq k v d : dict_del k (dict_set k v d) = dict_del k d.
Proof.
  induction d as [|[k1 v1] d IH]; simpl.
  - by rewrite String.eqb_refl.
  - destruct (String.eqb k k1) eqn:E; simpl.
    + by rewrite String.eqb_refl.
    + by rewrite E, IH.
Qed.

Lemma dict_del_set_ne k k' v d :
  k ≠ k' → dict_del k (dict_set k' v d) = dict_set k' v (dict_del k d).
Proof.
  intros Hne. induction d as [|[k1 v1] d IH]; simpl.
  - destruct (String.eqb k k') eqn:E; [|done].
    apply String.eqb_eq in E. congruence.
  - destruct (String.eqb k' k1) eqn:E1; simpl.
    + apply String.eqb_eq in E1. subst k1.
      destruct (String.eqb k k') eqn:E; simpl.
      * apply String.eqb_eq in E. congruence.
      * by rewrite String.eqb_refl.
    + destruct (String.eqb k k1) eqn:E; simpl; [done|].
      by rewrite E1, IH.
Qed.

Lemma dict_set_absent k v d : dict_get k d = None → dict_set k v d = d ++ [(k, v)].
Proof.
  induction d as [|[k1 v1] d IH]; simpl; [done|].
  destruct (String.eqb k k1) eqn:E; [done|].
  intros H. by rewrite IH.
Qed.

Lemma dict_contains_get k d : dict_contains k d = bool_decide (is_Some (dict_get k d)).
Proof.
  unfold dict_contains. destruct (dict_get k d); symmetry.
  - apply bool_decide_eq_true. eauto.
  - apply bool_decide_eq_false. by intros [? ?].
Qed.

Lemma dict_contains_false k d : dict_contains k d = false ↔ dict_get k d = None.
Proof. unfold dict_contains. destruct (dict_get k d); split; congruence. Qed.

Lemma dict_contains_true k d : dict_contains k d = true ↔ is_Some (dict_get k d).
Proof.
  unfold dict_contains. destruct (dict_get k d); split; try done; eauto.
Qed.
End DictFacts.

Section NormalizerFacts.
Import Normalizer.
Variable py_repr : pyval -> string.
Variable directive : pyval.

Local Abbreviation T := (tag_last_message py_repr directive).
Local Abbreviation cc := "cache_control".

Lemma clean_block_idem b : clean_block (clean_block b) = clean_block b.
Proof. destruct b; simpl; try done. by rewrite dict_del_del. Qed.

Lemma clean_block_no_directive b : block_has_cache_control (clean_block b) = false.
Proof.
  destruct b; simpl; try done.
  apply dict_contains_false, dict_get_del_eq.
Qed.

Lemma map_clean_block_idem bs : map clean_block (map clean_block bs) = map clean_block bs.
Proof. rewrite map_map. apply map_ext. intros. apply clean_block_idem. Qed.

Lemma clean_dict_cleaned d : cleaned (clean_dict d).
Proof.
  unfold cleaned, clean_dict, dict_get_default.
  destruct (dict_get "content" d) as [v|] eqn:Hc.
  - destruct v; simpl;
      try (split; [apply dict_get_del_eq|
                   rewrite dict_get_del_ne by done; by rewrite Hc]).
    split.
    + rewrite dict_get_set_ne by done. apply dict_get_del_eq.
    + rewrite dict_get_set_eq. apply map_clean_block_idem.
  - simpl. split.
    + rewrite dict_get_set_ne by done. apply dict_get_del_eq.
    + by rewrite dict_get_set_eq.
Qed.

Lemma clean_dict_of_cleaned c : cleaned c → clean_dict c = c.
Proof.
  intros [Hcc Hcontent]. unfold clean_dict, dict_get_default.
  rewrite (dict_del_id _ _ Hcc).
  destruct (dict_get "content" c) as [v|] eqn:Hc; [|done].
  destruct v; try done.
  rewrite Hcontent. by apply dict_set_id.
Qed.

Lemma clean_dict_idem d : clean_dict (clean_dict d) = clean_dict d.
Proof. apply clean_dict_of_cleaned, clean_dict_cleaned. Qed.

Lemma clean_messages_dicts ds :
  clean_messages (map PDict ds) = Ok (map clean_dict ds).
Proof. induction ds as [|d ds IH]; simpl; [done|]. by rewrite IH. Qed.

Lemma clean_messages_ok messages cs :
  clean_messages messages = Ok cs →
  ∃ ds, messages = map PDict ds ∧ cs = map clean_dict ds.
Proof.
  revert cs. induction messages as [|m ms IH]; simpl; intros cs H.
  - exists []. by inversion H.
  - destruct m; simpl in H; try discriminate.
    + destruct (existsb is_cache_control_str l); discriminate.
    + destruct (clean_messages ms) as [cs'|] eqn:E; simpl in H; [|discriminate].
      destruct (IH _ eq_refl) as (ds & -> & ->).
      exists (d :: ds). by inversion H.
Qed.

Lemma tag_last_snoc front c : tag_last py_repr directive (front ++ [c]) = front ++ [T c].
Proof.
  unfold tag_last. rewrite last_snoc, length_app. simpl.
  replace (pred (length front + 1)) with (length front + 0) by lia.
  by rewrite insert_app_r.
Qed.

Lemma tag_content_snoc_dict front bd :
  tag_content py_repr directive (front ++ [PDict bd])
  = front ++ [PDict (dict_set cc directive bd)].
Proof.
  unfold tag_content. rewrite last_snoc, length_app. simpl.
  replace (pred (length front + 1)) with (length front + 0) by lia.
  by rewrite insert_app_r.
Qed.

Lemma tag_content_snoc_other front b :
  is_dict b = false →
  tag_content py_repr directive (front ++ [b])
  = (front ++ [b]) ++ [text_block directive (if truthy b then py_str py_repr b else "")].
Proof.
  intros Hb. unfold tag_content. rewrite last_snoc.
  by destruct b.
Qed.

Lemma snoc_not_nil {A B} (front : list A) (x : A) (y z : B) :
  match front ++ [x] with [] => y | _ => z end = z.
Proof. by destruct front. Qed.

Lemma clean_text_block t :
  clean_block (text_block directive t) = PDict [("type", PStr "text"); ("text", PStr t)].
Proof. done. Qed.

Lemma tag_clean_tag c : cleaned c → T (clean_dict (T c)) = T c.
Proof.
  intros Hc. pose proof Hc as [Hcc Hcontent].
  unfold tag_last_message at 2 3.
  destruct (dict_get "content" c) as [v|] eqn:Hget; [|done].
  assert (Hset : ∀ w, clean_dict (dict_set "content" (PList w) c)
                      = dict_set "content" (PList (map clean_block w)) c).
  { intros w. unfold clean_dict, dict_get_default.
    rewrite dict_get_set_eq, dict_del_set_ne by done.
    by rewrite (dict_del_id _ _ Hcc), dict_set_set. }
  assert (Htext : ∀ t, T (dict_set "content"
                    (PList [PDict [("type", PStr "text"); ("text", PStr t)]]) c)
                = dict_set "content" (PList [text_block directive t]) c).
  { intros t. unfold tag_last_message. rewrite dict_get_set_eq. simpl.
    by rewrite dict_set_set. }
  destruct v as [| | | | s | bs | dd]; try (rewrite Hset; simpl; by rewrite Htext).
  destruct bs as [|b bs _] using rev_ind.
  { rewrite (clean_dict_of_cleaned _ Hc). unfold tag_last_message. by rewrite Hget. }
  rewrite !snoc_not_nil.
  rewrite map_app in Hcontent. simpl in Hcontent.
  apply app_inj_tail in Hcontent as [Hbs Hb].
  destruct (is_dict b) eqn:Hd.
  - destruct b; try discriminate. simpl in Hb. injection Hb as Hb.
    rewrite tag_content_snoc_dict, Hset, map_app. simpl.
    rewrite dict_del_set_eq, Hb, Hbs.
    unfold tag_last_message. rewrite dict_get_set_eq, snoc_not_nil.
    by rewrite tag_content_snoc_dict, dict_set_set.
  - rewrite (tag_content_snoc_other _ _ Hd), Hset.
    rewrite !map_app. simpl. rewrite Hbs, Hb.
    unfold tag_last_message. rewrite dict_get_set_eq.
    rewrite snoc_not_nil.
    rewrite tag_content_snoc_dict. by rewrite dict_set_set.
Qed.

Lemma normalize_dicts d ds :
  normalize py_repr directive (map PDict (ds ++ [d]))
  = Ok (map PDict (map clean_dict ds ++ [T (clean_dict d)])).
Proof.
  unfold normalize. rewrite clean_messages_dicts.
  rewrite (map_app clean_dict). cbn [map mbind result_bind].
  rewrite tag_last_snoc.
  by destruct ds.
Qed.

Lemma normalize_idempotent messages :
  normalize py_repr directive messages ≫= normalize py_repr directive
  = normalize py_repr directive messages.
Proof.
  destruct (normalize py_repr directive messages) as [out|e] eqn:Hn; [|done].
  simpl. destruct messages as [|m ms]; [by inversion Hn|].
  unfold normalize in Hn.
  destruct (clean_messages (m :: ms)) as [cs|] eqn:Hcs; [|discriminate].
  simpl in Hn. inversion Hn; subst out; clear Hn.
  apply clean_messages_ok in Hcs as (ds & Hds & ->).
  destruct ds as [|d ds _] using rev_ind; [discriminate|].
  rewrite (map_app clean_dict). cbn [map]. rewrite tag_last_snoc.
  rewrite normalize_dicts, map_map.
  rewrite (map_ext _ _ clean_dict_idem).
  by rewrite (tag_clean_tag _ (clean_dict_cleaned d)).
Qed.
End NormalizerFacts.

Section JsonFacts.
#[local] Arguments String.append !_ _ / : simpl nomatch.

Ltac each_char c :=
  destruct c as [[] [] [] [] [] [] [] []];
  repeat match goal with
  | |- context [escape_char ?x] =>
      let e := eval vm_compute in (escape_char x) in
      change (escape_char x) with e
  end.

Lemma append_assoc (a b c : string) : (a +:+ b) +:+ c = a +:+ (b +:+ c).
Proof. induction a as [|x a IH]; simpl; [done|by rewrite IH]. Qed.

Lemma read_string_escape s rest :
  read_string (escape s +:+ String dquote rest) = Some (s, rest).
Proof.
  induction s as [|c s IH]; [done|].
  cbn [escape]. rewrite append_assoc.
  each_char c; cbn; rewrite IH; reflexivity.
Qed.

Lemma line_safe_app a b : line_safe (a +:+ b) = line_safe a && line_safe b.
Proof.
  induction a as [|x a IH]; [done|].
  cbn [String.append line_safe]. rewrite IH. by rewrite andb_assoc.
Qed.

Lemma line_safe_escape s : line_safe (escape s) = true.
Proof.
  induction s as [|c s IH]; [done|].
  cbn [escape]. rewrite line_safe_app, IH, andb_true_r.
  each_char c; reflexivity.
Qed.

Lemma line_safe_quoted s rest : line_safe (quoted s rest) = line_safe rest.
Proof.
  unfold quoted. cbn [line_safe]. rewrite line_safe_app, line_safe_escape.
  cbn [line_safe]. reflexivity.
Qed.

Lemma line_safe_envelope kind msg : line_safe (envelope_text kind msg) = true.
Proof.
  unfold envelope_text.
  repeat first [rewrite line_safe_quoted | progress (cbn [line_safe])]. reflexivity.
Qed.

Lemma encode_utf8_line_safe s rest :
  line_safe s = true → encode_utf8 (s +:+ rest) = s +:+ encode_utf8 rest.
Proof.
  induction s as [|c s IH]; [done|].
  cbn [line_safe String.append encode_utf8]. intros [Hc Hs]%andb_true_iff.
  rewrite (IH Hs). unfold encode_char.
  apply andb_true_iff in Hc as [-> _]. reflexivity.
Qed.

Lemma split_line_line_safe s rest :
  line_safe s = true → split_line (s +:+ String newline rest) = Some (s, rest).
Proof.
  induction s as [|c s IH]; [done|].
  cbn [line_safe String.append split_line]. intros [Hc Hs]%andb_true_iff.
  rewrite (IH Hs). apply andb_true_iff in Hc as [_ Hc].
  by destruct (Ascii.eqb c newline).
Qed.

Lemma json_dumps_envelope kind msg :
  json_dumps (error_envelope kind msg) = envelope_text kind msg.
Proof.
  unfold error_envelope, envelope_text, quoted.
  cbn [json_dumps map String.concat fst snd]. unfold json_str.
  repeat first [rewrite append_assoc | progress (cbn [String.append])].
  reflexivity.
Qed.

Lemma read_value_eq fuel s :
  read_value (S fuel) s
  = match skip_ws s with
    | String c s' =>
        if Ascii.eqb c dquote then
          match read_string s' with
          | Some (str, rest) => Some (PStr str, rest)
          | None => None
          end
        else if Ascii.eqb c "{" then
          match skip_ws s' with
          | String "}" rest => Some (PDict [], rest)
          | _ => read_members (read_value fuel) fuel [] s'
          end
        else if Ascii.eqb c "[" then
          match skip_ws s' with
          | String "]" rest => Some (PList [], rest)
          | _ => read_elements (read_value fuel) fuel [] s'
          end
        else
          match strip_prefix "null" (String c s') with
          | Some rest => Some (PNone, rest)
          | None =>
              match strip_prefix "true" (String c s') with
              | Some rest => Some (PBool true, rest)
              | None =>
                  match strip_prefix "false" (String c s') with
                  | Some rest => Some (PBool false, rest)
                  | None => read_int (String c s')
                  end
              end
          end
    | EmptyString => None
    end.
Proof. reflexivity. Qed.

Lemma read_members_eq rv n acc t :
  read_members rv (S n) acc t
  = match skip_ws t with
      | String q t1 =>
          if Ascii.eqb q dquote then
            match read_string t1 with
            | Some (k, t2) =>
                match skip_ws t2 with
                | String ":" t3 =>
                    match rv t3 with
                    | Some (v, t4) =>
                        match skip_ws t4 with
                        | String "," t5 =>
                            read_members rv n (dict_set k v acc) t5
                        | String "}" t5 => Some (PDict (dict_set k v acc), t5)
                        | _ => None
                        end
                    | None => None
                    end
                | _ => None
                end
            | None => None
            end
          else None
      | EmptyString => None
      end.
Proof. reflexivity. Qed.

Ltac read_step :=
  cbn [skip_ws Ascii.eqb Bool.eqb orb andb dquote newline];
  change (String "034" ?x) with (String dquote x).

(** A string value after the colon and one space. *)
Lemma read_value_string fuel s rest :
  read_value (S fuel) (String " " (quoted s rest)) = Some (PStr s, rest).
Proof.
  unfold quoted. rewrite read_value_eq. read_step.
  by rewrite read_string_escape.
Qed.

Lemma json_loads_envelope kind msg :
  json_loads (envelope_text kind msg) = Some (error_envelope kind msg).
Proof.
  unfold json_loads.
  assert (Hlen : ∃ n, String.length (envelope_text kind msg) = S (S (S (S n)))).
  { unfold envelope_text, quoted. cbn [String.length]. eauto. }
  destruct Hlen as [n ->].
  unfold envelope_text.
  rewrite read_value_eq. unfold quoted at 1. read_step.
  rewrite read_members_eq. read_step. rewrite read_string_escape. read_step.
  rewrite read_value_eq. unfold quoted at 1. read_step.
  rewrite read_members_eq. read_step. rewrite read_string_escape. read_step.
  rewrite read_value_string. read_step.
  rewrite read_members_eq. unfold quoted at 1. read_step.
  rewrite read_string_escape. read_step.
  rewrite read_value_string. read_step.
  reflexivity.
Qed.

Lemma is_ascii_app a b : is_ascii (a +:+ b) = is_ascii a && is_ascii b.
Proof.
  induction a as [|x a IH]; [done|].
  cbn [String.append is_ascii]. rewrite IH. by rewrite andb_assoc.
Qed.

Lemma line_safe_is_ascii s : line_safe s = true → is_ascii s = true.
Proof.
  induction s as [|c s IH]; [done|].
  cbn [line_safe is_ascii]. unfold plain_char.
  intros [[-> _]%andb_true_iff Hs]%andb_true_iff. by apply IH.
Qed.

Lemma encode_utf8_ascii s : is_ascii s = true → encode_utf8 s = s.
Proof.
  induction s as [|c s IH]; [done|].
  cbn [is_ascii encode_utf8]. intros [Hc Hs]%andb_true_iff.
  rewrite (IH Hs). unfold encode_char. by rewrite Hc.
Qed.

Ltac frame_is_ascii kind msg :=
  rewrite encode_utf8_ascii;
  [|repeat first [rewrite is_ascii_app | progress (cbn [is_ascii String.append])];
    rewrite (line_safe_is_ascii _ (line_safe_envelope kind msg)); reflexivity].

Lemma sse_data_event kind msg :
  sse_data (event_error_frame (error_envelope kind msg)) = Some (envelope_text kind msg).
Proof.
  unfold event_error_frame. rewrite json_dumps_envelope.
  frame_is_ascii kind msg.
  unfold sse_data.
  cbn [String.append strip_prefix Ascii.eqb Bool.eqb newline].
  rewrite (split_line_line_safe _ _ (line_safe_envelope kind msg)).
  reflexivity.
Qed.

Lemma sse_data_data kind msg :
  sse_data (data_frame (error_envelope kind msg)) = Some (envelope_text kind msg).
Proof.
  unfold data_frame. rewrite json_dumps_envelope.
  frame_is_ascii kind msg.
  unfold sse_data.
  cbn [String.append strip_prefix Ascii.eqb Bool.eqb newline].
  rewrite (split_line_line_safe _ _ (line_safe_envelope kind msg)).
  reflexivity.
Qed.

Lemma event_error_frame_carries kind msg :
  frame_carries (event_error_frame (error_envelope kind msg)) (error_envelope kind msg).
Proof.
  exists (envelope_text kind msg). split.
  - apply sse_data_event.
  - apply json_loads_envelope.
Qed.

Lemma data_frame_carries kind msg :
  frame_carries (data_frame (error_envelope kind msg)) (error_envelope kind msg).
Proof.
  exists (envelope_text kind msg). split.
  - apply sse_data_data.
  - apply json_loads_envelope.
Qed.
End JsonFacts.

Section CountFacts.
Import Normalizer.
Variable py_repr : pyval -> string.
Variable directive : pyval.

Local Abbreviation T := (tag_last_message py_repr directive).

Lemma count_directives_app ms1 ms2 :
  count_directives (ms1 ++ ms2) = count_directives ms1 + count_directives ms2.
Proof. unfold count_directives. by rewrite map_app, list_sum_app. Qed.

Lemma no_directives_of_clean blocks :
  map clean_block blocks = blocks → content_directives (PList blocks) = 0.
Proof.
  intros H. simpl. rewrite <- H.
  induction blocks as [|b bs IH]; simpl; [done|].
  rewrite clean_block_no_directive. apply IH.
  simpl in H. by inversion H as [[Hb Hbs]]; rewrite !Hbs.
Qed.

Lemma content_directives_snoc blocks b :
  content_directives (PList (blocks ++ [b]))
  = content_directives (PList blocks) + (if block_has_cache_control b then 1 else 0).
Proof.
  simpl. rewrite List.filter_app, length_app. simpl.
  by destruct (block_has_cache_control b).
Qed.

Lemma cleaned_no_directives c : cleaned c → message_directives (PDict c) = 0.
Proof.
  intros [Hcc Hcontent]. simpl.
  rewrite (proj2 (dict_contains_false _ _) Hcc). simpl.
  unfold dict_get_default.
  destruct (dict_get "content" c) as [v|]; [|done].
  destruct v; try done. by apply no_directives_of_clean.
Qed.

Lemma count_directives_cleaned ds : count_directives (map PDict (map clean_dict ds)) = 0.
Proof.
  induction ds as [|d ds IH]; [done|].
  change (message_directives (PDict (clean_dict d))
          + count_directives (map PDict (map clean_dict ds)) = 0).
  by rewrite IH, (cleaned_no_directives _ (clean_dict_cleaned d)).
Qed.

Lemma text_block_tail c t :
  dict_get "cache_control" c = None →
  tail_directive directive (dict_set "content" (PList [text_block directive t]) c).
Proof.
  intros Hcc. split.
  - apply dict_contains_false. by rewrite dict_get_set_ne.
  - exists [], [("type", PStr "text"); ("text", PStr t); ("cache_control", directive)].
    by rewrite dict_get_set_eq.
Qed.

Lemma tail_directive_count m : tail_directive directive m → message_directives (PDict m) = 1.
Proof.
  intros (Hcc & blocks & block & Hget & Hblocks & Hblock). simpl.
  rewrite Hcc. unfold dict_get_default. rewrite Hget.
  rewrite content_directives_snoc, Hblocks. simpl.
  unfold dict_contains. by rewrite Hblock.
Qed.

Lemma tag_last_message_tail c :
  cleaned c → T c = c ∨ tail_directive directive (T c).
Proof.
  intros Hc. pose proof Hc as [Hcc Hcontent].
  unfold tag_last_message.
  destruct (dict_get "content" c) as [v|] eqn:Hget; [|by left].
  destruct v as [| | | | s | bs | dd]; try (right; by apply text_block_tail).
  destruct bs as [|b bs _] using rev_ind; [by left|]. right.
  rewrite snoc_not_nil.
  rewrite map_app in Hcontent. simpl in Hcontent.
  apply app_inj_tail in Hcontent as [Hbs Hb].
  split; [apply dict_contains_false; by rewrite dict_get_set_ne|].
  destruct (is_dict b) eqn:Hd.
  - destruct b as [| | | | | |bd]; try discriminate.
    rewrite tag_content_snoc_dict.
    exists bs, (dict_set "cache_control" directive bd).
    rewrite !dict_get_set_eq. split; [done|]. split; [|done].
    by apply no_directives_of_clean.
  - rewrite (tag_content_snoc_other _ _ _ _ Hd).
    eexists (bs ++ [b]), _. rewrite dict_get_set_eq. split; [done|]. split; [|done].
    apply no_directives_of_clean. rewrite map_app. simpl. by rewrite Hbs, Hb.
Qed.

Lemma normalize_directive_at_tail ds :
  ∃ out, normalize py_repr directive (map PDict ds) = Ok out ∧
         length out = length ds ∧
         (count_directives out = 0 ∨
          count_directives out = 1 ∧ directive_at_tail directive out).
Proof.
  destruct ds as [|d ds _] using rev_ind.
  { exists []. split; [done|]. split; [done|]. by left. }
  rewrite normalize_dicts. eexists. split; [done|].
  split; [by rewrite !length_map, !length_app, length_map|].
  rewrite map_app, count_directives_app, count_directives_cleaned. simpl.
  destruct (tag_last_message_tail _ (clean_dict_cleaned d)) as [-> | Htail].
  - left. unfold count_directives. simpl.
    pose proof (cleaned_no_directives _ (clean_dict_cleaned d)) as H.
    simpl in H. by rewrite H.
  - right. split.
    + unfold count_directives. simpl.
      pose proof (tail_directive_count _ Htail) as H. simpl in H. by rewrite H.
    + exists (map PDict (map clean_dict ds)), (T (clean_dict d)).
      split; [done|]. split; [apply count_directives_cleaned | done].
Qed.
End CountFacts.

Section FrameKinds.
Lemma envelope_kind_envelope kind msg : envelope_kind (error_envelope kind msg) = Some kind.
Proof. reflexivity. Qed.

Lemma frame_kind_event kind msg :
  frame_kind (event_error_frame (error_envelope kind msg)) = Some kind.
Proof.
  unfold frame_kind. by rewrite sse_data_event, json_loads_envelope.
Qed.

Lemma frame_kind_data kind msg :
  frame_kind (data_frame (error_envelope kind msg)) = Some kind.
Proof.
  unfold frame_kind. by rewrite sse_data_data, json_loads_envelope.
Qed.
End FrameKinds.

Section ValidatorFacts.

Lemma forallb_message_ok messages :
  forallb message_ok messages = true →
  ∃ ds, messages = map PDict ds ∧
        Forall (λ d, dict_contains "role" d = true ∧ dict_contains "content" d = true) ds.
Proof.
  induction messages as [|m ms IH]; simpl.
  - by exists [].
  - intros [Hm Hms]%andb_true_iff. destruct (IH Hms) as (ds & -> & Hds).
    destruct m; try discriminate. simpl in Hm. apply andb_true_iff in Hm.
    exists (d :: ds). split; [done|]. by constructor.
Qed.

Lemma validate_request_true request_data :
  validate_request request_data = true →
  dict_contains "model" request_data = true ∧
  ∃ d ds, dict_get "messages" request_data = Some (PList (map PDict (d :: ds))) ∧
          Forall (λ d, dict_contains "role" d = true ∧ dict_contains "content" d = true)
                 (d :: ds).
Proof.
  unfold validate_request, dict_get_default, dict_contains.
  destruct (dict_get "model" request_data); [|done]. simpl.
  destruct (dict_get "messages" request_data) as [v|]; [|done]. simpl.
  destruct v as [| | | | | ms |]; try done.
  destruct ms as [|m ms]; [done|]. intros H.
  destruct (forallb_message_ok _ H) as (ds & Heq & Hds).
  destruct ds as [|d ds]; [done|]. split; [done|].
  exists d, ds. by rewrite Heq.
Qed.

Lemma forallb_message_ok_false messages message :
  In message messages →
  match message with
  | PDict d => dict_contains "role" d = false ∨ dict_contains "content" d = false
  | _ => True
  end →
  forallb message_ok messages = false.
Proof.
  intros Hin Hbad. apply not_true_is_false. intros Hall.
  rewrite forallb_forall in Hall. specialize (Hall _ Hin).
  destruct message; try discriminate. simpl in Hall.
  apply andb_true_iff in Hall as [? ?]. destruct Hbad; congruence.
Qed.

Lemma malformed_rejected request_data :
  malformed request_data → validate_request request_data = false.
Proof.
  unfold validate_request, dict_get_default.
  intros [Hmodel | [Hnone | [Hempty | (ms & m & Hget & Hin & Hbad)]]].
  - by rewrite Hmodel.
  - destruct (dict_contains "model" request_data); [|done]. simpl.
    unfold dict_contains. by rewrite Hnone.
  - destruct (dict_contains "model" request_data); [|done]. simpl.
    unfold dict_contains. by rewrite Hempty.
  - destruct (dict_contains "model" request_data); [|done]. simpl.
    unfold dict_contains. rewrite Hget. simpl.
    destruct ms as [|m0 ms0]; [done|].
    by apply (forallb_message_ok_false _ m).
Qed.
End ValidatorFacts.

Section HandlerFacts.
Variable py_repr : pyval -> string.

Lemma anthropic_invalid self up request_data headers :
  validate_request request_data = false →
  Anthropic.handle_request py_repr self up request_data headers
  = (Raise (py_exc ValueError "Invalid Anthropic request format"), []) ∧
  Anthropic.handle_stream_request py_repr self up request_data headers
  = (mk_stream [] (Some (py_exc ValueError "Invalid Anthropic request format")), []).
Proof.
  intros H. unfold Anthropic.handle_request, Anthropic.handle_stream_request,
    Anthropic._validate_anthropic_request. by rewrite H.
Qed.

Lemma openrouter_invalid self up request_data headers :
  validate_request request_data = false →
  OpenRouter.handle_request py_repr self up request_data headers
  = (Raise (py_exc ValueError "Invalid OpenAI request format"), []) ∧
  OpenRouter.handle_stream_request py_repr self up request_data headers
  = (mk_stream [] (Some (py_exc ValueError "Invalid OpenAI request format")), []).
Proof.
  intros H. unfold OpenRouter.handle_request, OpenRouter.handle_stream_request,
    OpenRouter._validate_openai_request. by rewrite H.
Qed.

(** C6: a request that fails validation (no model, no messages or an
    empty list, a message that is not a dict, a message without role or
    content) makes the unary and the streaming operation of both handlers
    fail with the validation error, a [ValueError] for an invalid request
    format; no POST has been issued, and the stream has produced no
    chunk. *)
Theorem invalid_request_fails_before_network
    (a : Anthropic.handler) (o : OpenRouter.handler) (up : upstream)
    (request_data : pydict) (headers : option (gmap string string)) :
  malformed request_data →
  Anthropic.handle_request py_repr a up request_data headers
  = (Raise (py_exc ValueError "Invalid Anthropic request format"), []) ∧
  Anthropic.handle_stream_request py_repr a up request_data headers
  = (mk_stream [] (Some (py_exc ValueError "Invalid Anthropic request format")), []) ∧
  OpenRouter.handle_request py_repr o up request_data headers
  = (Raise (py_exc ValueError "Invalid OpenAI request format"), []) ∧
  OpenRouter.handle_stream_request py_repr o up request_data headers
  = (mk_stream [] (Some (py_exc ValueError "Invalid OpenAI request format")), []).
Proof.
  intros H%malformed_rejected.
  destruct (anthropic_invalid a up request_data headers H) as [? ?].
  destruct (openrouter_invalid o up request_data headers H) as [? ?].
  done.
Qed.

Lemma anthropic_valid_posts self up request_data headers :
  validate_request request_data = true →
  ∃ out, Anthropic._standardize_cache_control py_repr self
           (match dict_get_default "messages" (PList []) request_data with
            | PList ms => ms | _ => [] end) = Ok out ∧
    Anthropic.handle_request py_repr self up request_data headers
    = Anthropic._forward_to_anthropic self up
        (dict_set "messages" (PList out) request_data) (Some (or_empty headers)) ∧
    Anthropic.handle_stream_request py_repr self up request_data headers
    = Anthropic._forward_stream_to_anthropic self up
        (dict_set "messages" (PList out) request_data) (Some (or_empty headers)).
Proof.
  intros H. pose proof (validate_request_true _ H) as (_ & d & ds & Hget & _).
  unfold Anthropic.handle_request, Anthropic.handle_stream_request,
    Anthropic._validate_anthropic_request.
  rewrite H. simpl. unfold dict_get_default. rewrite Hget.
  destruct (normalize_directive_at_tail py_repr (Anthropic.directive self) (d :: ds))
    as (out & Hout & _).
  exists out. unfold Anthropic._standardize_cache_control.
  by rewrite Hout.
Qed.
End HandlerFacts.

Section EndpointFacts.
Variable py_repr : pyval -> string.

Lemma forward_to_anthropic_log self up request_data headers :
  snd (Anthropic._forward_to_anthropic self up request_data headers)
  = [mk_post (Anthropic.messages_url self) request_data
       (Anthropic._prepare_headers self (or_empty headers)) false].
Proof. done. Qed.

Lemma forward_stream_to_anthropic_log self up request_data headers :
  snd (Anthropic._forward_stream_to_anthropic self up request_data headers)
  = [mk_post (Anthropic.messages_url self) request_data
       (Anthropic._prepare_headers self (or_empty headers)) true].
Proof. done. Qed.

(** Every request that [handle_request] or [handle_stream_request] posts
    carries the request data it was given, with the messages replaced. *)
Lemma anthropic_posted_json self up request_data headers rq :
  In rq (snd (Anthropic.handle_request py_repr self up request_data headers)) ∨
  In rq (snd (Anthropic.handle_stream_request py_repr self up request_data headers)) →
  ∃ out, post_json rq = dict_set "messages" (PList out) request_data.
Proof.
  destruct (validate_request request_data) eqn:Hv.
  - destruct (anthropic_valid_posts py_repr self up request_data headers Hv)
      as (out & _ & -> & ->).
    rewrite forward_to_anthropic_log, forward_stream_to_anthropic_log.
    intros [[<- | []] | [<- | []]]; by exists out.
  - destruct (anthropic_invalid py_repr self up request_data headers Hv) as [-> ->].
    intros [[] | []].
Qed.

Lemma anthropic_valid_log self up request_data headers :
  validate_request request_data = true →
  ∃ rq1 rq2,
    snd (Anthropic.handle_request py_repr self up request_data headers) = [rq1] ∧
    snd (Anthropic.handle_stream_request py_repr self up request_data headers) = [rq2].
Proof.
  intros Hv.
  destruct (anthropic_valid_posts py_repr self up request_data headers Hv)
    as (out & _ & -> & ->).
  rewrite forward_to_anthropic_log, forward_stream_to_anthropic_log. eauto.
Qed.

Lemma messages_endpoint_log self up headers d :
  String.prefix "application/json" (default "" (headers !! "content-type")) = true →
  dict_contains "top_p" d = true →
  snd (Anthropic.messages_endpoint py_repr (Some self) up (mk_request headers (Ok (PDict d))))
  = if truthy (dict_get_default "stream" (PBool false) d)
    then snd (Anthropic.handle_stream_request py_repr self up (dict_del "top_p" d) (Some headers))
    else snd (Anthropic.handle_request py_repr self up (dict_del "top_p" d) (Some headers)).
Proof.
  intros Hct Htop. unfold Anthropic.messages_endpoint, Anthropic.messages_try.
  cbn [req_headers req_json]. rewrite Hct, Htop. cbn [negb].
  destruct (truthy _).
  - by destruct (Anthropic.handle_stream_request _ _ _ _ _).
  - by destruct (Anthropic.handle_request _ _ _ _ _).
Qed.

(** C10: for a JSON body that is an object, the Anthropic route removes
    [top_p] before it validates or forwards.  A body without [top_p] makes
    the removal raise [KeyError]: the answer is the internal server error
    (status 500) and no POST is issued, whatever else the body holds.  For
    a body with [top_p], no request that is posted has the field, and a
    body that passes validation is posted. *)
Theorem messages_endpoint_pops_top_p
    (self : Anthropic.handler) (up : upstream)
    (headers : gmap string string) (d : pydict) :
  let request := mk_request headers (Ok (PDict d)) in
  let answer := Anthropic.messages_endpoint py_repr (Some self) up request in
  String.prefix "application/json" (default "" (headers !! "content-type")) = true →
  (dict_contains "top_p" d = false →
     answer = (HTTPError 500 "Internal server error", [])) ∧
  (dict_contains "top_p" d = true →
     (∀ rq, In rq (snd answer) → dict_contains "top_p" (post_json rq) = false) ∧
     (validate_request (dict_del "top_p" d) = true → ∃ rq, snd answer = [rq])).
Proof.
  intros request answer Hct. subst request answer. split.
  - intros Htop. unfold Anthropic.messages_endpoint, Anthropic.messages_try.
    cbn [req_headers req_json]. by rewrite Hct, Htop.
  - intros Htop. rewrite (messages_endpoint_log _ _ _ _ Hct Htop). split.
    + intros rq Hin.
      destruct (anthropic_posted_json self up (dict_del "top_p" d) (Some headers) rq)
        as (out & ->).
      { destruct (truthy _); [by right | by left]. }
      apply dict_contains_false.
      rewrite dict_get_set_ne by done. apply dict_get_del_eq.
    + intros Hv.
      destruct (anthropic_valid_log self up _ (Some headers) Hv) as (rq1 & rq2 & H1 & H2).
      destruct (truthy _); eauto.
Qed.
End EndpointFacts.

Section HeaderFacts.

Lemma anthropic_prepare_headers_eq self original_headers :
  Anthropic._prepare_headers self original_headers
  = let h0 : gmap string string :=
      <["content-type" := "application/json"]>
        (<["anthropic-version" := default "2023-06-01" (original_headers !! "anthropic-version")]>
           (<["x-api-key" := Anthropic.api_key self]> ∅)) in
    let h1 := match original_headers !! "anthropic-beta" with
              | Some v => <["anthropic-beta" := v]> h0 | None => h0 end in
    match original_headers !! "user-agent" with
    | Some v => <["user-agent" := v]> h1 | None => h1 end.
Proof. reflexivity. Qed.

Lemma anthropic_credential self original_headers name :
  is_credential_header name = true →
  Anthropic._prepare_headers self original_headers !! name
  = if decide (name = "x-api-key") then Some (Anthropic.api_key self) else None.
Proof.
  intros Hname. rewrite anthropic_prepare_headers_eq. cbn zeta.
  assert (Hne : ∀ k, is_credential_header k = false → k ≠ name) by (intros k Hk ->; congruence).
  destruct (original_headers !! "anthropic-beta"), (original_headers !! "user-agent");
    rewrite ?lookup_insert_ne by (by apply Hne);
    (case_decide as Hk;
     [subst; by rewrite lookup_insert_eq
     |rewrite lookup_insert_ne by done; apply lookup_empty]).
Qed.

Lemma openrouter_credential self original_headers name :
  is_credential_header name = true →
  OpenRouter._prepare_headers self original_headers !! name
  = if decide (name = "Authorization") then Some ("Bearer " +:+ OpenRouter.api_key self)
    else None.
Proof.
  intros Hname. unfold OpenRouter._prepare_headers. cbn zeta.
  assert (Hne : ∀ k, is_credential_header k = false → k ≠ name) by (intros k Hk ->; congruence).
  rewrite !lookup_insert_ne by (by apply Hne).
  case_decide as Hk.
  - subst. by rewrite lookup_insert_eq.
  - rewrite lookup_insert_ne by done. apply lookup_empty.
Qed.

(** C3: two maps of caller headers that agree outside the caller's
    credential headers ([x-api-key], [Authorization]) give the same
    prepared headers; among the credential names the output has only the
    server's own, with the key the handler was built with. *)
Theorem prepare_headers_ignores_caller_credentials
    (a : Anthropic.handler) (o : OpenRouter.handler) (h1 h2 : gmap string string) :
  (∀ name, is_credential_header name = false → h1 !! name = h2 !! name) →
  Anthropic._prepare_headers a h1 = Anthropic._prepare_headers a h2 ∧
  OpenRouter._prepare_headers o h1 = OpenRouter._prepare_headers o h2 ∧
  (∀ name, is_credential_header name = true →
     Anthropic._prepare_headers a h1 !! name
     = if decide (name = "x-api-key") then Some (Anthropic.api_key a) else None) ∧
  (∀ name, is_credential_header name = true →
     OpenRouter._prepare_headers o h1 !! name
     = if decide (name = "Authorization") then Some ("Bearer " +:+ OpenRouter.api_key o)
       else None).
Proof.
  intros Hsame. split; [|split; [done|split]].
  - rewrite !anthropic_prepare_headers_eq.
    by rewrite !(Hsame "anthropic-version"), !(Hsame "anthropic-beta"), !(Hsame "user-agent").
  - intros name. apply anthropic_credential.
  - intros name. apply openrouter_credential.
Qed.
End HeaderFacts.

Section ForwarderFacts.

Lemma relay_chunks cs tail :
  Forall (λ c, c ≠ "") cs →
  relay (map ReadBytes cs ++ tail)
  = mk_stream (cs ++ chunks (relay tail)) (raised (relay tail)).
Proof.
  induction 1 as [|c cs Hc _ IH]; simpl.
  - by destruct (relay tail).
  - apply String.eqb_neq in Hc. rewrite Hc, IH. done.
Qed.

Lemma relay_interrupted cs e rest :
  Forall (λ c, c ≠ "") cs →
  relay (map ReadBytes cs ++ ReadRaises e :: rest) = mk_stream cs (Some e).
Proof. intros H. rewrite (relay_chunks _ _ H). simpl. by rewrite app_nil_r. Qed.

Lemma relay_complete cs :
  Forall (λ c, c ≠ "") cs → relay (map ReadBytes cs) = mk_stream cs None.
Proof.
  intros H. rewrite <- (app_nil_r (map ReadBytes cs)), (relay_chunks _ _ H).
  simpl. by rewrite app_nil_r.
Qed.

Lemma raise_for_status_ok r : (resp_status r < 400)%Z → raise_for_status r = Ok tt.
Proof. intros H. unfold raise_for_status. by rewrite (proj2 (Z.leb_gt _ _) H). Qed.

Lemma raise_for_status_error r :
  (400 <= resp_status r)%Z →
  ∃ e, raise_for_status r = Raise e ∧ exc_cls e = ClientResponseError ∧
       exc_status e = resp_status r ∧ exc_message e = resp_reason r.
Proof.
  intros H. unfold raise_for_status. rewrite (proj2 (Z.leb_le _ _) H). eauto.
Qed.

Lemma anthropic_stream_error_frame_kind e :
  ∃ kind msg, Anthropic.stream_error_frame e = event_error_frame (error_envelope kind msg) ∧
              In kind anthropic_kinds.
Proof.
  unfold Anthropic.stream_error_frame, anthropic_kinds.
  destruct (isinstance e TimeoutError); [|destruct (isinstance e ClientResponseError);
    [|destruct (isinstance e ClientError)]];
    eexists _, _; (split; [reflexivity|]); simpl; tauto.
Qed.

Lemma openrouter_stream_error_frame_kind e :
  ∃ kind msg, OpenRouter.stream_error_frame e = data_frame (error_envelope kind msg) ∧
              In kind openrouter_kinds.
Proof.
  unfold OpenRouter.stream_error_frame, openrouter_kinds.
  destruct (isinstance e ClientResponseError);
    [|destruct (isinstance e TimeoutError || isinstance e ServerTimeoutError)];
    eexists _, _; (split; [reflexivity|]); simpl; tauto.
Qed.

(** What [_get_session] of [openrouter_proxy.py] does, and with it the
    two forwarders of that file. *)
Lemma openrouter_get_session_raises self :
  OpenRouter._get_session self
  = Raise (py_exc TypeError
             "TCPConnector.__init__() got an unexpected keyword argument 'proxy'").
Proof. reflexivity. Qed.

Lemma openrouter_forward_raises self up request_data headers :
  OpenRouter._forward_to_api self up request_data headers
  = (Raise (py_exc TypeError
              "TCPConnector.__init__() got an unexpected keyword argument 'proxy'"), []).
Proof.
  unfold OpenRouter._forward_to_api. cbv zeta. by rewrite openrouter_get_session_raises.
Qed.

Lemma openrouter_forward_stream_raises self up request_data headers :
  OpenRouter._forward_stream_to_api self up request_data headers
  = (mk_stream []
       (Some (py_exc TypeError
                "TCPConnector.__init__() got an unexpected keyword argument 'proxy'")), []).
Proof.
  unfold OpenRouter._forward_stream_to_api. cbv zeta.
  by rewrite openrouter_get_session_raises.
Qed.

(** C4: in [anthropic_proxy.py], when the POST of a streaming forward
    fails before the body is read (the call raises, or the status is 400
    or above), the stream is one SSE error frame and no upstream bytes, and
    it ends normally; the error type of the frame is [timeout_error],
    [api_error], [network_error] or [unknown_error].  In
    [openrouter_proxy.py] no streaming forward gives a frame:
    [_get_session], called before the [try], raises [TypeError], so the
    stream ends with that exception, with nothing yielded and nothing
    posted. *)
Theorem pre_stream_failure_one_frame
    (a : Anthropic.handler) (o : OpenRouter.handler) (up : upstream)
    (request_data : pydict) (headers : option (gmap string string)) :
  let rqa := mk_post (Anthropic.messages_url a) request_data
               (Anthropic._prepare_headers a (or_empty headers)) true in
  ((∃ e, up rqa = PostRaises e) ∨ (∃ r, up rqa = PostResponds r ∧ (400 <= resp_status r)%Z) →
   ∃ frame kind,
     fst (Anthropic._forward_stream_to_anthropic a up request_data headers)
     = mk_stream [frame] None ∧
     frame_kind frame = Some kind ∧ In kind anthropic_kinds) ∧
  (∃ e, OpenRouter._forward_stream_to_api o up request_data headers
        = (mk_stream [] (Some e), []) ∧
        exc_cls e = TypeError).
Proof.
  intros rqa. subst rqa. split.
  - intros Hfail.
    assert (∃ e, fst (Anthropic._forward_stream_to_anthropic a up request_data headers)
                 = mk_stream [Anthropic.stream_error_frame e] None) as [e ->].
    { unfold Anthropic._forward_stream_to_anthropic. cbv zeta. cbn [fst].
      destruct Hfail as [[e ->] | (r & -> & Hr)]; [by exists e|].
      destruct (raise_for_status_error r Hr) as (e & -> & _). by exists e. }
    destruct (anthropic_stream_error_frame_kind e) as (kind & msg & -> & Hin).
    exists (event_error_frame (error_envelope kind msg)), kind.
    by rewrite frame_kind_event.
  - rewrite openrouter_forward_stream_raises. by eexists.
Qed.

(** C5: in [anthropic_proxy.py], when reading the body fails with a
    payload error or a timeout after the chunks [relayed] have been read,
    the stream is exactly [relayed], in order, followed by one frame; the
    frame is an SSE frame whose [data:] line is JSON for the
    [stream_interrupted] envelope; the stream ends normally, no exception
    leaves it.  In [openrouter_proxy.py] the same upstream is never read:
    the stream yields no chunk and no frame, and the [TypeError] of
    [_get_session] leaves it. *)
Theorem mid_stream_failure_relays_then_one_frame
    (a : Anthropic.handler) (o : OpenRouter.handler) (up : upstream)
    (request_data : pydict) (headers : option (gmap string string))
    (r : response) (relayed : list string) (e : exn) (rest : list read_result) :
  let rqa := mk_post (Anthropic.messages_url a) request_data
               (Anthropic._prepare_headers a (or_empty headers)) true in
  let envelope :=
    error_envelope "stream_interrupted" ("Streaming interrupted due to: " +:+ exc_str e) in
  let so := fst (OpenRouter._forward_stream_to_api o up request_data headers) in
  (resp_status r < 400)%Z →
  resp_reads r = map ReadBytes relayed ++ ReadRaises e :: rest →
  Forall (λ chunk, chunk ≠ "") relayed →
  isinstance e ClientPayloadError || isinstance e TimeoutError = true →
  (up rqa = PostResponds r →
   ∃ frame,
     fst (Anthropic._forward_stream_to_anthropic a up request_data headers)
     = mk_stream (relayed ++ [frame]) None ∧
     frame_carries frame envelope) ∧
  (chunks so = [] ∧ ∃ e', raised so = Some e' ∧ exc_cls e' = TypeError).
Proof.
  intros rqa envelope so Hstatus Hreads Hrelayed He. subst rqa so.
  split.
  - intros Hup.
    exists (event_error_frame envelope). split; [|apply event_error_frame_carries].
    unfold Anthropic._forward_stream_to_anthropic. cbv zeta. cbn [fst].
    rewrite Hup, (raise_for_status_ok _ Hstatus), Hreads.
    rewrite (relay_interrupted _ _ _ Hrelayed). cbn [raised chunks]. by rewrite He.
  - rewrite openrouter_forward_stream_raises. split; [done|]. by eexists.
Qed.

(** C2: the unary forwarders raise past their boundary.
    [_forward_to_anthropic] returns the JSON body of a successful response
    as it is, an envelope of type [timeout_error] for a timeout, one of
    type [network_error] for a transport failure and one of type
    [internal_error] for an exception that is neither a client error nor a
    timeout; for a status of 400 or above its handler calls [e.text()],
    which the exception does not have, and the forwarder raises
    [AttributeError] in place of the [api_error] envelope.
    [_forward_to_api] raises [TypeError] for every request, in
    [_get_session] and before any POST. *)
Theorem unary_forward_classified
    (a : Anthropic.handler) (o : OpenRouter.handler) (up : upstream)
    (request_data : pydict) (headers : option (gmap string string)) :
  let rqa := mk_post (Anthropic.messages_url a) request_data
               (Anthropic._prepare_headers a (or_empty headers)) false in
  let ra := fst (Anthropic._forward_to_anthropic a up request_data headers) in
  (∀ r v, up rqa = PostResponds r → (resp_status r < 400)%Z → resp_json r = Ok v →
     ra = Ok v) ∧
  (∀ e, Anthropic.post_for_json up rqa = Raise e → isinstance e TimeoutError = true →
     ∃ env, ra = Ok env ∧ envelope_kind env = Some "timeout_error") ∧
  (∀ e, Anthropic.post_for_json up rqa = Raise e → isinstance e TimeoutError = false →
     isinstance e ClientResponseError = false → isinstance e ClientError = true →
     ∃ env, ra = Ok env ∧ envelope_kind env = Some "network_error") ∧
  (∀ e, Anthropic.post_for_json up rqa = Raise e → isinstance e TimeoutError = false →
     isinstance e ClientError = false →
     ∃ env, ra = Ok env ∧ envelope_kind env = Some "internal_error") ∧
  (∀ r, up rqa = PostResponds r → (400 <= resp_status r)%Z →
     ∃ e, ra = Raise e ∧ exc_cls e = AttributeError) ∧
  (∃ e, OpenRouter._forward_to_api o up request_data headers = (Raise e, []) ∧
        exc_cls e = TypeError).
Proof.
  intros rqa ra. subst rqa ra.
  unfold Anthropic._forward_to_anthropic.
  cbv zeta. cbn [fst]. repeat split.
  - intros r v Hup Hs Hj. unfold Anthropic.post_for_json.
    rewrite Hup, (raise_for_status_ok _ Hs). simpl. by rewrite Hj.
  - intros e -> ->. eauto.
  - intros e -> -> -> ->. eauto.
  - intros e -> Ht Hc. rewrite Ht.
    assert (isinstance e ClientResponseError = false) as ->.
    { unfold isinstance in *. by destruct (exc_cls e). }
    rewrite Hc. eauto.
  - intros r Hup Hs. unfold Anthropic.post_for_json. rewrite Hup.
    destruct (raise_for_status_error r Hs) as (e & -> & Hcls & _).
    cbn [mbind result_bind]. unfold isinstance. rewrite Hcls. cbn.
    eexists. split; reflexivity.
  - rewrite openrouter_forward_raises. by eexists.
Qed.
End ForwarderFacts.

Section NormalizerClaims.
Variable py_repr : pyval -> string.

(** C1: on a list of messages, each normalizer returns a list of the same
    length that holds no cache directive or exactly one; when it holds one,
    no message before the last has a directive at message or block level,
    the last message has none at message level, and the directive is the
    normalizer's own, on the last block of the last message. *)
Theorem normalized_has_one_directive_at_tail
    (a : Anthropic.handler) (o : OpenRouter.handler) (ds : list pydict) :
  (∃ out, Anthropic._standardize_cache_control py_repr a (map PDict ds) = Ok out ∧
          length out = length ds ∧
          (Normalizer.count_directives out = 0 ∨
           Normalizer.count_directives out = 1 ∧
           Normalizer.directive_at_tail (Anthropic.directive a) out)) ∧
  (∃ out, OpenRouter._add_cache_control_to_messages py_repr o (map PDict ds) = Ok out ∧
          length out = length ds ∧
          (Normalizer.count_directives out = 0 ∨
           Normalizer.count_directives out = 1 ∧
           Normalizer.directive_at_tail OpenRouter.directive out)).
Proof.
  split.
  - apply (normalize_directive_at_tail py_repr (Anthropic.directive a) ds).
  - apply (normalize_directive_at_tail py_repr OpenRouter.directive ds).
Qed.

(** C7: the code at a last message whose content is the empty list.  The
    output is the input: the content stays empty and no text block with a
    directive is put in its place. *)
Theorem empty_content_is_left_empty (a : Anthropic.handler) (o : OpenRouter.handler) :
  let messages := [PDict [("role", PStr "user"); ("content", PList [])]] in
  Anthropic._standardize_cache_control py_repr a messages = Ok messages ∧
  OpenRouter._add_cache_control_to_messages py_repr o messages = Ok messages.
Proof. split; reflexivity. Qed.

(** The same for any list of messages that ends with such a message. *)
Lemma normalize_empty_content directive ds d :
  dict_get "content" d = Some (PList []) →
  ∃ last_message,
    Normalizer.normalize py_repr directive (map PDict (ds ++ [d]))
    = Ok (map PDict (map Normalizer.clean_dict ds ++ [last_message])) ∧
    dict_get "content" last_message = Some (PList []) ∧
    Normalizer.message_directives (PDict last_message) = 0.
Proof.
  intros Hd. rewrite normalize_dicts.
  pose proof (clean_dict_cleaned d) as Hc.
  assert (Hget : dict_get "content" (Normalizer.clean_dict d) = Some (PList [])).
  { unfold Normalizer.clean_dict, dict_get_default. rewrite Hd. simpl.
    by rewrite dict_get_set_eq. }
  exists (Normalizer.clean_dict d).
  unfold Normalizer.tag_last_message at 1. rewrite Hget.
  split; [done|]. split; [done|]. by apply cleaned_no_directives.
Qed.

(** C8: both normalizers are idempotent.  Normalizing the result of a
    normalization gives that result again; on a list of dict messages the
    normalization returns, and returns the same list when applied again. *)
Theorem normalization_idempotent
    (a : Anthropic.handler) (o : OpenRouter.handler)
    (messages : list pyval) (ds : list pydict) :
  (Anthropic._standardize_cache_control py_repr a messages
     ≫= Anthropic._standardize_cache_control py_repr a
   = Anthropic._standardize_cache_control py_repr a messages) ∧
  (OpenRouter._add_cache_control_to_messages py_repr o messages
     ≫= OpenRouter._add_cache_control_to_messages py_repr o
   = OpenRouter._add_cache_control_to_messages py_repr o messages) ∧
  (∃ out, Anthropic._standardize_cache_control py_repr a (map PDict ds) = Ok out ∧
          Anthropic._standardize_cache_control py_repr a out = Ok out) ∧
  (∃ out, OpenRouter._add_cache_control_to_messages py_repr o (map PDict ds) = Ok out ∧
          OpenRouter._add_cache_control_to_messages py_repr o out = Ok out).
Proof.
  unfold Anthropic._standardize_cache_control, OpenRouter._add_cache_control_to_messages.
  split; [apply normalize_idempotent|]. split; [apply normalize_idempotent|].
  split.
  - pose proof (normalize_idempotent py_repr (Anthropic.directive a) (map PDict ds)) as H.
    destruct (normalize_directive_at_tail py_repr (Anthropic.directive a) ds)
      as (out & Hout & _).
    rewrite Hout in H. exists out. by split.
  - pose proof (normalize_idempotent py_repr OpenRouter.directive (map PDict ds)) as H.
    destruct (normalize_directive_at_tail py_repr OpenRouter.directive ds)
      as (out & Hout & _).
    rewrite Hout in H. exists out. by split.
Qed.
End NormalizerClaims.

(** ** The normalizer on the store *)

Section HeapFacts.
Import Heap.
Variable py_repr : heap -> hval -> string.
Variable directive : list (string * hval).

Lemma wp_ret {A} (a : A) Q h : Q (Ok a) h → wp (mret a) Q h.
Proof. done. Qed.

Lemma wp_raise {A} (e : exn) (Q : result A → heap → Prop) h :
  Q (Raise e) h → wp (raise e) Q h.
Proof. done. Qed.

Lemma wp_bind {A B} (c : M A) (f : A → M B) Q h :
  wp c (λ r h', match r with
                | Ok a => wp (f a) Q h'
                | Raise e => Q (Raise e) h'
                end) h →
  wp (c ≫= f) Q h.
Proof.
  unfold wp, mbind, M_bind. by destruct (c h) as [[a|e] h'].
Qed.

Lemma wp_alloc o (Q : result loc → heap → Prop) h :
  (∀ l, h !! l = None → Q (Ok l) (<[l := o]> h)) → wp (alloc o) Q h.
Proof.
  intros H. unfold wp, alloc. simpl. apply H.
  apply not_elem_of_dom, is_fresh.
Qed.

Lemma wp_load l (Q : result hobj → heap → Prop) h :
  (∀ o, h !! l = Some o → Q (Ok o) h) →
  (∀ e, h !! l = None → Q (Raise e) h) →
  wp (load l) Q h.
Proof.
  intros Hsome Hnone. unfold wp, load.
  destruct (h !! l) as [o|] eqn:E; simpl; eauto.
Qed.

Lemma wp_store l o (Q : result unit → heap → Prop) h :
  Q (Ok tt) (<[l := o]> h) → wp (store l o) Q h.
Proof. done. Qed.

Lemma wp_mono {A} (c : M A) (Q Q' : result A → heap → Prop) h :
  wp c Q h → (∀ r h', Q r h' → Q' r h') → wp c Q' h.
Proof. unfold wp. eauto. Qed.
End HeapFacts.

Section HeapSpecs.
Import Heap.
Variable py_repr : heap -> hval -> string.
Variable directive : list (string * hval).
Variable h0 : heap.

Lemma keeps_but_refl x h : keeps_but x h h.
Proof. by intros l o _ H. Qed.

Lemma keeps_but_trans x h1 h2 h3 :
  keeps_but x h1 h2 → keeps_but x h2 h3 → keeps_but x h1 h3.
Proof. intros H12 H23 l o Hl H. eauto. Qed.

Lemma keeps_but_insert x o h : keeps_but x h (<[x := o]> h).
Proof. intros l o' Hl H. by rewrite lookup_insert_ne. Qed.

Lemma subseteq_keeps_but x (h h' : heap) : h ⊆ h' → keeps_but x h h'.
Proof. intros Hsub l o _ H. by eapply lookup_weaken. Qed.

Lemma keeps_but_subseteq x (h h' : heap) : h !! x = None → keeps_but x h h' → h ⊆ h'.
Proof.
  intros Hx Hk. apply map_subseteq_spec. intros l o H.
  apply Hk; [|done]. intros ->. congruence.
Qed.

Lemma alloc_subseteq l o (h : heap) : h !! l = None → h ⊆ <[l := o]> h.
Proof. apply insert_subseteq. Qed.

Lemma store_new_subseteq l o (h : heap) : h0 ⊆ h → h0 !! l = None → h0 ⊆ <[l := o]> h.
Proof. intros Hsub Hl. by apply insert_subseteq_r. Qed.

Lemma new_of_fresh l (h : heap) : h0 ⊆ h → h !! l = None → h0 !! l = None.
Proof.
  intros Hsub Hl. destruct (h0 !! l) as [o|] eqn:E; [|done].
  by rewrite (lookup_weaken _ _ _ _ E Hsub) in Hl.
Qed.

Lemma wp_list_append l v (Q : result unit → heap → Prop) h :
  (∀ items, h !! l = Some (HList items) → Q (Ok tt) (<[l := HList (items ++ [v])]> h)) →
  (∀ e, Q (Raise e) h) →
  wp (list_append l v) Q h.
Proof.
  intros Hok Hraise. unfold list_append. apply wp_bind, wp_load.
  - intros [items|items] Ho; [by apply wp_store, Hok | apply wp_raise, Hraise].
  - intros e _. apply Hraise.
Qed.

Lemma wp_dict_store l k v (Q : result unit → heap → Prop) h :
  (∀ items, h !! l = Some (HDict items) →
     Q (Ok tt) (<[l := HDict (dict_set k v items)]> h)) →
  (∀ e, Q (Raise e) h) →
  wp (dict_store l k v) Q h.
Proof.
  intros Hok Hraise. unfold dict_store. apply wp_bind, wp_load.
  - intros [items|items] Ho; [apply wp_raise, Hraise | by apply wp_store, Hok].
  - intros e _. apply Hraise.
Qed.

Lemma wp_dict_discard l k (Q : result unit → heap → Prop) h :
  (∀ items, h !! l = Some (HDict items) →
     Q (Ok tt) (<[l := HDict (dict_del k items)]> h)) →
  Q (Ok tt) h →
  (∀ e, Q (Raise e) h) →
  wp (dict_discard l k) Q h.
Proof.
  intros Hdel Hsame Hraise. unfold dict_discard. apply wp_bind, wp_load.
  - intros [items|items] Ho.
    + destruct (existsb _ _); [apply wp_raise, Hraise | by apply wp_ret].
    + destruct (dict_contains k items); [by apply wp_store, Hdel | by apply wp_ret].
  - intros e _. apply Hraise.
Qed.

(** Computations that read the store, or only add objects to it. *)
Lemma wp_truthy v (Q : result bool → heap → Prop) h :
  (∀ r, Q r h) → wp (truthy v) Q h.
Proof.
  intros HQ. destruct v; try (by apply wp_ret).
  simpl. apply wp_bind, wp_load.
  - intros [items|items] _; by apply wp_ret.
  - intros e _. apply HQ.
Qed.

Lemma wp_py_str v (Q : result string → heap → Prop) h :
  (∀ r, Q r h) → wp (py_str py_repr v) Q h.
Proof. intros HQ. destruct v; apply HQ. Qed.

Lemma wp_new_text_block text (Q : result hval → heap → Prop) h :
  (∀ r h', h ⊆ h' → Q r h') → wp (new_text_block directive text) Q h.
Proof.
  intros HQ. unfold new_text_block.
  apply wp_bind, wp_alloc. intros l1 Hl1.
  apply wp_bind, wp_alloc. intros l2 Hl2.
  apply wp_ret, HQ.
  etrans; [by apply alloc_subseteq | by apply alloc_subseteq].
Qed.

Lemma wp_new_block_list text (Q : result hval → heap → Prop) h :
  (∀ r h', h ⊆ h' → Q r h') → wp (new_block_list directive text) Q h.
Proof.
  intros HQ. unfold new_block_list.
  apply wp_bind, wp_new_text_block. intros [b|e] h1 H1; [|by apply HQ].
  apply wp_bind, wp_alloc. intros l Hl.
  apply wp_ret, HQ. etrans; [done | by apply alloc_subseteq].
Qed.

Lemma old_not_dict_of_list (h : heap) l items :
  h0 ⊆ h → h !! l = Some (HList items) → old_not_dict h0 (HRef l).
Proof.
  intros Hsub Hl items' H0. by rewrite (lookup_weaken _ _ _ _ H0 Hsub) in Hl.
Qed.

Lemma old_not_dict_of_new l : h0 !! l = None → old_not_dict h0 (HRef l).
Proof. intros Hl items. by rewrite Hl. Qed.

Lemma new_of_dict (h : heap) l items :
  h0 ⊆ h → old_not_dict h0 (HRef l) → h !! l = Some (HDict items) → h0 !! l = None.
Proof.
  intros Hsub Hold Hl. destruct (h0 !! l) as [o|] eqn:E; [|done].
  rewrite (lookup_weaken _ _ _ _ E Hsub) in Hl. injection Hl as ->.
  by destruct (Hold items).
Qed.

Lemma wp_clean_block block (Q : result hval → heap → Prop) h :
  h0 ⊆ h →
  (∀ cleaned h', h ⊆ h' → old_not_dict h0 cleaned → Q (Ok cleaned) h') →
  (∀ e, Q (Raise e) h) →
  wp (clean_block block) Q h.
Proof.
  intros Hsub Hok Hraise. destruct block; try (by apply wp_ret, Hok).
  simpl. apply wp_bind, wp_load.
  - intros [items|items] Ho.
    + apply wp_ret, Hok; [done|]. by eapply old_not_dict_of_list.
    + apply wp_bind, wp_alloc. intros lb Hlb. apply wp_ret, Hok.
      * by apply alloc_subseteq.
      * apply old_not_dict_of_new. by eapply new_of_fresh.
  - intros e _. apply Hraise.
Qed.

(** The loop over the blocks changes the new list only, and leaves in it
    no dict of the store of the call. *)
Lemma wp_clean_blocks cleaned_content content :
  ∀ h acc (Q : result unit → heap → Prop),
    h0 ⊆ h → h0 !! cleaned_content = None →
    h !! cleaned_content = Some (HList acc) → Forall (old_not_dict h0) acc →
    (∀ r h' acc', keeps_but cleaned_content h h' → h0 ⊆ h' →
       h' !! cleaned_content = Some (HList acc') → Forall (old_not_dict h0) acc' →
       Q r h') →
    wp (clean_blocks cleaned_content content) Q h.
Proof.
  induction content as [|block rest IH]; intros h acc Q Hsub Hnew Hcc Hacc HQ.
  - apply wp_ret. eapply HQ; eauto using keeps_but_refl.
  - cbn [clean_blocks]. apply wp_bind, wp_clean_block; [done| |].
    + intros cleaned h1 H1 Hcleaned.
      assert (Hcc1 : h1 !! cleaned_content = Some (HList acc))
        by (by eapply lookup_weaken).
      apply wp_bind, wp_list_append.
      * intros items Hitems. rewrite Hcc1 in Hitems. injection Hitems as <-.
        eapply (IH _ (acc ++ [cleaned])).
        -- apply store_new_subseteq; [by etrans|done].
        -- done.
        -- by rewrite lookup_insert_eq.
        -- apply Forall_app. split; [done|by constructor].
        -- intros r h' acc' Hk Hsub' Hcc' Hacc'. eapply HQ; eauto.
           eapply keeps_but_trans; [by apply subseteq_keeps_but|].
           eapply keeps_but_trans; [apply keeps_but_insert|done].
      * intros e. eapply HQ; eauto using subseteq_keeps_but. by etrans.
    + intros e. eapply HQ; eauto using keeps_but_refl.
Qed.

Lemma subseteq_keeps_but_trans x (h h1 h2 : heap) :
  h ⊆ h1 → h !! x = None → keeps_but x h1 h2 → h ⊆ h2.
Proof.
  intros Hsub Hx Hk. apply map_subseteq_spec. intros l o Hl.
  apply Hk; [intros ->; congruence|]. by eapply lookup_weaken.
Qed.

Lemma wp_replace_content std sitems cm d blocks (Q : result unit → heap → Prop) h :
  h0 ⊆ h → h0 !! cm = None →
  h !! std = Some (HList sitems) →
  h !! cm = Some (HDict d) →
  (∀ r h', keeps_but cm h h' → h0 ⊆ h' → (r = Ok tt → cleaned_at h0 std cm h') → Q r h') →
  wp (cleaned_content ← alloc (HList []);
      _ ← clean_blocks cleaned_content blocks;
      dict_store cm "content" (HRef cleaned_content)) Q h.
Proof.
  intros Hsub Hcm Hstd Hd HQ.
  apply wp_bind, wp_alloc. intros cc Hcc.
  assert (Hsub1 : h ⊆ <[cc := HList []]> h) by (by apply alloc_subseteq).
  assert (Hccnew : h0 !! cc = None) by (by eapply new_of_fresh).
  apply wp_bind.
  eapply (wp_clean_blocks cc blocks _ []); [by etrans|done|by rewrite lookup_insert_eq|done|].
  intros r h2 acc Hk Hsub2 Hacc Hold.
  assert (Hh2 : h ⊆ h2) by (by eapply subseteq_keeps_but_trans).
  destruct r as [[]|e].
  2:{ apply HQ; [by apply subseteq_keeps_but|done|done]. }
  apply wp_dict_store.
  2:{ intros e. apply HQ; [by apply subseteq_keeps_but|done|done]. }
  intros items Hitems. rewrite (lookup_weaken _ _ _ _ Hd Hh2) in Hitems.
  injection Hitems as <-.
  apply HQ.
  - eapply keeps_but_trans; [by apply subseteq_keeps_but|apply keeps_but_insert].
  - by apply store_new_subseteq.
  - intros _. exists (dict_set "content" (HRef cc) d).
    rewrite lookup_insert_eq, dict_get_set_eq. split; [done|].
    assert (cc ≠ cm) by (intros ->; congruence).
    split; [intros ->; congruence|].
    exists (HList acc). by rewrite lookup_insert_ne.
Qed.

Lemma wp_clean_content std sitems message cm o (Q : result unit → heap → Prop) h :
  h0 ⊆ h → h0 !! cm = None →
  h !! std = Some (HList sitems) →
  h !! message = Some o → message ≠ cm →
  (∀ items, o = HDict items →
     ∃ d, h !! cm = Some (HDict d) ∧ dict_get "content" d = dict_get "content" items) →
  (∀ r h', keeps_but cm h h' → h0 ⊆ h' → (r = Ok tt → cleaned_at h0 std cm h') → Q r h') →
  wp (clean_content message cm) Q h.
Proof.
  intros Hsub Hcm Hstd Hmsg Hne Hcopy HQ. unfold clean_content.
  apply wp_bind, wp_load; [|intros e Hnone; by rewrite Hmsg in Hnone].
  intros o' Ho'. rewrite Hmsg in Ho'. injection Ho' as <-.
  destruct o as [mitems|items].
  { apply wp_raise, HQ; [apply keeps_but_refl|done|done]. }
  apply wp_bind, wp_alloc. intros dflt Hdflt.
  assert (Hsub1 : h ⊆ <[dflt := HList []]> h) by (by apply alloc_subseteq).
  destruct (Hcopy items eq_refl) as (d & Hd & Hcontent).
  assert (Hd1 : <[dflt := HList []]> h !! cm = Some (HDict d)) by (by eapply lookup_weaken).
  assert (Hdone : ∀ v, content_ok h0 (<[dflt := HList []]> h) std (dict_get "content" d) →
            Q (Ok v) (<[dflt := HList []]> h)).
  { intros [] Hok. apply HQ; [by apply subseteq_keeps_but|by etrans|].
    intros _. by exists d. }
  unfold dict_get_default.
  destruct (dict_get "content" items) as [v|] eqn:Hget; rewrite Hcontent in *.
  - destruct v as [| | | | |lc]; try (by apply wp_ret, Hdone).
    apply wp_bind, wp_load.
    2:{ intros e _. apply HQ; [by apply subseteq_keeps_but|by etrans|done]. }
    intros [blocks|ditems] Hlc.
    2:{ apply wp_ret, Hdone. split.
        - intros ->. by rewrite (lookup_weaken _ _ _ _ Hstd Hsub1) in Hlc.
        - by exists (HDict ditems). }
    eapply (wp_replace_content std sitems);
      [by etrans|done|by eapply lookup_weaken|done|].
    intros r h' Hk Hsub' Hr. apply HQ; [|done|done].
    eapply keeps_but_trans; [by apply subseteq_keeps_but|done].
  - apply wp_bind, wp_load.
    2:{ intros e Hn. by rewrite lookup_insert_eq in Hn. }
    intros o Ho. rewrite lookup_insert_eq in Ho. injection Ho as <-.
    eapply (wp_replace_content std sitems);
      [by etrans|done|by eapply lookup_weaken|done|].
    intros r h' Hk Hsub' Hr. apply HQ; [|done|done].
    eapply keeps_but_trans; [by apply subseteq_keeps_but|done].
Qed.

Lemma wp_clean_message std sitems message (Q : result loc → heap → Prop) h :
  h0 ⊆ h → h !! std = Some (HList sitems) →
  (∀ r h', h ⊆ h' → (∀ cm, r = Ok cm → h !! cm = None ∧ cleaned_at h0 std cm h') → Q r h') →
  wp (clean_message message) Q h.
Proof.
  intros Hsub Hstd HQ.
  destruct message as [| | | | |l]; try (by apply wp_raise, HQ).
  cbn [clean_message]. apply wp_bind, wp_load; [|intros e _; by apply HQ].
  intros o Ho. apply wp_bind, wp_alloc. intros cm Hcm.
  assert (Hsub1 : h ⊆ <[cm := o]> h) by (by apply alloc_subseteq).
  assert (Hnew : h0 !! cm = None) by (by eapply new_of_fresh).
  assert (Hl : l ≠ cm) by (intros ->; congruence).
  assert (Hs : std ≠ cm) by (intros ->; congruence).
  assert (Hcontent : ∀ h2 : heap,
    keeps_but cm (<[cm := o]> h) h2 → h0 ⊆ h2 →
    (∀ items, o = HDict items →
       ∃ d, h2 !! cm = Some (HDict d) ∧ dict_get "content" d = dict_get "content" items) →
    wp (_ ← clean_content l cm; mret cm) Q h2).
  { intros h2 Hk Hsub2 Hcopy. apply wp_bind.
    eapply (wp_clean_content std sitems l cm o); try done.
    - apply Hk; [done|]. by rewrite lookup_insert_ne.
    - apply Hk; [done|]. by rewrite lookup_insert_ne.
    - intros r h' Hk' Hsub' Hr.
      assert (h ⊆ h').
      { eapply subseteq_keeps_but_trans; [done|done|]. by eapply keeps_but_trans. }
      destruct r as [[]|e]; [|by apply HQ].
      apply wp_ret, HQ; [done|]. intros ? [= <-]. split; [done|by apply Hr]. }
  apply wp_bind, wp_dict_discard.
  - intros items Hitems. rewrite lookup_insert_eq in Hitems. injection Hitems as ->.
    apply Hcontent.
    + apply keeps_but_insert.
    + apply store_new_subseteq; [by etrans|done].
    + intros ? [= <-]. exists (dict_del "cache_control" items).
      rewrite lookup_insert_eq. split; [done|]. by apply dict_get_del_ne.
  - apply Hcontent.
    + apply keeps_but_refl.
    + by etrans.
    + intros items ->. exists items. by rewrite lookup_insert_eq.
  - intros e. by apply HQ.
Qed.

Lemma content_ok_keeps std (h h' : heap) content :
  keeps_but std h h' → content_ok h0 h std content → content_ok h0 h' std content.
Proof.
  intros Hk. destruct content as [[| | | | |lc]|]; try done.
  intros (Hne & oc & Hlc & Hoc). split; [done|]. exists oc. split; [by apply Hk|done].
Qed.

Lemma msg_ok_keeps std (h h' : heap) v :
  keeps_but std h h' → msg_ok h0 h std v → msg_ok h0 h' std v.
Proof.
  intros Hk (lm & d & -> & Hnew & Hne & Hlm & Hc).
  exists lm, d. repeat split; try done; [by apply Hk|by eapply content_ok_keeps].
Qed.

Lemma wp_clean_messages std messages :
  ∀ h (Q : result unit → heap → Prop),
    loop_inv h0 std h →
    (∀ r h', h0 ⊆ h' → (r = Ok tt → loop_inv h0 std h') → Q r h') →
    wp (clean_messages std messages) Q h.
Proof.
  induction messages as [|message rest IH]; intros h Q Hinv HQ.
  - apply wp_ret, HQ; [by destruct Hinv|done].
  - destruct Hinv as (Hsub & Hstd & items & Hitems & Hall).
    cbn [clean_messages]. apply wp_bind.
    eapply (wp_clean_message std items); [done|done|].
    intros r h1 Hsub1 Hr.
    destruct r as [cm|e]; [|apply HQ; [by etrans|done]].
    destruct (Hr cm eq_refl) as (Hcm & d & Hd & Hc).
    assert (Hs : cm ≠ std) by (intros ->; congruence).
    apply wp_bind, wp_list_append; [|intros e; apply HQ; [by etrans|done]].
    intros items' Hitems'. rewrite (lookup_weaken _ _ _ _ Hitems Hsub1) in Hitems'.
    injection Hitems' as <-.
    apply IH; [|done].
    assert (Hk : keeps_but std h1 (<[std := HList (items ++ [HRef cm])]> h1))
      by apply keeps_but_insert.
    split; [apply store_new_subseteq; [by etrans|done]|]. split; [done|].
    exists (items ++ [HRef cm]). rewrite lookup_insert_eq. split; [done|].
    apply Forall_app. split.
    + eapply Forall_impl; [exact Hall|]. intros v Hv.
      eapply msg_ok_keeps; [|exact Hv].
      eapply keeps_but_trans; [by apply subseteq_keeps_but|done].
    + constructor; [|done]. exists cm, d. repeat split; try done.
      * by eapply new_of_fresh.
      * by rewrite lookup_insert_ne.
      * by eapply content_ok_keeps.
Qed.

Lemma wp_append_text_block content block (Q : result unit → heap → Prop) h :
  h0 ⊆ h → h0 !! content = None →
  (∀ r h', h0 ⊆ h' → Q r h') →
  wp (append_text_block py_repr directive content block) Q h.
Proof.
  intros Hsub Hnew HQ. unfold append_text_block.
  apply wp_bind, wp_truthy. intros [t|e]; [|by apply HQ].
  apply wp_bind.
  assert (Htext : ∀ r : result string,
    match r with
    | Ok text =>
        wp (new_block ← new_text_block directive text; list_append content new_block) Q h
    | Raise e => Q (Raise e) h
    end).
  { intros [text|e]; [|by apply HQ].
    apply wp_bind, wp_new_text_block. intros [b|e] h1 H1; [|apply HQ; by etrans].
    apply wp_list_append; [|intros e; apply HQ; by etrans].
    intros items _. apply HQ, store_new_subseteq; [by etrans|done]. }
  destruct t; [apply wp_py_str, Htext | apply wp_ret, (Htext (Ok ""))].
Qed.

Lemma wp_tag_content content blocks (Q : result unit → heap → Prop) h :
  h0 ⊆ h → h0 !! content = None → Forall (old_not_dict h0) blocks →
  (∀ r h', h0 ⊆ h' → Q r h') →
  wp (tag_content py_repr directive content blocks) Q h.
Proof.
  intros Hsub Hnew Hblocks HQ. unfold tag_content.
  destruct (last blocks) as [block|] eqn:Hlast.
  2:{ apply wp_bind, wp_new_block_list. intros [b|e] h1 H1; [|apply HQ; by etrans].
      apply wp_ret, HQ. by etrans. }
  assert (Hblock : old_not_dict h0 block).
  { rewrite Forall_forall in Hblocks. apply Hblocks.
    apply last_Some in Hlast as [front ->]. apply elem_of_app. right. by left. }
  destruct block as [| | | | |lb]; try (by apply wp_append_text_block).
  apply wp_bind, wp_load; [|intros e _; by apply HQ].
  intros [items|items] Hlb; [by apply wp_append_text_block|].
  apply wp_bind, wp_alloc. intros cc Hcc.
  apply wp_dict_store.
  - intros items' _. apply HQ, store_new_subseteq.
    + etrans; [done|by apply alloc_subseteq].
    + by eapply new_of_dict.
  - intros e. apply HQ. etrans; [done|by apply alloc_subseteq].
Qed.

Lemma wp_replace_last_content lm text (Q : result unit → heap → Prop) h :
  h0 ⊆ h → h0 !! lm = None →
  (∀ r h', h0 ⊆ h' → Q r h') →
  wp (new_content ← new_block_list directive text; dict_store lm "content" new_content) Q h.
Proof.
  intros Hsub Hnew HQ.
  apply wp_bind, wp_new_block_list. intros [b|e] h1 H1; [|apply HQ; by etrans].
  apply wp_dict_store; [|intros e; apply HQ; by etrans].
  intros items _. apply HQ, store_new_subseteq; [by etrans|done].
Qed.

Lemma wp_tag_last_message std last_message (Q : result unit → heap → Prop) h :
  h0 ⊆ h → msg_ok h0 h std last_message →
  (∀ r h', h0 ⊆ h' → Q r h') →
  wp (tag_last_message py_repr directive last_message) Q h.
Proof.
  intros Hsub (lm & d & -> & Hnew & Hne & Hlm & Hc) HQ.
  cbn [tag_last_message].
  apply wp_bind, wp_load; [|intros e _; by apply HQ].
  intros om Hom. rewrite Hlm in Hom. injection Hom as <-.
  apply wp_bind, wp_alloc. intros dflt Hdflt.
  assert (Hsub1 : h ⊆ <[dflt := HList []]> h) by (by apply alloc_subseteq).
  assert (Hsub01 : h0 ⊆ <[dflt := HList []]> h) by (by etrans).
  unfold dict_get_default.
  destruct (dict_get "content" d) as [v|] eqn:Hget.
  - destruct v as [| | | | |lc]; try (by apply wp_replace_last_content).
    destruct Hc as (_ & oc & Hlc & Hoc).
    apply wp_bind, wp_load; [|intros e _; by apply HQ].
    intros oc' Hoc'. rewrite (lookup_weaken _ _ _ _ Hlc Hsub1) in Hoc'. injection Hoc' as <-.
    destruct oc as [blocks|items]; [|by apply wp_replace_last_content].
    destruct Hoc as [Hlcnew Hblocks]. by apply wp_tag_content.
  - apply wp_bind, wp_load; [|intros e _; by apply HQ].
    intros o Ho. rewrite lookup_insert_eq in Ho. injection Ho as <-.
    apply wp_tag_content; [done|by apply (new_of_fresh dflt h)|done|done].
Qed.

Lemma wp_tag_last std (Q : result unit → heap → Prop) h :
  loop_inv h0 std h →
  (∀ r h', h0 ⊆ h' → Q r h') →
  wp (tag_last py_repr directive std) Q h.
Proof.
  intros (Hsub & Hstd & items & Hitems & Hall) HQ. unfold tag_last.
  apply wp_bind, wp_load; [|intros e _; by apply HQ].
  intros o Ho. rewrite Hitems in Ho. injection Ho as <-.
  destruct (last items) as [last_message|] eqn:Hlast; [|by apply wp_ret, HQ].
  eapply wp_tag_last_message; [done| |done].
  rewrite Forall_forall in Hall. apply Hall.
  apply last_Some in Hlast as [front ->]. apply elem_of_app. right. by left.
Qed.
End HeapSpecs.

Section HeapTheorem.
Import Heap.
Variable py_repr : heap -> hval -> string.
Variable directive : list (string * hval).

(** Every object of the store is still there, unchanged, after the call,
    whether it returns or raises. *)
Lemma normalize_frame (messages : loc) (h : heap) :
  h ⊆ snd (normalize py_repr directive messages h).
Proof.
  change (wp (normalize py_repr directive messages) (λ _ h', h ⊆ h') h).
  unfold normalize. apply wp_bind, wp_load; [|done].
  intros [items|items] Ho.
  - destruct items as [|message items]; [by apply wp_ret|].
    apply wp_bind, wp_alloc. intros std Hstd.
    apply wp_bind. eapply wp_clean_messages.
    + split; [by apply alloc_subseteq|]. split; [done|].
      exists []. by rewrite lookup_insert_eq.
    + intros r h1 Hsub1 Hr. destruct r as [[]|e]; [|done].
      apply wp_bind. eapply wp_tag_last; [by apply Hr|].
      intros [[]|e] h2 Hsub2; [by apply wp_ret|done].
  - destruct items; [by apply wp_ret|by apply wp_raise].
Qed.
End HeapTheorem.

Section ValueFacts.
Import Heap.

Lemma value_of_subseteq depth :
  ∀ (h h' : heap) v x, h ⊆ h' → value_of depth h v = Some x → value_of depth h' v = Some x.
Proof.
  induction depth as [|depth IH]; intros h h' v x Hsub.
  - by destruct v.
  - destruct v as [| | | | |l]; try done. cbn [value_of].
    destruct (h !! l) as [o|] eqn:Hl; [|done].
    rewrite (lookup_weaken _ _ _ _ Hl Hsub).
    destruct o as [items|items].
    + destruct (mapM (value_of depth h) items) as [xs|] eqn:Hxs; [|done].
      intros [= <-]. apply mapM_Some in Hxs.
      assert (mapM (value_of depth h') items = Some xs) as ->; [|done].
      apply mapM_Some. eapply Forall2_impl; [done|]. intros ? ?. by apply IH.
    + destruct (mapM (λ kv, pair kv.1 <$> value_of depth h kv.2) items) as [xs|] eqn:Hxs;
        [|done].
      intros [= <-]. apply mapM_Some in Hxs.
      assert (mapM (λ kv, pair kv.1 <$> value_of depth h' kv.2) items = Some xs) as ->;
        [|done].
      apply mapM_Some. eapply Forall2_impl; [done|]. intros [k v] [k' x'] H.
      cbn [fst snd] in *.
      destruct (value_of depth h v) as [y|] eqn:Hy; [|done].
      by rewrite (IH _ _ _ _ Hsub Hy).
Qed.

(** C9: the normalizer does not change its argument.  Every object that
    is in the store before the call is in the store after it with the same
    items, whether the call returns or raises; so the list of messages,
    each message and each content block stand for the same value as
    before.  The list the call returns is made of objects of its own. *)
Theorem normalizer_leaves_input_unchanged
    (py_repr : heap → hval → string) (cache_control_ttl : string)
    (messages : loc) (h : heap) :
  let h1 := snd (_standardize_cache_control py_repr cache_control_ttl messages h) in
  let h2 := snd (_add_cache_control_to_messages py_repr messages h) in
  (h ⊆ h1 ∧ h ⊆ h2) ∧
  (∀ depth v x, value_of depth h v = Some x →
     value_of depth h1 v = Some x ∧ value_of depth h2 v = Some x).
Proof.
  intros h1 h2.
  assert (H1 : h ⊆ h1)
    by exact (normalize_frame py_repr
                [("type", HStr "ephemeral"); ("ttl", HStr cache_control_ttl)] messages h).
  assert (H2 : h ⊆ h2)
    by exact (normalize_frame py_repr [("type", HStr "ephemeral")] messages h).
  split; [by split|]. intros depth v x Hx.
  split; [exact (value_of_subseteq depth h h1 v x H1 Hx)
         |exact (value_of_subseteq depth h h2 v x H2 Hx)].
Qed.
End ValueFacts.

(** The two models of the normalizer on sample messages. *)

Section StoreExamples.
Import Heap.

Example agree_string_content :
  agree [PDict [("role", PStr "user"); ("content", PStr "hi")]].
Proof. eexists. split; [reflexivity|]. vm_compute. reflexivity. Qed.

Example agree_empty_content :
  agree [PDict [("role", PStr "user"); ("content", PList [])]].
Proof. eexists. split; [reflexivity|]. vm_compute. reflexivity. Qed.

Example agree_blocks :
  agree [PDict [("role", PStr "user"); ("cache_control", PDict [("type", PStr "ephemeral")]);
                ("content", PList [PDict [("type", PStr "text"); ("text", PStr "a");
                                          ("cache_control", PDict [("type", PStr "ephemeral")])]])];
         PDict [("role", PStr "assistant");
                ("content", PList [PDict [("type", PStr "text"); ("text", PStr "b")];
                                   PDict [("cache_control", PNone); ("type", PStr "text");
                                          ("text", PStr "c")]])]].
Proof. eexists. split; [reflexivity|]. vm_compute. reflexivity. Qed.

Example agree_scalar_block :
  agree [PDict [("role", PStr "user"); ("content", PList [PStr "a"; PInt 7])];
         PDict [("role", PStr "user"); ("content", PList [PStr "a"; PInt 0])]].
Proof. eexists. split; [reflexivity|]. vm_compute. reflexivity. Qed.

Example agree_list_block :
  agree [PDict [("role", PStr "user"); ("content", PList [PList [PInt 1]])]].
Proof. eexists. split; [reflexivity|]. vm_compute. reflexivity. Qed.

Example agree_null_and_missing_content :
  agree [PDict [("role", PStr "user")]; PDict [("role", PStr "user"); ("content", PNone)]] ∧
  agree [PDict [("role", PStr "user"); ("content", PNone)]; PDict [("role", PStr "user")]] ∧
  agree [PDict [("role", PStr "user"); ("content", PDict [("cache_control", PInt 1)])]].
Proof. repeat split; (eexists; split; [reflexivity|]; vm_compute; reflexivity). Qed.
End StoreExamples.

(** ** Further properties of the two files *)

Section ValidatorExtras.

(** X1: [_validate_anthropic_request] and [_validate_openai_request] accept
    a request exactly when it has a [model] entry and its [messages] entry
    is a non-empty list of dicts that each have [role] and [content];
    nothing else of the request is looked at. *)
Theorem validators_accept_exactly (request_data : pydict) :
  let accepted :=
    dict_contains "model" request_data = true ∧
    ∃ d ds, dict_get "messages" request_data = Some (PList (map PDict (d :: ds))) ∧
            Forall (λ d, dict_contains "role" d = true ∧ dict_contains "content" d = true)
                   (d :: ds) in
  (Anthropic._validate_anthropic_request request_data = true ↔ accepted) ∧
  (OpenRouter._validate_openai_request request_data = true ↔ accepted).
Proof.
  cbv zeta.
  assert (validate_request request_data = true ↔
    dict_contains "model" request_data = true ∧
    ∃ d ds, dict_get "messages" request_data = Some (PList (map PDict (d :: ds))) ∧
            Forall (λ d, dict_contains "role" d = true ∧ dict_contains "content" d = true)
                   (d :: ds)) as H; [|by split].
  split; [apply validate_request_true|].
  intros (Hmodel & d & ds & Hget & Hall).
  unfold validate_request, dict_get_default. rewrite Hmodel.
  unfold dict_contains at 1. rewrite Hget. cbn [negb is_Some_proj map].
  simpl.
  apply andb_true_iff. inversion Hall as [|? ? [Hr Hc] Hrest]; subst.
  split; [by rewrite Hr, Hc|].
  apply forallb_forall. intros m Hin. apply in_map_iff in Hin as (d' & <- & Hin).
  rewrite Forall_forall in Hrest. destruct (Hrest d') as [Hr' Hc'].
  { by apply list_elem_of_In. }
  simpl. by rewrite Hr', Hc'.
Qed.

End ValidatorExtras.

Section NormalizerExtras.
Import Normalizer.

Variable py_repr : pyval -> string.
Variable directive : pyval.

Local Abbreviation T := (tag_last_message py_repr directive).
Local Abbreviation cc := "cache_control".

Lemma clean_messages_length messages cs :
  clean_messages messages = Ok cs → length cs = length messages.
Proof.
  intros (ds & -> & ->)%clean_messages_ok. by rewrite !length_map.
Qed.

Lemma clean_message_raises message e :
  clean_message message = Raise e →
  is_dict message = false ∧ (exc_cls e = AttributeError ∨ exc_cls e = TypeError).
Proof.
  destruct message; simpl; try (intros [= <-]; split; [done|by left]).
  - destruct (existsb _ _); intros [= <-]; split; try done; [by right|by left].
  - discriminate.
Qed.

Lemma clean_messages_raises messages e :
  clean_messages messages = Raise e →
  forallb is_dict messages = false ∧ (exc_cls e = AttributeError ∨ exc_cls e = TypeError).
Proof.
  induction messages as [|m ms IH]; simpl; [discriminate|].
  destruct (clean_message m) as [c|e'] eqn:Hm; simpl.
  - destruct (clean_messages ms) as [cs|e'']; simpl; [discriminate|].
    intros [= <-]. destruct (IH eq_refl) as [-> ?]. split; [apply andb_false_r|done].
  - intros [= <-]. destruct (clean_message_raises _ _ Hm) as [-> ?]. done.
Qed.

Lemma tag_last_length cs : length (tag_last py_repr directive cs) = length cs.
Proof. unfold tag_last. destruct (last cs); [apply length_insert|done]. Qed.

(** X2: the normalizer of either file returns exactly when every message
    is a dict, and then it returns as many messages as it was given; when
    some message is not a dict it raises an [AttributeError] or a
    [TypeError]. *)
Theorem normalize_fails_exactly_on_non_dict (messages : list pyval) :
  match normalize py_repr directive messages with
  | Ok out => forallb is_dict messages = true ∧ length out = length messages
  | Raise e =>
      forallb is_dict messages = false ∧
      (exc_cls e = AttributeError ∨ exc_cls e = TypeError)
  end.
Proof.
  unfold normalize. destruct messages as [|m ms]; [done|].
  destruct (clean_messages (m :: ms)) as [cs|e] eqn:Hcs.
  - cbn [mbind result_bind]. rewrite length_map, tag_last_length.
    split; [|by apply clean_messages_length].
    apply clean_messages_ok in Hcs as (ds & -> & _).
    apply forallb_forall. by intros x (d & <- & _)%in_map_iff.
  - by apply clean_messages_raises.
Qed.

Lemma clean_dict_get_other d k :
  k ≠ "content" → k ≠ cc → dict_get k (clean_dict d) = dict_get k d.
Proof.
  intros Hc Hcc. unfold clean_dict.
  destruct (dict_get_default "content" (PList []) d);
    rewrite ?dict_get_set_ne by done; by apply dict_get_del_ne.
Qed.

Lemma clean_dict_get_cc d : dict_get cc (clean_dict d) = None.
Proof. apply (clean_dict_cleaned d). Qed.

Lemma tag_last_message_get_other c k :
  k ≠ "content" → dict_get k (T c) = dict_get k c.
Proof.
  intros Hk. unfold tag_last_message.
  destruct (dict_get "content" c) as [v|]; [|done].
  destruct v as [| | | | | bs |]; rewrite ?dict_get_set_ne by done; try done.
  destruct bs; [done|]. by rewrite dict_get_set_ne.
Qed.

(** X3: on messages that are dicts the normalizer returns dicts, one for
    each message and in the same order; a returned message has no
    [cache_control] entry of its own, and each of its entries other than
    [content] and [cache_control] is the one the message had. *)
Theorem normalize_keeps_other_fields (ds : list pydict) :
  ∃ outs,
    normalize py_repr directive (map PDict ds) = Ok (map PDict outs) ∧
    length outs = length ds ∧
    ∀ i d o, ds !! i = Some d → outs !! i = Some o →
      dict_get "cache_control" o = None ∧
      ∀ k, k ≠ "content" → k ≠ "cache_control" → dict_get k o = dict_get k d.
Proof.
  destruct ds as [|d ds _] using rev_ind.
  { exists []. split; [done|]. split; [done|]. intros i d o Hd. by destruct i. }
  rewrite normalize_dicts. eexists. split; [done|].
  split; [by rewrite !length_app, length_map|].
  intros i m o Hm Ho.
  destruct (decide (i < length ds)) as [Hi|Hi].
  - rewrite lookup_app_l in Hm by done.
    rewrite lookup_app_l in Ho by (by rewrite length_map).
    rewrite list_lookup_fmap, Hm in Ho. injection Ho as <-.
    split; [apply clean_dict_get_cc|]. intros k. apply clean_dict_get_other.
  - rewrite lookup_app_r in Hm by lia.
    rewrite lookup_app_r in Ho by (rewrite length_map; lia).
    rewrite length_map in Ho.
    destruct (i - length ds) as [|n]; [|by destruct n].
    injection Hm as <-. injection Ho as <-. split.
    + rewrite tag_last_message_get_other by done. apply clean_dict_get_cc.
    + intros k Hc Hcc. rewrite tag_last_message_get_other by done.
      by apply clean_dict_get_other.
Qed.

Lemma clean_dict_get_content d :
  dict_get "content" (clean_dict d)
  = Some (match dict_get "content" d with
          | Some (PList blocks) => PList (map clean_block blocks)
          | Some content => content
          | None => PList []
          end).
Proof.
  unfold clean_dict, dict_get_default.
  destruct (dict_get "content" d) as [v|] eqn:Hget.
  - destruct v; simpl; rewrite ?dict_get_set_eq; try done;
      by rewrite dict_get_del_ne.
  - simpl. by rewrite dict_get_set_eq.
Qed.

(** X4: a message before the last keeps its content but for the
    directives: a content that is not a list is unchanged, a list has the
    same blocks in the same order with the [cache_control] entry removed
    from those that are dicts, and a message without content gets the
    empty list. *)
Theorem normalize_front_content (ds : list pydict) (d : pydict) (i : nat) (m : pydict) :
  ds !! i = Some m →
  ∃ out o,
    normalize py_repr directive (map PDict (ds ++ [d])) = Ok out ∧
    out !! i = Some (PDict o) ∧
    dict_get "content" o
    = Some (match dict_get "content" m with
            | Some (PList blocks) => PList (map clean_block blocks)
            | Some content => content
            | None => PList []
            end).
Proof.
  intros Hm. rewrite normalize_dicts. eexists _, (clean_dict m).
  split; [done|]. split; [|apply clean_dict_get_content].
  rewrite map_app, lookup_app_l.
  - by rewrite !list_lookup_fmap, Hm.
  - rewrite !length_map. by apply lookup_lt_Some in Hm.
Qed.

(** X5: when the content of the last message is not a list, the
    normalizer replaces it by one text block that carries the directive;
    the text of the block is the content when that is a string, and empty
    otherwise. *)
Theorem normalize_last_plain_content (ds : list pydict) (d : pydict) (content : pyval) :
  dict_get "content" d = Some content →
  (∀ blocks, content ≠ PList blocks) →
  ∃ front o,
    normalize py_repr directive (map PDict (ds ++ [d])) = Ok (front ++ [PDict o]) ∧
    length front = length ds ∧
    dict_get "content" o
    = Some (PList [PDict [("type", PStr "text");
                          ("text", PStr (match content with PStr s => s | _ => "" end));
                          ("cache_control", directive)]]).
Proof.
  intros Hget Hnl. rewrite normalize_dicts, map_app. eexists _, _.
  split; [done|]. split; [by rewrite !length_map|].
  unfold tag_last_message. rewrite clean_dict_get_content, Hget.
  destruct content as [| | | | | bs |]; try (by rewrite dict_get_set_eq).
  by destruct (Hnl bs).
Qed.

(** X6: when the content of the last message is a list that is not
    empty, the earlier blocks lose only their [cache_control] entry.  A last
    block that is a dict keeps its other entries and gets the directive
    under [cache_control], so the list keeps its length.  A last block that
    is not a dict stays, and a text block with the directive is put after
    it; its text is [str] of the block, or empty when the block is falsy. *)
Theorem normalize_last_block_list
    (ds : list pydict) (d : pydict) (blocks : list pyval) (block : pyval) :
  dict_get "content" d = Some (PList (blocks ++ [block])) →
  ∃ front o,
    normalize py_repr directive (map PDict (ds ++ [d])) = Ok (front ++ [PDict o]) ∧
    length front = length ds ∧
    dict_get "content" o
    = Some (PList
        (match block with
         | PDict b =>
             map clean_block blocks
             ++ [PDict (dict_set "cache_control" directive (dict_del "cache_control" b))]
         | _ =>
             map clean_block blocks ++ [block]
             ++ [PDict [("type", PStr "text");
                        ("text", PStr (if truthy block then py_str py_repr block else ""));
                        ("cache_control", directive)]]
         end)).
Proof.
  intros Hget. rewrite normalize_dicts, map_app. eexists _, _.
  split; [done|]. split; [by rewrite !length_map|].
  unfold tag_last_message. rewrite clean_dict_get_content, Hget.
  rewrite map_app. cbn [map]. rewrite snoc_not_nil, dict_get_set_eq.
  destruct (is_dict block) eqn:Hd.
  - destruct block; try discriminate. simpl clean_block.
    by rewrite tag_content_snoc_dict.
  - assert (clean_block block = block) as -> by (by destruct block).
    rewrite (tag_content_snoc_other _ _ _ _ Hd), <- app_assoc.
    by destruct block.
Qed.

End NormalizerExtras.

Section CheckerExtras.
Import Normalizer.

Variable py_repr : pyval -> string.
Variable directive : pyval.

Local Abbreviation T := (tag_last_message py_repr directive).

Lemma existsb_filter_length {A} (f : A → bool) (l : list A) :
  existsb f l = negb (Nat.eqb (length (List.filter f l)) 0).
Proof.
  induction l as [|x l IH]; [done|]. simpl. destruct (f x); [done|]. by rewrite IH.
Qed.

Lemma has_cache_control_dicts (ds : list pydict) :
  AnthropicApp._has_cache_control (map PDict ds)
  = Ok (negb (Nat.eqb (count_directives (map PDict ds)) 0)).
Proof.
  induction ds as [|d ds IH]; [done|].
  cbn [map AnthropicApp._has_cache_control str_in mbind result_bind].
  change (count_directives (PDict d :: map PDict ds))
    with (message_directives (PDict d) + count_directives (map PDict ds)).
  cbn [message_directives].
  destruct (dict_contains "cache_control" d); [done|]. cbn [Nat.add].
  destruct (dict_get_default "content" (PList []) d) as [| | | | | blocks |];
    cbn [content_directives Nat.add]; try apply IH.
  rewrite existsb_filter_length.
  destruct (length (List.filter block_has_cache_control blocks)); [apply IH|done].
Qed.

(** X7: on messages that are dicts [_has_cache_control] returns without
    raising, and it answers true exactly when some message, or some dict
    block of a content list, has a [cache_control] entry. *)
Theorem has_cache_control_iff_directive (ds : list pydict) :
  ∃ found,
    AnthropicApp._has_cache_control (map PDict ds) = Ok found ∧
    (found = true ↔ 0 < count_directives (map PDict ds)).
Proof.
  rewrite has_cache_control_dicts. eexists. split; [done|].
  destruct (count_directives (map PDict ds)); simpl; split; (done || lia).
Qed.

Lemma tag_last_message_tail_nonempty c :
  cleaned c → dict_get "content" c ≠ Some (PList []) → tail_directive directive (T c).
Proof.
  intros Hc Hne. pose proof Hc as [Hcc Hcontent].
  unfold tag_last_message.
  destruct (dict_get "content" c) as [v|] eqn:Hget; [|done].
  destruct v as [| | | | s | bs | dd]; try (by apply text_block_tail).
  destruct bs as [|b bs _] using rev_ind; [done|].
  rewrite snoc_not_nil.
  rewrite map_app in Hcontent. simpl in Hcontent.
  apply app_inj_tail in Hcontent as [Hbs Hb].
  split; [apply dict_contains_false; by rewrite dict_get_set_ne|].
  destruct (is_dict b) eqn:Hd.
  - destruct b as [| | | | | |bd]; try discriminate.
    rewrite tag_content_snoc_dict.
    exists bs, (dict_set "cache_control" directive bd).
    rewrite !dict_get_set_eq. split; [done|]. split; [|done].
    by apply no_directives_of_clean.
  - rewrite (tag_content_snoc_other _ _ _ _ Hd).
    eexists (bs ++ [b]), _. rewrite dict_get_set_eq. split; [done|]. split; [|done].
    apply no_directives_of_clean. rewrite map_app. simpl. by rewrite Hbs, Hb.
Qed.

(** X8: on the messages the normalizer returns, [_has_cache_control] is
    true unless the last message came without content or with an empty
    list as content; in those two cases it is false. *)
Theorem has_cache_control_after_normalize (ds : list pydict) (d : pydict) :
  ∃ out,
    normalize py_repr directive (map PDict (ds ++ [d])) = Ok out ∧
    AnthropicApp._has_cache_control out
    = Ok (match dict_get "content" d with
          | None | Some (PList []) => false
          | Some _ => true
          end).
Proof.
  rewrite normalize_dicts. eexists. split; [done|].
  rewrite has_cache_control_dicts. f_equal.
  rewrite map_app, count_directives_app, count_directives_cleaned. cbn [map Nat.add].
  change (count_directives [?m]) with (message_directives m + 0).
  rewrite Nat.add_0_r.
  pose proof (clean_dict_get_content d) as Hc.
  assert (Hone : dict_get "content" (clean_dict d) ≠ Some (PList []) →
                 message_directives (PDict (T (clean_dict d))) = 1).
  { intros Hne. apply (tail_directive_count directive).
    by apply tag_last_message_tail_nonempty; [apply clean_dict_cleaned|]. }
  assert (Hzero : dict_get "content" (clean_dict d) = Some (PList []) →
                  message_directives (PDict (T (clean_dict d))) = 0).
  { intros He. unfold tag_last_message. rewrite He.
    apply cleaned_no_directives, clean_dict_cleaned. }
  destruct (dict_get "content" d) as [v|].
  - destruct v as [| | | | | bs |]; try (rewrite Hone; [done|by rewrite Hc]).
    destruct bs; [by rewrite Hzero|]. rewrite Hone; [done|by rewrite Hc].
  - by rewrite Hzero.
Qed.

End CheckerExtras.

Section HandlerExtras.
Variable py_repr : pyval -> string.

Lemma openrouter_valid_posts self up request_data headers :
  validate_request request_data = true →
  ∃ messages out,
    dict_get "messages" request_data = Some (PList messages) ∧
    OpenRouter._add_cache_control_to_messages py_repr self messages = Ok out ∧
    OpenRouter.handle_request py_repr self up request_data headers
    = OpenRouter._forward_to_api self up
        (dict_set "messages" (PList out) request_data) (Some (or_empty headers)) ∧
    OpenRouter.handle_stream_request py_repr self up request_data headers
    = match OpenRouter.add_reasoning (dict_set "messages" (PList out) request_data) with
      | Ok cached_request =>
          OpenRouter._forward_stream_to_api self up cached_request (Some (or_empty headers))
      | Raise e => (mk_stream [] (Some e), [])
      end.
Proof.
  intros H. pose proof (validate_request_true _ H) as (_ & d & ds & Hget & _).
  unfold OpenRouter.handle_request, OpenRouter.handle_stream_request,
    OpenRouter._validate_openai_request.
  rewrite H. simpl. unfold dict_get_default. rewrite Hget.
  destruct (normalize_directive_at_tail py_repr OpenRouter.directive (d :: ds))
    as (out & Hout & _).
  exists (map PDict (d :: ds)), out. unfold OpenRouter._add_cache_control_to_messages.
  by rewrite Hout.
Qed.

(** X9: a request that passes validation makes [handle_request] and
    [handle_stream_request] of [anthropic_proxy.py] issue one POST each,
    to [messages_endpoint] and with the prepared headers; the body has
    the normalized messages under [messages], and every other entry is
    the one of the request. *)
Theorem anthropic_valid_request_posted_once
    (self : Anthropic.handler) (up : upstream)
    (request_data : pydict) (headers : option (gmap string string)) :
  Anthropic._validate_anthropic_request request_data = true →
  ∃ messages out body,
    dict_get "messages" request_data = Some (PList messages) ∧
    Anthropic._standardize_cache_control py_repr self messages = Ok out ∧
    dict_get "messages" body = Some (PList out) ∧
    (∀ k, k ≠ "messages" → dict_get k body = dict_get k request_data) ∧
    snd (Anthropic.handle_request py_repr self up request_data headers)
    = [mk_post (Anthropic.messages_url self) body
         (Anthropic._prepare_headers self (or_empty headers)) false] ∧
    snd (Anthropic.handle_stream_request py_repr self up request_data headers)
    = [mk_post (Anthropic.messages_url self) body
         (Anthropic._prepare_headers self (or_empty headers)) true].
Proof.
  intros Hv. pose proof (validate_request_true _ Hv) as (_ & d & ds & Hget & _).
  destruct (anthropic_valid_posts py_repr self up request_data headers Hv)
    as (out & Hout & -> & ->).
  unfold dict_get_default in Hout. rewrite Hget in Hout.
  exists (map PDict (d :: ds)), out, (dict_set "messages" (PList out) request_data).
  split; [done|]. split; [done|]. split; [apply dict_get_set_eq|].
  split; [intros k Hk; by apply dict_get_set_ne|]. done.
Qed.

(** X10: a request that passes validation is not posted by
    [handle_request] of [openrouter_proxy.py]: the messages are
    normalized, then [_forward_to_api] asks for the session, and the
    [TypeError] of [_get_session] leaves the operation before any POST. *)
Theorem openrouter_valid_request_is_not_posted
    (self : OpenRouter.handler) (up : upstream)
    (request_data : pydict) (headers : option (gmap string string)) :
  OpenRouter._validate_openai_request request_data = true →
  ∃ e, OpenRouter.handle_request py_repr self up request_data headers = (Raise e, []) ∧
       exc_cls e = TypeError.
Proof.
  intros Hv.
  destruct (openrouter_valid_posts self up request_data headers Hv)
    as (messages & out & _ & _ & -> & _).
  rewrite openrouter_forward_raises. by eexists.
Qed.

(** X11: on a request that passes validation, [handle_stream_request] of
    [openrouter_proxy.py] yields no chunk and posts nothing.  The change
    of [thinking] into [reasoning] raises [KeyError] when [thinking] is a
    dict without [type] or without [budget_tokens], and [TypeError] when
    it is not a dict; otherwise [_forward_stream_to_api] is reached and
    the [TypeError] of [_get_session] ends the stream. *)
Theorem openrouter_stream_request_is_not_posted
    (self : OpenRouter.handler) (up : upstream)
    (request_data : pydict) (headers : option (gmap string string)) :
  OpenRouter._validate_openai_request request_data = true →
  ∃ e, OpenRouter.handle_stream_request py_repr self up request_data headers
       = (mk_stream [] (Some e), []) ∧
       exc_cls e
       = match dict_get "thinking" request_data with
         | Some (PDict thinking) =>
             if dict_contains "type" thinking && dict_contains "budget_tokens" thinking
             then TypeError else KeyError
         | _ => TypeError
         end.
Proof.
  intros Hv.
  destruct (openrouter_valid_posts self up request_data headers Hv)
    as (messages & out & Hget & Hout & _ & ->).
  unfold OpenRouter.add_reasoning, dict_get_default, dict_contains.
  rewrite dict_get_set_ne by done.
  destruct (dict_get "thinking" request_data) as [th|].
  - destruct th as [| | | | | |thinking];
      try (eexists; split; reflexivity).
    cbn [is_Some_proj subscript].
    destruct (dict_get "type" thinking) as [type|];
      [|eexists; split; reflexivity].
    cbn [mbind result_bind].
    destruct (dict_get "budget_tokens" thinking) as [budget_tokens|];
      [|eexists; split; reflexivity].
    cbn [mbind result_bind]. rewrite openrouter_forward_stream_raises.
    eexists; split; reflexivity.
  - cbn -[OpenRouter._forward_stream_to_api].
    rewrite openrouter_forward_stream_raises. eexists; split; reflexivity.
Qed.

End HandlerExtras.

Section HeaderExtras.

(** X12: [_prepare_headers] of [anthropic_proxy.py] sends [x-api-key]
    with the server's key, [anthropic-version] with the caller's value or
    [2023-06-01], [content-type] as [application/json], and the caller's
    [anthropic-beta] and [user-agent] when given; it sends no other
    header. *)
Theorem anthropic_prepare_headers_allow_list
    (self : Anthropic.handler) (original_headers : gmap string string) (name : string) :
  Anthropic._prepare_headers self original_headers !! name
  = if decide (name = "x-api-key") then Some (Anthropic.api_key self)
    else if decide (name = "anthropic-version")
      then Some (default "2023-06-01" (original_headers !! "anthropic-version"))
    else if decide (name = "content-type") then Some "application/json"
    else if decide (name = "anthropic-beta") then original_headers !! "anthropic-beta"
    else if decide (name = "user-agent") then original_headers !! "user-agent"
    else None.
Proof.
  rewrite anthropic_prepare_headers_eq. cbn zeta.
  repeat case_decide; subst;
  destruct (original_headers !! "anthropic-beta"), (original_headers !! "user-agent");
    repeat first [rewrite lookup_insert_eq | rewrite lookup_insert_ne by done];
    try done; apply lookup_empty.
Qed.

End HeaderExtras.

Section StreamExtras.

Lemma relay_prefix reads :
  Forall (λ c, c ≠ "") (chunks (relay reads)) ∧
  ∃ rest, reads = map ReadBytes (chunks (relay reads)) ++ rest.
Proof.
  induction reads as [|[c|e] reads [IH1 [rest IH2]]]; simpl.
  - split; [done|]. by exists [].
  - destruct (String.eqb c "") eqn:Hc; simpl.
    + split; [done|]. by eexists.
    + apply String.eqb_neq in Hc. split; [by constructor|].
      exists rest. by rewrite <- IH2.
  - split; [done|]. by eexists.
Qed.

Lemma anthropic_interrupted_frame_kind e :
  frame_kind (Anthropic.interrupted_frame e) = Some "stream_interrupted".
Proof. apply frame_kind_event. Qed.

(** X13: whatever the upstream does, the stream of
    [_forward_stream_to_anthropic] ends normally.  What it yields is chunks
    read from the response, none of them empty and in the order they were
    read, followed by at most one frame; the frame reads back as an error
    envelope of one of the forwarder's error types. *)
Theorem anthropic_stream_forwarder_never_raises
    (a : Anthropic.handler) (up : upstream)
    (request_data : pydict) (headers : option (gmap string string)) :
  let s := fst (Anthropic._forward_stream_to_anthropic a up request_data headers) in
  let rq := mk_post (Anthropic.messages_url a) request_data
              (Anthropic._prepare_headers a (or_empty headers)) true in
  raised s = None ∧
  ∃ relayed tail,
    chunks s = relayed ++ tail ∧
    Forall (λ chunk, chunk ≠ "") relayed ∧
    (relayed = [] ∨
     ∃ r rest, up rq = PostResponds r ∧ resp_reads r = map ReadBytes relayed ++ rest) ∧
    (tail = [] ∨
     ∃ frame kind, tail = [frame] ∧ frame_kind frame = Some kind ∧
                   In kind ("stream_interrupted" :: anthropic_kinds)).
Proof.
  cbv zeta.
  unfold Anthropic._forward_stream_to_anthropic. cbv zeta. cbn [fst].
  destruct (up _) as [e|r] eqn:Hup.
  { split; [done|]. exists [], [Anthropic.stream_error_frame e].
    split; [done|]. split; [done|]. split; [by left|]. right.
    destruct (anthropic_stream_error_frame_kind e) as (kind & msg & -> & Hin).
    eexists _, kind. split; [done|]. rewrite frame_kind_event. split; [done|by right]. }
  destruct (raise_for_status r) as [[]|e].
  2:{ split; [done|]. exists [], [Anthropic.stream_error_frame e].
    split; [done|]. split; [done|]. split; [by left|]. right.
    destruct (anthropic_stream_error_frame_kind e) as (kind & msg & -> & Hin).
    eexists _, kind. split; [done|]. rewrite frame_kind_event. split; [done|by right]. }
  destruct (relay_prefix (resp_reads r)) as [Hne [rest Hrest]].
  destruct (raised (relay (resp_reads r))) as [e|] eqn:Hr.
  - destruct (isinstance e ClientPayloadError || isinstance e TimeoutError).
    + split; [done|]. eexists _, _. split; [done|]. split; [done|].
      split; [right; eauto|]. right. eexists _, _. split; [done|].
      rewrite anthropic_interrupted_frame_kind. split; [done|by left].
    + split; [done|]. eexists _, _. split; [done|]. split; [done|].
      split; [right; eauto|]. right.
      destruct (anthropic_stream_error_frame_kind e) as (kind & msg & -> & Hin).
      eexists _, kind. split; [done|]. rewrite frame_kind_event. split; [done|by right].
  - split; [done|]. exists (chunks (relay (resp_reads r))), [].
    split; [by rewrite app_nil_r|]. split; [done|]. split; [right; eauto|]. by left.
Qed.

Lemma relay_until_empty cs rest :
  Forall (λ c, c ≠ "") cs →
  rest = [] ∨ (∃ rest', rest = ReadBytes "" :: rest') →
  relay (map ReadBytes cs ++ rest) = mk_stream cs None.
Proof.
  intros Hcs Hrest. rewrite (relay_chunks _ _ Hcs).
  destruct Hrest as [-> | [rest' ->]]; simpl; by rewrite app_nil_r.
Qed.

(** X14: in [_forward_stream_to_anthropic], when the response has a
    status below 400 and its body is read to the end, the stream is exactly
    the chunks read, with no frame added; the first empty read ends it, and
    nothing is read after. *)
Theorem complete_stream_is_relayed_verbatim
    (a : Anthropic.handler) (up : upstream)
    (request_data : pydict) (headers : option (gmap string string))
    (r : response) (body : list string) (rest : list read_result) :
  let rq := mk_post (Anthropic.messages_url a) request_data
              (Anthropic._prepare_headers a (or_empty headers)) true in
  up rq = PostResponds r →
  (resp_status r < 400)%Z →
  Forall (λ chunk, chunk ≠ "") body →
  resp_reads r = map ReadBytes body ∨ resp_reads r = map ReadBytes body ++ ReadBytes "" :: rest →
  fst (Anthropic._forward_stream_to_anthropic a up request_data headers)
  = mk_stream body None.
Proof.
  intros rq Hup Hstatus Hbody Hreads. subst rq.
  assert (relay (resp_reads r) = mk_stream body None) as Hrelay.
  { destruct Hreads as [-> | ->].
    - by apply relay_complete.
    - apply relay_until_empty; eauto. }
  unfold Anthropic._forward_stream_to_anthropic. cbv zeta. cbn [fst].
  by rewrite Hup, (raise_for_status_ok _ Hstatus), Hrelay.
Qed.

(** X15: in [_forward_stream_to_anthropic], when reading the body fails
    with an exception that is neither a payload error nor a timeout, the
    chunks read so far are followed by one frame made by the outer
    handlers: [api_error] for a response error, [network_error] for
    another client error, [unknown_error] otherwise. *)
Theorem mid_stream_other_failure_is_classified
    (a : Anthropic.handler) (up : upstream)
    (request_data : pydict) (headers : option (gmap string string))
    (r : response) (relayed : list string) (e : exn) (rest : list read_result) :
  let rq := mk_post (Anthropic.messages_url a) request_data
              (Anthropic._prepare_headers a (or_empty headers)) true in
  up rq = PostResponds r →
  (resp_status r < 400)%Z →
  resp_reads r = map ReadBytes relayed ++ ReadRaises e :: rest →
  Forall (λ chunk, chunk ≠ "") relayed →
  isinstance e ClientPayloadError || isinstance e TimeoutError = false →
  ∃ frame,
    fst (Anthropic._forward_stream_to_anthropic a up request_data headers)
    = mk_stream (relayed ++ [frame]) None ∧
    frame_kind frame
    = Some (if isinstance e ClientResponseError then "api_error"
            else if isinstance e ClientError then "network_error"
            else "unknown_error").
Proof.
  intros rq Hup Hstatus Hreads Hrelayed He. subst rq.
  apply orb_false_iff in He as [Hp Ht].
  unfold Anthropic._forward_stream_to_anthropic. cbv zeta. cbn [fst].
  rewrite Hup, (raise_for_status_ok _ Hstatus), Hreads.
  rewrite (relay_interrupted _ _ _ Hrelayed). cbn [raised chunks].
  rewrite Hp, Ht. cbn [orb]. eexists. split; [reflexivity|].
  unfold Anthropic.stream_error_frame. rewrite Ht.
  destruct (isinstance e ClientResponseError); [apply frame_kind_event|].
  destruct (isinstance e ClientError); apply frame_kind_event.
Qed.

Lemma is_ascii_envelope kind msg : is_ascii (envelope_text kind msg) = true.
Proof. apply line_safe_is_ascii, line_safe_envelope. Qed.

Lemma event_error_frame_text kind msg :
  event_error_frame (error_envelope kind msg)
  = "event: error" +:+ String newline ("data: " +:+ envelope_text kind msg
      +:+ String newline (String newline "")).
Proof.
  unfold event_error_frame. rewrite json_dumps_envelope.
  apply encode_utf8_ascii.
  rewrite is_ascii_app. cbn [is_ascii]. rewrite !is_ascii_app, is_ascii_envelope.
  reflexivity.
Qed.

Lemma data_frame_text kind msg :
  data_frame (error_envelope kind msg)
  = "data: " +:+ envelope_text kind msg +:+ String newline (String newline "").
Proof.
  unfold data_frame. rewrite json_dumps_envelope.
  apply encode_utf8_ascii.
  rewrite !is_ascii_app, is_ascii_envelope.
  reflexivity.
Qed.

(** X16: for every error type and every message text, the frame in either
    format has ASCII bytes only, and it is one SSE event whose [data:] line
    reads back, as JSON, to the envelope it was made from. *)
Theorem error_frames_read_back (kind msg : string) :
  let envelope := error_envelope kind msg in
  (is_ascii (event_error_frame envelope) = true ∧
   frame_carries (event_error_frame envelope) envelope) ∧
  (is_ascii (data_frame envelope) = true ∧
   frame_carries (data_frame envelope) envelope).
Proof.
  cbv zeta. split; split.
  - rewrite event_error_frame_text.
    rewrite is_ascii_app. cbn [is_ascii]. by rewrite !is_ascii_app, is_ascii_envelope.
  - apply event_error_frame_carries.
  - rewrite data_frame_text. by rewrite !is_ascii_app, is_ascii_envelope.
  - apply data_frame_carries.
Qed.

End StreamExtras.

Section RouteExtras.
Variable py_repr : pyval -> string.


(** X18: [messages_endpoint] and [chat_completions_endpoint] post
    nothing for a request they cannot read.  Without a JSON content type
    the answer has status 500, as the [HTTPException] with status 400 is
    raised inside the [try] and caught by its last clause; a body that is
    not JSON gives status 400; a JSON body that is not an object gives
    status 500. *)
Theorem routes_refuse_unreadable_bodies
    (a : Anthropic.handler) (o : OpenRouter.handler) (up : upstream)
    (request : http_request) :
  let anthropic := Anthropic.messages_endpoint py_repr (Some a) up request in
  let openrouter := OpenRouterApp.chat_completions_endpoint py_repr (Some o) up request in
  let is_json :=
    String.prefix "application/json" (default "" (req_headers request !! "content-type")) in
  (is_json = false →
   anthropic = (HTTPError 500 "Internal server error", []) ∧
   openrouter = (HTTPError 500 "Internal server error", [])) ∧
  (is_json = true →
   ∀ e, req_json request = Raise e → isinstance e JSONDecodeError = true →
   anthropic = (HTTPError 400 "Invalid JSON in request body", []) ∧
   openrouter = (HTTPError 400 "Invalid JSON in request body", [])) ∧
  (is_json = true →
   ∀ body, req_json request = Ok body → Normalizer.is_dict body = false →
   anthropic = (HTTPError 500 "Internal server error", []) ∧
   openrouter = (HTTPError 500 "Internal server error", [])).
Proof.
  cbv zeta.
  unfold Anthropic.messages_endpoint, Anthropic.messages_try,
    OpenRouterApp.chat_completions_endpoint, OpenRouterApp.chat_completions_try.
  split; [|split].
  - intros ->. done.
  - intros -> e -> He. cbn [negb]. by rewrite He.
  - intros -> body -> Hb. cbn [negb]. by destruct body.
Qed.

(** X19: a request that fails validation is answered with status 400
    and the text of the validation error when it is not a streaming one.
    When [stream] is truthy the route returns a streaming response all the
    same; its body produces no chunk and raises the validation error.
    Nothing is posted. *)
Theorem routes_answer_invalid_requests
    (a : Anthropic.handler) (o : OpenRouter.handler) (up : upstream)
    (headers : gmap string string) (d : pydict) :
  let request := mk_request headers (Ok (PDict d)) in
  let is_stream := truthy (dict_get_default "stream" (PBool false) d) in
  String.prefix "application/json" (default "" (headers !! "content-type")) = true →
  (dict_contains "top_p" d = true →
   Anthropic._validate_anthropic_request (dict_del "top_p" d) = false →
   Anthropic.messages_endpoint py_repr (Some a) up request
   = if is_stream then
       (StreamingResponse
          (mk_stream [] (Some (py_exc ValueError "Invalid Anthropic request format"))), [])
     else (HTTPError 400 "Invalid Anthropic request format", [])) ∧
  (OpenRouter._validate_openai_request d = false →
   OpenRouterApp.chat_completions_endpoint py_repr (Some o) up request
   = if is_stream then
       (StreamingResponse
          (mk_stream [] (Some (py_exc ValueError "Invalid OpenAI request format"))), [])
     else (HTTPError 400 "Invalid OpenAI request format", [])).
Proof.
  intros request is_stream Hct. subst request is_stream. split.
  - intros Htop Hv.
    destruct (anthropic_invalid py_repr a up (dict_del "top_p" d) (Some headers) Hv)
      as [Hu Hs].
    unfold Anthropic.messages_endpoint, Anthropic.messages_try.
    cbn [req_headers req_json]. rewrite Hct, Htop. cbn [negb].
    rewrite Hu, Hs. by destruct (truthy _).
  - intros Hv.
    destruct (openrouter_invalid py_repr o up d (Some headers) Hv) as [Hu Hs].
    unfold OpenRouterApp.chat_completions_endpoint, OpenRouterApp.chat_completions_try.
    cbn [req_headers req_json]. rewrite Hct. cbn [negb].
    rewrite Hu, Hs. by destruct (truthy _).
Qed.

(** X20: [chat_completions_endpoint] posts nothing for a request that
    passes validation.  When the request is not a streaming one the answer
    is the internal server error, status 500: the [TypeError] that
    [_get_session] raises in [_forward_to_api] reaches the last [except]
    clause of the route.  When [stream] is truthy the route returns a
    streaming response whose body yields no chunk and raises. *)
Theorem chat_completions_endpoint_never_posts
    (self : OpenRouter.handler) (up : upstream)
    (headers : gmap string string) (d : pydict) :
  let request := mk_request headers (Ok (PDict d)) in
  let answer := OpenRouterApp.chat_completions_endpoint py_repr (Some self) up request in
  String.prefix "application/json" (default "" (headers !! "content-type")) = true →
  OpenRouter._validate_openai_request d = true →
  snd answer = [] ∧
  if truthy (dict_get_default "stream" (PBool false) d)
  then ∃ e, fst answer = StreamingResponse (mk_stream [] (Some e))
  else fst answer = HTTPError 500 "Internal server error".
Proof.
  intros request answer Hct Hv. subst request answer.
  destruct (openrouter_valid_posts py_repr self up d (Some headers) Hv)
    as (messages & out & _ & _ & Hreq & Hstream).
  unfold OpenRouterApp.chat_completions_endpoint, OpenRouterApp.chat_completions_try.
  cbn [req_headers req_json]. rewrite Hct. cbn [negb].
  rewrite Hreq, Hstream, openrouter_forward_raises.
  destruct (truthy _).
  - destruct (OpenRouter.add_reasoning _) as [cached_request|e].
    + rewrite openrouter_forward_stream_raises. split; [done|]. by eexists.
    + split; [done|]. by eexists.
  - split; reflexivity.
Qed.

End RouteExtras.

Section StringFacts.
#[local] Arguments String.append !_ _ / : simpl nomatch.

Lemma string_app_nil_inv (a b : string) : a +:+ b = "" → a = "" ∧ b = "".
Proof. destruct a; [done|discriminate]. Qed.

Lemma rstrip_slash_idem s : rstrip_slash (rstrip_slash s) = rstrip_slash s.
Proof.
  induction s as [|c s IH]; [done|].
  cbn [rstrip_slash].
  destruct (String.eqb (rstrip_slash s) "" && Ascii.eqb c "/") eqn:E; [done|].
  cbn [rstrip_slash]. by rewrite IH, E.
Qed.

Lemma rstrip_slash_keeps p q :
  rstrip_slash q = q → q ≠ "" → rstrip_slash (p +:+ q) = p +:+ q.
Proof.
  intros Hq Hne. induction p as [|c p IH]; [done|].
  cbn [String.append rstrip_slash]. rewrite IH.
  destruct (String.eqb (p +:+ q) "") eqn:E; [|done].
  apply String.eqb_eq, string_app_nil_inv in E as [_ ?]. done.
Qed.

Lemma rstrip_slash_snoc s : rstrip_slash (s +:+ "/") = rstrip_slash s.
Proof.
  induction s as [|c s IH]; [done|].
  cbn [String.append rstrip_slash]. by rewrite IH.
Qed.

Lemma endswith_app p suffix : endswith (p +:+ suffix) suffix = true.
Proof.
  induction p as [|c p IH].
  - destruct suffix; cbn [String.append endswith]; by rewrite String.eqb_refl.
  - cbn [String.append endswith]. rewrite IH. apply orb_true_r.
Qed.

End StringFacts.

Section InitExtras.

Lemma openrouter_init_models_url api_url api_key :
  OpenRouterApp.models_url (OpenRouterApp.__init__ api_url api_key)
  = OpenRouterApp.api_url (OpenRouterApp.__init__ api_url api_key) +:+ "/models".
Proof.
  unfold OpenRouterApp.__init__, OpenRouterApp.models_url. cbv zeta.
  cbn [OpenRouterApp.api_url].
  destruct (endswith (rstrip_slash api_url) "/v1") eqn:E; cbn [negb].
  - by rewrite E.
  - by rewrite endswith_app.
Qed.

(** X21: the [messages_endpoint] that [__init__] of
    [anthropic_proxy.py] computes ends with [/v1/messages]: it is the API
    URL itself when that ends so, and the API URL followed by
    [/v1/messages] otherwise.  A trailing slash on the URL makes no
    difference, and the endpoint given as URL gives the same endpoint. *)
Theorem anthropic_init_messages_endpoint (api_url api_key cache_control_ttl : string) :
  let self := AnthropicApp.__init__ api_url api_key cache_control_ttl in
  let endpoint := Anthropic.messages_url (AnthropicApp.core self) in
  endswith endpoint "/v1/messages" = true ∧
  (endpoint = AnthropicApp.api_url self ∨
   endpoint = AnthropicApp.api_url self +:+ "/v1/messages") ∧
  AnthropicApp.__init__ (api_url +:+ "/") api_key cache_control_ttl = self ∧
  Anthropic.messages_url
    (AnthropicApp.core (AnthropicApp.__init__ endpoint api_key cache_control_ttl))
  = endpoint.
Proof.
  cbv zeta. unfold AnthropicApp.__init__. cbv zeta.
  cbn [AnthropicApp.core AnthropicApp.api_url Anthropic.messages_url].
  rewrite rstrip_slash_snoc.
  assert (Hkeep : ∀ p, rstrip_slash (p +:+ "/v1/messages") = p +:+ "/v1/messages")
    by (intros p; by apply rstrip_slash_keeps).
  destruct (endswith (rstrip_slash api_url) "/v1/messages") eqn:E.
  - split; [done|]. split; [by left|]. split; [done|].
    rewrite rstrip_slash_idem. by rewrite E.
  - split; [apply endswith_app|]. split; [by right|]. split; [done|].
    rewrite Hkeep. by rewrite endswith_app.
Qed.

(** X22: after [__init__] of [openrouter_proxy.py] the API URL ends with
    [/v1], the chat endpoint is the API URL followed by
    [/chat/completions], and [handle_models_request] asks the API URL
    followed by [/models].  A trailing slash on the URL makes no
    difference, and the API URL given as URL gives the same handler. *)
Theorem openrouter_init_endpoints (api_url api_key : string) :
  let self := OpenRouterApp.__init__ api_url api_key in
  endswith (OpenRouterApp.api_url self) "/v1" = true ∧
  OpenRouter.chat_endpoint (OpenRouterApp.core self)
  = OpenRouterApp.api_url self +:+ "/chat/completions" ∧
  OpenRouterApp.models_url self = OpenRouterApp.api_url self +:+ "/models" ∧
  OpenRouterApp.__init__ (api_url +:+ "/") api_key = self ∧
  OpenRouterApp.__init__ (OpenRouterApp.api_url self) api_key = self.
Proof.
  cbv zeta. unfold OpenRouterApp.__init__, OpenRouterApp.models_url. cbv zeta.
  cbn [OpenRouterApp.core OpenRouterApp.api_url OpenRouter.chat_endpoint].
  rewrite rstrip_slash_snoc.
  assert (Hkeep : ∀ p, rstrip_slash (p +:+ "/v1") = p +:+ "/v1")
    by (intros p; by apply rstrip_slash_keeps).
  destruct (endswith (rstrip_slash api_url) "/v1") eqn:E; cbn [negb].
  - rewrite E. repeat (split; [done|]).
    rewrite rstrip_slash_idem. by rewrite E.
  - rewrite endswith_app. repeat (split; [done|]).
    rewrite Hkeep. by rewrite endswith_app.
Qed.

(** X23: [startup_event] of [anthropic_proxy.py] raises a
    [ValueError] exactly when [ANTHROPIC_API_KEY] is missing or empty.
    Otherwise the handler has that key, its TTL is [5m] or [1h], and it is
    [5m] only when [CACHE_CONTROL_TTL] is [5m]; without [ANTHROPIC_API_URL]
    the endpoint is [https://api.anthropic.com/v1/messages]. *)
Theorem anthropic_startup_checks_configuration (env : gmap string string) :
  match AnthropicApp.startup_event env with
  | Ok self =>
      (∃ key, env !! "ANTHROPIC_API_KEY" = Some key ∧ key ≠ "" ∧
              Anthropic.api_key (AnthropicApp.core self) = key) ∧
      (let ttl := Anthropic.cache_control_ttl (AnthropicApp.core self) in
       (ttl = "5m" ∨ ttl = "1h") ∧
       (ttl = "5m" ↔ env !! "CACHE_CONTROL_TTL" = Some "5m")) ∧
      (env !! "ANTHROPIC_API_URL" = None →
       Anthropic.messages_url (AnthropicApp.core self)
       = "https://api.anthropic.com/v1/messages")
  | Raise e =>
      exc_cls e = ValueError ∧
      (env !! "ANTHROPIC_API_KEY" = None ∨ env !! "ANTHROPIC_API_KEY" = Some "")
  end.
Proof.
  unfold AnthropicApp.startup_event, getenv, env_truthy. cbv zeta.
  destruct (env !! "ANTHROPIC_API_KEY") as [key|]; [|by split; [|left]].
  destruct (String.eqb key "") eqn:Hkey; cbn [negb].
  { apply String.eqb_eq in Hkey as ->. by split; [|right]. }
  apply String.eqb_neq in Hkey.
  unfold AnthropicApp.__init__. cbv zeta.
  cbn [AnthropicApp.core Anthropic.api_key Anthropic.cache_control_ttl
       Anthropic.messages_url default].
  split; [by exists key|]. split.
  - destruct (env !! "CACHE_CONTROL_TTL") as [ttl|]; cbn [default from_option id].
    + destruct (String.eqb ttl "5m") eqn:H5; cbn [orb negb].
      * apply String.eqb_eq in H5 as ->. split; [by left|done].
      * apply String.eqb_neq in H5.
        destruct (String.eqb ttl "1h") eqn:H1; cbn [negb].
        -- apply String.eqb_eq in H1 as ->. split; [by right|]. split; [done|congruence].
        -- split; [by right|]. split; [done|congruence].
    + cbn. split; [by right|]. split; done.
  - intros ->. reflexivity.
Qed.

(** X24: [startup_event] of [openrouter_proxy.py] raises a [ValueError]
    exactly when [OPENROUTER_API_KEY] is missing or empty.  Otherwise the
    handler has that key, and without [OPENROUTER_API_URL] the chat
    endpoint is [https://openrouter.ai/api/v1/chat/completions]. *)
Theorem openrouter_startup_requires_key (env : gmap string string) :
  match OpenRouterApp.startup_event env with
  | Ok self =>
      (∃ key, env !! "OPENROUTER_API_KEY" = Some key ∧ key ≠ "" ∧
              OpenRouter.api_key (OpenRouterApp.core self) = key) ∧
      (env !! "OPENROUTER_API_URL" = None →
       OpenRouter.chat_endpoint (OpenRouterApp.core self)
       = "https://openrouter.ai/api/v1/chat/completions")
  | Raise e =>
      exc_cls e = ValueError ∧
      (env !! "OPENROUTER_API_KEY" = None ∨ env !! "OPENROUTER_API_KEY" = Some "")
  end.
Proof.
  unfold OpenRouterApp.startup_event, getenv, env_truthy. cbv zeta.
  destruct (env !! "OPENROUTER_API_KEY") as [key|]; [|by split; [|left]].
  destruct (String.eqb key "") eqn:Hkey; cbn [negb].
  { apply String.eqb_eq in Hkey as ->. by split; [|right]. }
  apply String.eqb_neq in Hkey.
  split; [by exists key|].
  intros ->. reflexivity.
Qed.

End InitExtras.

Section SessionExtras.
Import Session.

(** Every state a handler reaches from [no_session] by [_get_session] and
    [close] is [connection_ok]. *)
Lemma no_session_ok : connection_ok no_session.
Proof. exact I. Qed.

Lemma get_session_ok self :
  connection_ok self → connection_ok (snd (_get_session self)).
Proof.
  unfold connection_ok, _get_session.
  destruct (session self) as [s|] eqn:Hs.
  - destruct (closed s); cbn; [lia|by rewrite Hs].
  - cbn. lia.
Qed.

Lemma close_ok self : connection_ok self → connection_ok (close self).
Proof.
  unfold connection_ok, close.
  destruct (session self) as [s|] eqn:Hs; [|by rewrite Hs].
  destruct (closed s); [by rewrite Hs|done].
Qed.

(** X25: [_get_session] returns a session that is open and keeps it in
    [self.session]; asking again returns the same session and changes
    nothing, and a session that is open is never replaced. *)
Theorem session_is_pooled (self : connection) :
  let s := fst (_get_session self) in
  let self' := snd (_get_session self) in
  closed s = false ∧
  session self' = Some s ∧
  _get_session self' = (s, self') ∧
  (∀ old, session self = Some old → closed old = false → s = old ∧ self' = self).
Proof.
  cbv zeta. unfold _get_session.
  destruct (session self) as [old|] eqn:Hs.
  - destruct (closed old) eqn:Hc; cbn [fst snd session closed new_session].
    + split; [done|]. split; [done|]. split; [done|].
      intros ? [= <-]. congruence.
    + rewrite Hs, Hc. split; [done|]. split; [done|]. split; [done|].
      by intros ? [= <-].
  - cbn [fst snd session closed new_session].
    split; [done|]. split; [done|]. split; [done|]. done.
Qed.

(** X26: [close] closes the session the handler holds, and closing again
    changes nothing.  The next [_get_session] makes a session of its own,
    open and different from the closed one, and keeps it. *)
Theorem closed_session_is_replaced (self : connection) (old : client_session) :
  connection_ok self →
  session self = Some old →
  let self1 := close self in
  let s := fst (_get_session self1) in
  let self2 := snd (_get_session self1) in
  (∃ old', session self1 = Some old' ∧ closed old' = true ∧
           session_id old' = session_id old) ∧
  close self1 = self1 ∧
  closed s = false ∧ session_id s ≠ session_id old ∧
  session self2 = Some s ∧ connection_ok self2.
Proof.
  intros Hok Hs. unfold connection_ok in Hok. rewrite Hs in Hok.
  cbv zeta.
  destruct (closed old) eqn:Hc.
  - assert (close self = self) as -> by (unfold close; by rewrite Hs, Hc).
    unfold _get_session. rewrite Hs, Hc.
    cbn [fst snd session closed new_session session_id sessions_made].
    split; [by exists old|]. split; [unfold close; by rewrite Hs, Hc|].
    split; [done|]. split; [lia|]. split; [done|]. unfold connection_ok.
    cbn [session new_session session_id sessions_made]. lia.
  - assert (close self = mk_connection (Some (close_session old)) (sessions_made self))
      as -> by (unfold close; by rewrite Hs, Hc).
    unfold _get_session, close.
    cbn [fst snd session closed close_session new_session session_id sessions_made].
    split; [by eexists|]. split; [done|]. split; [done|].
    split; [lia|]. split; [done|]. unfold connection_ok.
    cbn [session new_session session_id sessions_made]. lia.
Qed.

End SessionExtras.

Section ModelsExtras.


(** X28: [models_endpoint] of [openrouter_proxy.py] issues no GET and
    answers every request with the internal server error, status 500:
    [handle_models_request] asks for the session before its [try], and the
    [TypeError] of [_get_session] reaches the [except] clause of the
    route. *)
Theorem openrouter_models_endpoint_never_asks
    (self : OpenRouterApp.instance) (up : get_upstream) (request : http_request) :
  OpenRouterApp.handle_models_request self up (Some (req_headers request))
  = (Raise (py_exc TypeError
              "TCPConnector.__init__() got an unexpected keyword argument 'proxy'"), []) ∧
  OpenRouterApp.models_endpoint (Some self) up request
  = (HTTPError 500 "Internal server error", []).
Proof.
  assert (OpenRouterApp.handle_models_request self up (Some (req_headers request))
          = (Raise (py_exc TypeError
                      "TCPConnector.__init__() got an unexpected keyword argument 'proxy'"),
             [])) as H.
  { unfold OpenRouterApp.handle_models_request. cbv zeta.
    by rewrite openrouter_get_session_raises. }
  split; [exact H|].
  unfold OpenRouterApp.models_endpoint. by rewrite H.
Qed.

End ModelsExtras.

Section HeapExtras.
Import Heap.

Variable py_repr : heap -> hval -> string.


Lemma normalize_result (directive : list (string * hval)) (messages : loc) (items : list hval) (h : heap) :
  h !! messages = Some (HList items) →
  match items with
  | [] => normalize py_repr directive messages h = (Ok messages, h)
  | _ => ∀ out, fst (normalize py_repr directive messages h) = Ok out → h !! out = None
  end.
Proof.
  intros Hm. destruct items as [|message items].
  - unfold normalize, mbind, M_bind, load. by rewrite Hm.
  - change (wp (normalize py_repr directive messages)
              (λ r _, ∀ out, r = Ok out → h !! out = None) h).
    unfold normalize. apply wp_bind, wp_load; [|done].
    intros o Ho. rewrite Hm in Ho. injection Ho as <-.
    apply wp_bind, wp_alloc. intros std Hstd.
    apply wp_bind. eapply wp_clean_messages.
    + split; [by apply alloc_subseteq|]. split; [done|].
      exists []. by rewrite lookup_insert_eq.
    + intros r h1 Hsub1 Hr. destruct r as [[]|e]; [|done].
      apply wp_bind. eapply wp_tag_last; [by apply Hr|].
      intros [[]|e] h2 Hsub2; [|done].
      apply wp_ret. by intros out [= <-].
Qed.

(** X29: called with an empty list of messages, the normalizer returns
    that very list and leaves the store as it is; called with a list that
    is not empty, a call that returns gives a list that was not in the
    store before the call. *)
Theorem normalizer_returns_new_list
    (cache_control_ttl : string) (messages : loc) (items : list hval) (h : heap) :
  h !! messages = Some (HList items) →
  match items with
  | [] =>
      _standardize_cache_control py_repr cache_control_ttl messages h = (Ok messages, h) ∧
      _add_cache_control_to_messages py_repr messages h = (Ok messages, h)
  | _ =>
      (∀ out, fst (_standardize_cache_control py_repr cache_control_ttl messages h) = Ok out →
              h !! out = None) ∧
      (∀ out, fst (_add_cache_control_to_messages py_repr messages h) = Ok out →
              h !! out = None)
  end.
Proof.
  intros Hm. unfold _standardize_cache_control, _add_cache_control_to_messages.
  pose proof (normalize_result
                [("type", HStr "ephemeral"); ("ttl", HStr cache_control_ttl)]
                messages items h Hm) as H1.
  pose proof (normalize_result [("type", HStr "ephemeral")] messages items h Hm) as H2.
  destruct items; by split.
Qed.

End HeapExtras.

Section StreamRouteExtras.
Variable py_repr : pyval -> string.

Lemma anthropic_stream_ends_normally self up request_data headers :
  raised (fst (Anthropic._forward_stream_to_anthropic self up request_data headers)) = None.
Proof.
  unfold Anthropic._forward_stream_to_anthropic. cbv zeta. cbn [fst].
  destruct (up _) as [e|r]; [done|].
  destruct (raise_for_status r) as [[]|e]; [|done].
  destruct (raised (relay (resp_reads r))) as [e|] eqn:Hr; [|done].
  by destruct (isinstance e ClientPayloadError || isinstance e TimeoutError).
Qed.

(** X30: a valid streaming request to [messages_endpoint] is answered
    with a streaming response whose body ends normally, whatever the
    upstream does; one POST is issued, for the raw body, and what it sends
    has the [stream] entry of the request and no [top_p]. *)
Theorem anthropic_streaming_route_ends_normally
    (self : Anthropic.handler) (up : upstream)
    (headers : gmap string string) (d : pydict) :
  let request := mk_request headers (Ok (PDict d)) in
  String.prefix "application/json" (default "" (headers !! "content-type")) = true →
  dict_contains "top_p" d = true →
  truthy (dict_get_default "stream" (PBool false) d) = true →
  Anthropic._validate_anthropic_request (dict_del "top_p" d) = true →
  ∃ body rq,
    Anthropic.messages_endpoint py_repr (Some self) up request
    = (StreamingResponse body, [rq]) ∧
    raised body = None ∧
    post_raw rq = true ∧
    dict_get "stream" (post_json rq) = dict_get "stream" d ∧
    dict_get "top_p" (post_json rq) = None.
Proof.
  intros request Hct Htop Hstream Hv. subst request.
  destruct (anthropic_valid_posts py_repr self up (dict_del "top_p" d) (Some headers) Hv)
    as (out & _ & _ & Hreq).
  unfold Anthropic.messages_endpoint, Anthropic.messages_try.
  cbn [req_headers req_json]. rewrite Hct, Htop, Hstream. cbn [negb].
  rewrite Hreq.
  pose proof (anthropic_stream_ends_normally self up
                (dict_set "messages" (PList out) (dict_del "top_p" d))
                (Some (or_empty (Some headers)))) as Hends.
  pose proof (forward_stream_to_anthropic_log self up
                (dict_set "messages" (PList out) (dict_del "top_p" d))
                (Some (or_empty (Some headers)))) as Hlog.
  destruct (Anthropic._forward_stream_to_anthropic _ _ _ _) as [body log].
  cbn [fst snd] in Hends, Hlog. subst log.
  eexists _, _. split; [reflexivity|]. split; [done|]. split; [done|].
  cbn [post_json]. split.
  - rewrite dict_get_set_ne by done. by apply dict_get_del_ne.
  - rewrite dict_get_set_ne by done. apply dict_get_del_eq.
Qed.

End StreamRouteExtras.

(** ** Counterexamples and instances *)

(** The slip in the handler for response errors of [_forward_to_anthropic]:
    a status of 400 or above makes the forwarder raise. *)
Lemma anthropic_response_error_raises :
  let a := Anthropic.mk_handler "sk-server" "1h" "https://api.anthropic.com/v1/messages" in
  let up : upstream := fun _ =>
    PostResponds (mk_response 400 "Bad Request" "400, message='Bad Request'"
                    (Ok (error_envelope "invalid_request_error" "bad")) []) in
  fst (Anthropic._forward_to_anthropic a up [("model", PStr "m")] None)
  = Raise (py_exc AttributeError "'ClientResponseError' object has no attribute 'text'").
Proof. reflexivity. Qed.

(** The slip in [_get_session] of [openrouter_proxy.py]: the unary
    forwarder raises for a request whose upstream would answer, and
    nothing is posted. *)
Lemma openrouter_unary_raises_type_error :
  let o := OpenRouter.mk_handler "sk-server" "https://openrouter.ai/api/v1/chat/completions" in
  let up : upstream := fun _ =>
    PostResponds (mk_response 200 "OK" "" (Ok (PDict [("id", PStr "gen-1")])) []) in
  OpenRouter._forward_to_api o up [("model", PStr "m")] None
  = (Raise (py_exc TypeError
              "TCPConnector.__init__() got an unexpected keyword argument 'proxy'"), []).
Proof. reflexivity. Qed.

(** The same slip in the streaming forwarder: no frame for an upstream
    that answers with status 500, and none of the chunks of one that
    answers with a body. *)
Lemma openrouter_stream_raises_type_error :
  let o := OpenRouter.mk_handler "sk-server" "https://openrouter.ai/api/v1/chat/completions" in
  let failing : upstream := fun _ =>
    PostResponds (mk_response 500 "Internal Server Error"
                    "500, message='Internal Server Error'"
                    (Raise (py_exc ContentTypeError "")) []) in
  let answering : upstream := fun _ =>
    PostResponds (mk_response 200 "OK" "" (Raise (py_exc ContentTypeError ""))
                    [ReadBytes "data: {}"]) in
  let e := py_exc TypeError
             "TCPConnector.__init__() got an unexpected keyword argument 'proxy'" in
  OpenRouter._forward_stream_to_api o failing [("model", PStr "m")] None
  = (mk_stream [] (Some e), []) ∧
  OpenRouter._forward_stream_to_api o answering [("model", PStr "m")] None
  = (mk_stream [] (Some e), []).
Proof. split; reflexivity. Qed.

(** ** Instances of the theorems *)

(** Two callers with different credentials and the same user agent get the
    same headers. *)
Lemma prepare_headers_witness :
  let a := Anthropic.mk_handler "sk-server" "1h" "https://api.anthropic.com/v1/messages" in
  let o := OpenRouter.mk_handler "sk-server" "https://openrouter.ai/api/v1/chat/completions" in
  let h1 : gmap string string := <["x-api-key" := "sk-caller"]> {["user-agent" := "curl"]} in
  let h2 : gmap string string := <["authorization" := "Bearer caller"]> {["user-agent" := "curl"]} in
  Anthropic._prepare_headers a h1 = Anthropic._prepare_headers a h2 ∧
  Anthropic._prepare_headers a h1 !! "x-api-key" = Some "sk-server".
Proof.
  intros a o h1 h2.
  assert (Hsame : ∀ name, is_credential_header name = false → h1 !! name = h2 !! name).
  { intros name Hname. subst h1 h2.
    rewrite !lookup_insert_ne; [done| |]; intros <-; discriminate. }
  destruct (prepare_headers_ignores_caller_credentials a o h1 h2 Hsame)
    as (Heq & _ & Hcred & _).
  split; [exact Heq|]. exact (Hcred "x-api-key" eq_refl).
Defined.

Lemma mid_stream_failure_witness :
  let a := Anthropic.mk_handler "sk-server" "1h" "https://api.anthropic.com/v1/messages" in
  let o := OpenRouter.mk_handler "sk-server" "https://openrouter.ai/api/v1/chat/completions" in
  let e := mk_exn ClientPayloadError "Response payload is not completed" 0 "" in
  let r := mk_response 200 "OK" "" (Raise (py_exc ContentTypeError ""))
             [ReadBytes "event: ping"; ReadBytes "data: {}"; ReadRaises e] in
  let up : upstream := fun _ => PostResponds r in
  ∃ frame,
    fst (Anthropic._forward_stream_to_anthropic a up [("model", PStr "m")] None)
    = mk_stream (["event: ping"; "data: {}"] ++ [frame]) None ∧
    frame_carries frame
      (error_envelope "stream_interrupted"
         "Streaming interrupted due to: Response payload is not completed").
Proof.
  intros a o e r up.
  refine (proj1 (mid_stream_failure_relays_then_one_frame a o up [("model", PStr "m")] None
                   r ["event: ping"; "data: {}"] e [] _ _ _ _) _).
  - reflexivity.
  - reflexivity.
  - repeat constructor; discriminate.
  - reflexivity.
  - reflexivity.
Defined.

Lemma invalid_request_witness :
  let a := Anthropic.mk_handler "sk-server" "1h" "https://api.anthropic.com/v1/messages" in
  let up : upstream := fun _ => PostRaises (py_exc OtherException "") in
  let request_data := [("model", PStr "m"); ("messages", PList [PStr "hi"])] in
  Anthropic.handle_request (fun _ => "") a up request_data None
  = (Raise (py_exc ValueError "Invalid Anthropic request format"), []).
Proof.
  intros a up request_data.
  refine (proj1 (invalid_request_fails_before_network (fun _ => "") a
                   (OpenRouter.mk_handler "sk-server" "url") up request_data None _)).
  right. right. right. exists [PStr "hi"], (PStr "hi").
  split; [reflexivity|]. split; [by left|]. exact I.
Defined.

Lemma messages_endpoint_witness :
  let a := Anthropic.mk_handler "sk-server" "1h" "https://api.anthropic.com/v1/messages" in
  let up : upstream := fun _ => PostRaises (py_exc OtherException "") in
  let headers : gmap string string := {["content-type" := "application/json"]} in
  let d := [("model", PStr "m");
            ("messages", PList [PDict [("role", PStr "user"); ("content", PStr "hi")]])] in
  Anthropic.messages_endpoint (fun _ => "") (Some a) up (mk_request headers (Ok (PDict d)))
  = (HTTPError 500 "Internal server error", []).
Proof.
  intros a up headers d.
  refine (proj1 (messages_endpoint_pops_top_p (fun _ => "") a up headers d _) _).
  - reflexivity.
  - reflexivity.
Defined.

Lemma unary_forward_witness :
  let a := Anthropic.mk_handler "sk-server" "1h" "https://api.anthropic.com/v1/messages" in
  let e := py_exc ServerTimeoutError "Connection timeout to host" in
  let up : upstream := fun _ => PostRaises e in
  ∃ env, fst (Anthropic._forward_to_anthropic a up [("model", PStr "m")] None) = Ok env ∧
         envelope_kind env = Some "timeout_error".
Proof.
  intros a e up.
  exact (proj1 (proj2 (unary_forward_classified a
                         (OpenRouter.mk_handler "sk-server" "url") up
                         [("model", PStr "m")] None)) e eq_refl eq_refl).
Defined.

Lemma pre_stream_failure_witness :
  let a := Anthropic.mk_handler "sk-server" "1h" "https://api.anthropic.com/v1/messages" in
  let up : upstream := fun _ =>
    PostResponds (mk_response 503 "Service Unavailable" "503, message='Service Unavailable'"
                    (Raise (py_exc ContentTypeError "")) []) in
  ∃ frame kind,
    fst (Anthropic._forward_stream_to_anthropic a up [("model", PStr "m")] None)
    = mk_stream [frame] None ∧
    frame_kind frame = Some kind ∧ In kind anthropic_kinds.
Proof.
  intros a up.
  refine (proj1 (pre_stream_failure_one_frame a (OpenRouter.mk_handler "sk-server" "url")
                   up [("model", PStr "m")] None) _).
  right. eexists. split; [reflexivity|]. simpl. lia.
Defined.

(** ** Instances of the further properties *)

(** A directive on a block of an earlier message is removed, the rest of
    the block stays. *)
Lemma normalize_front_content_witness :
  let first :=
    [("role", PStr "user");
     ("content", PList [PDict [("type", PStr "text"); ("text", PStr "a");
                               ("cache_control", PDict [("type", PStr "ephemeral")])]])] in
  let last := [("role", PStr "user"); ("content", PStr "b")] in
  ∃ out o,
    Normalizer.normalize (fun _ => "") OpenRouter.directive (map PDict ([first] ++ [last]))
    = Ok out ∧
    out !! 0 = Some (PDict o) ∧
    dict_get "content" o
    = Some (PList [PDict [("type", PStr "text"); ("text", PStr "a")]]).
Proof.
  intros first last.
  exact (normalize_front_content (fun _ => "") OpenRouter.directive [first] last 0 first
           eq_refl).
Defined.

Lemma normalize_last_plain_content_witness :
  let d := [("role", PStr "user"); ("content", PStr "hi")] in
  ∃ front o,
    Normalizer.normalize (fun _ => "") OpenRouter.directive (map PDict ([] ++ [d]))
    = Ok (front ++ [PDict o]) ∧
    length front = 0 ∧
    dict_get "content" o
    = Some (PList [PDict [("type", PStr "text"); ("text", PStr "hi");
                          ("cache_control", PDict [("type", PStr "ephemeral")])]]).
Proof.
  intros d.
  refine (normalize_last_plain_content (fun _ => "") OpenRouter.directive [] d (PStr "hi")
            eq_refl _).
  intros blocks. discriminate.
Defined.

(** A last block that is a string stays, and a text block with the same
    text and the directive is put after it. *)
Lemma normalize_last_block_list_witness :
  let d := [("role", PStr "user"); ("content", PList [PStr "a"; PStr "b"])] in
  ∃ front o,
    Normalizer.normalize (fun _ => "") OpenRouter.directive (map PDict ([] ++ [d]))
    = Ok (front ++ [PDict o]) ∧
    length front = 0 ∧
    dict_get "content" o
    = Some (PList [PStr "a"; PStr "b";
                   PDict [("type", PStr "text"); ("text", PStr "b");
                          ("cache_control", PDict [("type", PStr "ephemeral")])]]).
Proof.
  intros d.
  exact (normalize_last_block_list (fun _ => "") OpenRouter.directive [] d
           [PStr "a"] (PStr "b") eq_refl).
Defined.

Lemma anthropic_valid_request_witness :
  let a := Anthropic.mk_handler "sk-server" "1h" "https://api.anthropic.com/v1/messages" in
  let up : upstream := fun _ => PostRaises (py_exc OtherException "") in
  let request_data :=
    [("model", PStr "m"); ("max_tokens", PInt 16);
     ("messages", PList [PDict [("role", PStr "user"); ("content", PStr "hi")]])] in
  ∃ messages out body,
    dict_get "messages" request_data = Some (PList messages) ∧
    Anthropic._standardize_cache_control (fun _ => "") a messages = Ok out ∧
    dict_get "messages" body = Some (PList out) ∧
    (∀ k, k ≠ "messages" → dict_get k body = dict_get k request_data) ∧
    snd (Anthropic.handle_request (fun _ => "") a up request_data None)
    = [mk_post (Anthropic.messages_url a) body
         (Anthropic._prepare_headers a (or_empty None)) false] ∧
    snd (Anthropic.handle_stream_request (fun _ => "") a up request_data None)
    = [mk_post (Anthropic.messages_url a) body
         (Anthropic._prepare_headers a (or_empty None)) true].
Proof.
  intros a up request_data.
  exact (anthropic_valid_request_posted_once (fun _ => "") a up request_data None eq_refl).
Defined.

Lemma openrouter_valid_request_witness :
  let o := OpenRouter.mk_handler "sk-server" "https://openrouter.ai/api/v1/chat/completions" in
  let up : upstream := fun _ =>
    PostResponds (mk_response 200 "OK" "" (Ok (PDict [("id", PStr "gen-1")])) []) in
  let request_data :=
    [("model", PStr "m"); ("top_p", PInt 1);
     ("messages", PList [PDict [("role", PStr "user"); ("content", PStr "hi")]])] in
  ∃ e, OpenRouter.handle_request (fun _ => "") o up request_data None = (Raise e, []) ∧
       exc_cls e = TypeError.
Proof.
  intros o up request_data.
  exact (openrouter_valid_request_is_not_posted (fun _ => "") o up request_data None
           eq_refl).
Defined.

(** A [thinking] field without [budget_tokens] ends the stream with a
    [KeyError]. *)
Lemma openrouter_stream_request_witness :
  let o := OpenRouter.mk_handler "sk-server" "https://openrouter.ai/api/v1/chat/completions" in
  let up : upstream := fun _ => PostRaises (py_exc OtherException "") in
  let request_data :=
    [("model", PStr "m");
     ("messages", PList [PDict [("role", PStr "user"); ("content", PStr "hi")]]);
     ("thinking", PDict [("type", PStr "enabled")])] in
  ∃ e, OpenRouter.handle_stream_request (fun _ => "") o up request_data None
       = (mk_stream [] (Some e), []) ∧
       exc_cls e = KeyError.
Proof.
  intros o up request_data.
  exact (openrouter_stream_request_is_not_posted (fun _ => "") o up request_data None
           eq_refl).
Defined.

Lemma complete_stream_witness :
  let a := Anthropic.mk_handler "sk-server" "1h" "https://api.anthropic.com/v1/messages" in
  let r := mk_response 200 "OK" "" (Raise (py_exc ContentTypeError ""))
             [ReadBytes "event: ping"; ReadBytes "data: {}"; ReadBytes "";
              ReadBytes "never read"] in
  let up : upstream := fun _ => PostResponds r in
  fst (Anthropic._forward_stream_to_anthropic a up [("model", PStr "m")] None)
  = mk_stream ["event: ping"; "data: {}"] None.
Proof.
  intros a r up.
  refine (complete_stream_is_relayed_verbatim a up [("model", PStr "m")] None
            r ["event: ping"; "data: {}"] [ReadBytes "never read"] _ _ _ _).
  - reflexivity.
  - reflexivity.
  - repeat constructor; discriminate.
  - right. reflexivity.
Defined.

(** A connection that is lost while the body is read. *)
Lemma mid_stream_other_failure_witness :
  let a := Anthropic.mk_handler "sk-server" "1h" "https://api.anthropic.com/v1/messages" in
  let e := py_exc ClientConnectionError "Connection reset by peer" in
  let r := mk_response 200 "OK" "" (Raise (py_exc ContentTypeError ""))
             [ReadBytes "event: ping"; ReadRaises e] in
  let up : upstream := fun _ => PostResponds r in
  ∃ frame,
    fst (Anthropic._forward_stream_to_anthropic a up [("model", PStr "m")] None)
    = mk_stream (["event: ping"] ++ [frame]) None ∧
    frame_kind frame = Some "network_error".
Proof.
  intros a e r up.
  refine (mid_stream_other_failure_is_classified a up [("model", PStr "m")] None
            r ["event: ping"] e [] _ _ _ _ _).
  - reflexivity.
  - reflexivity.
  - reflexivity.
  - repeat constructor; discriminate.
  - reflexivity.
Defined.


(** A body that is not JSON is refused with status 400; a request without
    a JSON content type gets status 500. *)
Lemma routes_refuse_unreadable_bodies_witness :
  let a := Anthropic.mk_handler "sk-server" "1h" "https://api.anthropic.com/v1/messages" in
  let o := OpenRouter.mk_handler "sk-server" "https://openrouter.ai/api/v1/chat/completions" in
  let up : upstream := fun _ => PostRaises (py_exc OtherException "") in
  let e := py_exc JSONDecodeError "Expecting value: line 1 column 1 (char 0)" in
  Anthropic.messages_endpoint (fun _ => "") (Some a) up
    (mk_request {["content-type" := "application/json"]} (Raise e))
  = (HTTPError 400 "Invalid JSON in request body", []) ∧
  OpenRouterApp.chat_completions_endpoint (fun _ => "") (Some o) up
    (mk_request {["content-type" := "text/plain"]} (Raise e))
  = (HTTPError 500 "Internal server error", []).
Proof.
  intros a o up e. split.
  - exact (proj1 (proj1 (proj2 (routes_refuse_unreadable_bodies (fun _ => "") a o up
             (mk_request {["content-type" := "application/json"]} (Raise e))))
             eq_refl e eq_refl eq_refl)).
  - exact (proj2 (proj1 (routes_refuse_unreadable_bodies (fun _ => "") a o up
             (mk_request {["content-type" := "text/plain"]} (Raise e)))
             eq_refl)).
Defined.

(** A streaming request without a model is answered with a stream that
    raises. *)
Lemma routes_answer_invalid_requests_witness :
  let a := Anthropic.mk_handler "sk-server" "1h" "https://api.anthropic.com/v1/messages" in
  let o := OpenRouter.mk_handler "sk-server" "https://openrouter.ai/api/v1/chat/completions" in
  let up : upstream := fun _ => PostRaises (py_exc OtherException "") in
  let headers : gmap string string := {["content-type" := "application/json"]} in
  let d := [("stream", PBool true); ("top_p", PInt 1); ("messages", PList [])] in
  Anthropic.messages_endpoint (fun _ => "") (Some a) up (mk_request headers (Ok (PDict d)))
  = (StreamingResponse
       (mk_stream [] (Some (py_exc ValueError "Invalid Anthropic request format"))), []).
Proof.
  intros a o up headers d.
  exact (proj1 (routes_answer_invalid_requests (fun _ => "") a o up headers d eq_refl)
           eq_refl eq_refl).
Defined.

(** A request whose upstream would answer is not posted, and the answer
    has status 500. *)
Lemma chat_completions_endpoint_witness :
  let o := OpenRouter.mk_handler "sk-server" "https://openrouter.ai/api/v1/chat/completions" in
  let up : upstream := fun _ =>
    PostResponds (mk_response 200 "OK" "" (Ok (PDict [("id", PStr "gen-1")])) []) in
  let headers : gmap string string := {["content-type" := "application/json"]} in
  let d := [("model", PStr "m"); ("top_p", PInt 1);
            ("messages", PList [PDict [("role", PStr "user"); ("content", PStr "hi")]])] in
  OpenRouterApp.chat_completions_endpoint (fun _ => "") (Some o) up
    (mk_request headers (Ok (PDict d)))
  = (HTTPError 500 "Internal server error", []).
Proof.
  intros o up headers d.
  destruct (chat_completions_endpoint_never_posts (fun _ => "") o up headers d
              eq_refl eq_refl) as [Hlog Hanswer].
  destruct (OpenRouterApp.chat_completions_endpoint (fun _ => "") (Some o) up
              (mk_request headers (Ok (PDict d)))) as [answer log].
  cbn [fst snd] in Hlog, Hanswer. by rewrite Hlog, Hanswer.
Defined.

Lemma closed_session_witness :
  let self := snd (Session._get_session Session.no_session) in
  let s := fst (Session._get_session (Session.close self)) in
  Session.closed s = false ∧ Session.session_id s ≠ 0.
Proof.
  intros self s.
  destruct (closed_session_is_replaced self (Session.new_session 0)) as (_ & _ & Hc & Hid & _).
  - unfold Session.connection_ok. simpl. lia.
  - reflexivity.
  - split; [exact Hc|exact Hid].
Defined.

(** An empty list of messages is returned as it is; for a list of one
    message the call returns a list that was not there before. *)
Lemma normalizer_returns_new_list_witness :
  let h : Heap.heap := {[ 1%positive := Heap.HList [] ]} in
  Heap._add_cache_control_to_messages (fun _ _ => "") 1%positive h = (Ok 1%positive, h).
Proof.
  intros h.
  exact (proj2 (normalizer_returns_new_list (fun _ _ => "") "1h" 1%positive [] h eq_refl)).
Defined.

(** A streaming request whose upstream call times out. *)
Lemma anthropic_streaming_route_witness :
  let a := Anthropic.mk_handler "sk-server" "1h" "https://api.anthropic.com/v1/messages" in
  let up : upstream := fun _ => PostRaises (py_exc TimeoutError "") in
  let headers : gmap string string := {["content-type" := "application/json"]} in
  let d := [("model", PStr "m"); ("stream", PBool true); ("top_p", PInt 1);
            ("messages", PList [PDict [("role", PStr "user"); ("content", PStr "hi")]])] in
  ∃ body rq,
    Anthropic.messages_endpoint (fun _ => "") (Some a) up (mk_request headers (Ok (PDict d)))
    = (StreamingResponse body, [rq]) ∧
    raised body = None ∧
    post_raw rq = true ∧
    dict_get "stream" (post_json rq) = Some (PBool true) ∧
    dict_get "top_p" (post_json rq) = None.
Proof.
  intros a up headers d.
  exact (anthropic_streaming_route_ends_normally (fun _ => "") a up headers d
           eq_refl eq_refl eq_refl eq_refl).
Defined.
